(** * Visibility filter of the hidden-preferences hook

    A shallow embedding of [filterPreferences] and [useApplyHiddenPreferences]
    from [src/components/HiddenPreferences/useApplyHiddenPreferences.ts],
    together with the properties of the filter that the specification states.

    Conventions of the embedding:
    - JavaScript numbers that hold ids, maturity levels and counters are [Z];
    - an optional (or nullable) field is an [option]; [??] and [?.] treat
      [null] and [undefined] alike, so both are [None];
    - [Map<number, boolean>] is a [gmap Z bool], read through [get], the
      truthiness of [Map.prototype.get];
    - the [hidden] record that the callbacks mutate is threaded explicitly
      through the callbacks (type [Tally]);
    - a thrown exception is the [Throw] constructor of [Result]. *)

From Stdlib Require Import ZArith List Bool String Lia.
From stdpp Require Import base option list gmap.
Import ListNotations.
Local Open Scope Z_scope.

(** ** JavaScript helpers *)

(** Truthiness of a number: every number but [0] (ids are never [NaN]). *)
Definition truthyNum (n : Z) : bool := negb (n =? 0).

(** Truthiness of [number | undefined]. *)
Definition truthy (v : option Z) : bool :=
  match v with
  | Some n => truthyNum n
  | None => false
  end.

(** [a === b] on [number | undefined]: [undefined === undefined] holds. *)
Definition strictEq (a b : option Z) : bool :=
  match a, b with
  | Some x, Some y => x =? y
  | None, None => true
  | _, _ => false
  end.

(** Truthiness of [m.get(k)] for a [Map<number, boolean>]. *)
Definition get (m : gmap Z bool) (k : Z) : bool :=
  match m !! k with
  | Some b => b
  | None => false
  end.

(** [a ?? b] *)
Definition nullish {A : Type} (a b : option A) : option A :=
  match a with
  | Some x => Some x
  | None => b
  end.

(** [xs ?? []] *)
Definition orEmpty {A : Type} (xs : option (list A)) : list A :=
  match xs with
  | Some l => l
  | None => []
  end.

(** The value of [Math.max(...xs)]: [-Infinity] on the empty list. *)
Inductive ExtNum : Type :=
  | NegInfinity
  | Fin (n : Z).

Definition Math_max (xs : list Z) : ExtNum :=
  fold_right
    (fun x acc => match acc with
                  | NegInfinity => Fin x
                  | Fin y => Fin (Z.max x y)
                  end)
    NegInfinity xs.

(** [n > m] where [m] may be [-Infinity]. *)
Definition exceeds (n : Z) (m : ExtNum) : bool :=
  match m with
  | NegInfinity => true
  | Fin y => y <? n
  end.

(** [Array.prototype.sort] is a stable sort; with a comparator that is a
    consistent ordering every stable sort returns the same array, so it is
    given here by insertion from the right. *)
Fixpoint insertBy {A : Type} (cmp : A -> A -> Z) (x : A) (l : list A) : list A :=
  match l with
  | [] => [x]
  | y :: l' => if cmp x y <=? 0 then x :: y :: l' else y :: insertBy cmp x l'
  end.

Fixpoint sortBy {A : Type} (cmp : A -> A -> Z) (l : list A) : list A :=
  match l with
  | [] => []
  | x :: l' => insertBy cmp x (sortBy cmp l')
  end.

(** [.filter(isDefined)] after a [.map] that returns objects or [null]. *)
Fixpoint defined {A : Type} (l : list (option A)) : list A :=
  match l with
  | [] => []
  | Some x :: l' => x :: defined l'
  | None :: l' => defined l'
  end.

(** ** Imported helpers that are not part of the sources

    [Flags] ([~/shared/utils]), [parseBitwiseBrowsingLevel]
    ([~/shared/constants/browsingLevel.constants]) and the [NsfwLevel] enum
    ([~/server/common/enums]) are imported by the hook; the filter is
    parametric in them. *)
Class SharedUtils : Type := {
  Flags_intersects : Z -> Z -> bool;
  Flags_maxValue : Z -> ExtNum;
  parseBitwiseBrowsingLevel : Z -> list Z;
  NsfwLevel_PG13 : Z;
}.

(** Modelled from the spec: [Flags.intersects], [Flags.maxValue],
    [parseBitwiseBrowsingLevel] and [NsfwLevel.PG13] are missing from the
    sources.  The browsing level is a bitmask in which each set bit is an
    enabled tier (PG = 1, PG13 = 2, R = 4, ...); two levels intersect when
    they share a bit; the maximum enabled tier is the highest set bit. *)
Definition bitTiers (mask : Z) : list Z :=
  List.filter (fun tier => negb (Z.land mask tier =? 0))
    (List.map (fun i => 2 ^ Z.of_nat i) (seq 0 32)).

(** Modelled from the spec: the instance of the missing helpers ([Flags],
    [parseBitwiseBrowsingLevel], [NsfwLevel.PG13]) that reads levels as
    bitmasks; the sample inputs are evaluated with it. *)
#[export] Instance bitFlags : SharedUtils := {|
  Flags_intersects a b := negb (Z.land a b =? 0);
  Flags_maxValue mask := Math_max (bitTiers mask);
  parseBitwiseBrowsingLevel := bitTiers;
  NsfwLevel_PG13 := 2;
|}.

(** ** The tally of hidden items *)

Module Hidden.
Record t : Type := mk {
  unprocessed : Z;
  browsingLevel : Z;
  models : Z;
  images : Z;
  tags : Z;
  users : Z;
  noImages : Z;
}.

Definition zero : t := mk 0 0 0 0 0 0 0.

Definition add (a b : t) : t :=
  mk (unprocessed a + unprocessed b) (browsingLevel a + browsingLevel b)
     (models a + models b) (images a + images b) (tags a + tags b)
     (users a + users b) (noImages a + noImages b).

(** [hidden.browsingLevel++] and its siblings. *)
Definition incr_browsingLevel (h : t) : t :=
  mk (unprocessed h) (browsingLevel h + 1) (models h) (images h) (tags h)
     (users h) (noImages h).
Definition incr_models (h : t) : t :=
  mk (unprocessed h) (browsingLevel h) (models h + 1) (images h) (tags h)
     (users h) (noImages h).
Definition incr_images (h : t) : t :=
  mk (unprocessed h) (browsingLevel h) (models h) (images h + 1) (tags h)
     (users h) (noImages h).
Definition incr_tags (h : t) : t :=
  mk (unprocessed h) (browsingLevel h) (models h) (images h) (tags h + 1)
     (users h) (noImages h).
Definition incr_users (h : t) : t :=
  mk (unprocessed h) (browsingLevel h) (models h) (images h) (tags h)
     (users h + 1) (noImages h).
Definition incr_noImages (h : t) : t :=
  mk (unprocessed h) (browsingLevel h) (models h) (images h) (tags h)
     (users h) (noImages h + 1).

(** The sum of all seven counters. *)
Definition total (h : t) : Z :=
  unprocessed h + browsingLevel h + models h + images h + tags h + users h
  + noImages h.

(** Exactly one counter is [1] and every other counter is [0]. *)
Definition single (h : t) : Prop :=
  h = incr_browsingLevel zero \/ h = incr_models zero \/ h = incr_images zero
  \/ h = incr_tags zero \/ h = incr_users zero \/ h = incr_noImages zero.
End Hidden.

(** A callback that reads and updates the shared [hidden] record. *)
Definition Tally (A : Type) : Type := Hidden.t -> A * Hidden.t.

(** [xs.filter(callback)] with a callback that updates [hidden]. *)
Fixpoint filterM {A : Type} (p : A -> Tally bool) (xs : list A) : Tally (list A) :=
  fun h =>
    match xs with
    | [] => ([], h)
    | x :: xs' =>
        let '(keep, h1) := p x h in
        let '(rest, h2) := filterM p xs' h1 in
        (if keep then x :: rest else rest, h2)
    end.

(** Exceptions. *)
Inductive Error : Type :=
  | TypeError            (* reading a property of [undefined] *)
  | UnhandledFilterType. (* [Error('unhandled hidden user preferences filter type')] *)

Inductive Result (A : Type) : Type :=
  | Ok (a : A)
  | Throw (e : Error).
Arguments Ok {A} a.
Arguments Throw {A} e.

(** [xs.map(callback)] with a callback that updates [hidden] and may throw. *)
Fixpoint mapM {A B : Type} (f : A -> Hidden.t -> Result (B * Hidden.t))
    (xs : list A) (h : Hidden.t) : Result (list B * Hidden.t) :=
  match xs with
  | [] => Ok ([], h)
  | x :: xs' =>
      match f x h with
      | Throw e => Throw e
      | Ok (y, h1) =>
          match mapM f xs' h1 with
          | Throw e => Throw e
          | Ok (ys, h2) => Ok (y :: ys, h2)
          end
      end
  end.

(** ** Data model *)

(** [{ id: number }] *)
Module UserRef.
Record t : Type := mk { id : Z }.
End UserRef.

(** [currentUser]: the fields of [CivitaiSessionUser] that the filter reads. *)
Module SessionUser.
Record t : Type := mk { id : Z; isModerator : bool }.
End SessionUser.

(** [BaseImage]; also the shape of the images of a [BasePost]. *)
Module BaseImage.
Record t : Type := mk {
  id : Z;
  userId : option Z;
  user : option UserRef.t;
  tagIds : option (list Z);
  nsfwLevel : Z;
}.
End BaseImage.

(** The images of a [BaseModel]. *)
Module ModelImage.
Record t : Type := mk {
  id : Z;
  tags : option (list Z);
  nsfwLevel : Z;
  userId : option Z;
}.
End ModelImage.

(** The images of a [BaseCollection] and of a [BaseBounty]. *)
Module OwnedImage.
Record t : Type := mk {
  id : Z;
  tagIds : option (list Z);
  nsfwLevel : Z;
  userId : Z;
}.
End OwnedImage.

(** [BaseModel].  The type declares [images] as required, the code reads it
    with [images?.filter(...) ?? []]: it is optional here. [nsfw] is only
    tested for truthiness. *)
Module BaseModel.
Record t : Type := mk {
  id : Z;
  user : UserRef.t;
  images : option (list ModelImage.t);
  tags : option (list Z);
  nsfwLevel : Z;
  nsfw : bool;
}.
(** [{ ...x, images: imgs }] *)
Definition withImages (x : t) (imgs : list ModelImage.t) : t :=
  mk (id x) (user x) (Some imgs) (tags x) (nsfwLevel x) (nsfw x).
End BaseModel.

Module CoverImage.
Record t : Type := mk { id : Z; tags : list Z; nsfwLevel : Z }.
End CoverImage.

Module BaseArticle.
Record t : Type := mk {
  id : Z;
  user : UserRef.t;
  nsfwLevel : Z;
  tags : option (list UserRef.t);   (* [{ id: number }[]] *)
  coverImage : option CoverImage.t;
}.
End BaseArticle.

Module BaseUser.
Record t : Type := mk { id : Z }.
End BaseUser.

(** [BaseCollection]; [images] is read with a default ([images = []]). *)
Module BaseCollection.
Record t : Type := mk {
  id : Z;
  userId : option Z;
  user : option UserRef.t;
  nsfwLevel : Z;
  image : option OwnedImage.t;
  images : option (list OwnedImage.t);
}.
(** [{ ...x, images: imgs }] where [x] is the rest of
    [{ images = [], image, ...x }]: the result has no [image]. *)
Definition withImages (x : t) (imgs : list OwnedImage.t) : t :=
  mk (id x) (userId x) (user x) (nsfwLevel x) None (Some imgs).
End BaseCollection.

(** [BaseBounty].  The type declares [images] as required, the code reads it
    with [bounty.images ?? []] and [images?.filter]: it is optional here. *)
Module BaseBounty.
Record t : Type := mk {
  id : Z;
  user : UserRef.t;
  tags : option (list Z);
  nsfwLevel : Z;
  nsfw : bool;
  images : option (list OwnedImage.t);
}.
Definition withImages (x : t) (imgs : list OwnedImage.t) : t :=
  mk (id x) (user x) (tags x) (nsfwLevel x) (nsfw x) (Some imgs).
End BaseBounty.

Module BasePost.
Record t : Type := mk {
  userId : option Z;
  user : option UserRef.t;
  nsfwLevel : Z;
  images : option (list BaseImage.t);
}.
(** [{ ...post, images: imgs }] *)
Definition withImages (x : t) (imgs : list BaseImage.t) : t :=
  mk (userId x) (user x) (nsfwLevel x) (Some imgs).
End BasePost.

(** [BaseTag], also the shape of the entries of [moderatedTags]. *)
Module BaseTag.
Record t : Type := mk { id : Z; nsfwLevel : option Z }.
End BaseTag.

(** [keyof BaseDataTypeMap] *)
Inductive DataKey : Type :=
  | models | images | articles | users | collections | bounties | posts | tags.

Definition ItemOf (k : DataKey) : Type :=
  match k with
  | models => BaseModel.t
  | images => BaseImage.t
  | articles => BaseArticle.t
  | users => BaseUser.t
  | collections => BaseCollection.t
  | bounties => BaseBounty.t
  | posts => BasePost.t
  | tags => BaseTag.t
  end.

Definition BaseDataTypeMap (k : DataKey) : Type := list (ItemOf k).

(** The run-time value of [type]: a key of [BaseDataTypeMap], or any other
    value, which the type checker rejects but the [default] branch of the
    [switch] expects. *)
Inductive TypeArg : Type :=
  | key (k : DataKey)
  | unhandled (name : string).

(** An element of [data] under an unhandled [type]; never inspected. *)
Definition JsValue : Type := unit.

Definition ElemOf (type : TypeArg) : Type :=
  match type with
  | key k => ItemOf k
  | unhandled _ => JsValue
  end.

(** [HiddenPreferencesState]: the fields that the filter reads. *)
Record HiddenPreferencesState : Type := {
  hiddenModels : gmap Z bool;
  hiddenImages : gmap Z bool;
  hiddenTags : gmap Z bool;
  hiddenUsers : gmap Z bool;
  moderatedTags : list BaseTag.t;
  hiddenLoading : bool;
}.

(** [FilterPreferencesProps] without [type] and [data]; the optional booleans
    are only tested for truthiness. *)
Record FilterPreferencesProps : Type := {
  hiddenPreferences : HiddenPreferencesState;
  browsingLevel : Z;
  showHidden : bool;
  showImageless : bool;
  disabled : bool;
  currentUser : option SessionUser.t;
  allowLowerLevels : bool;
}.

(** The value that [filterPreferences] returns. *)
Record FilterResult (A : Type) : Type := {
  items : list A;
  hidden : Hidden.t;
}.
Arguments items {A} _.
Arguments hidden {A} _.

(** ** [filterPreferences] *)

Section FilterPreferences.
Context {U : SharedUtils}.
Variable props : FilterPreferencesProps.

Local Abbreviation prefs := (hiddenPreferences props).

(** [!!currentUser?.isModerator] *)
Definition isModerator : bool :=
  match currentUser props with
  | Some u => SessionUser.isModerator u
  | None => false
  end.

(** [currentUser?.id] *)
Definition currentUserId : option Z :=
  match currentUser props with
  | Some u => Some (SessionUser.id u)
  | None => None
  end.

(** [Math.max(...parseBitwiseBrowsingLevel(browsingLevel))] *)
Definition maxSelectedLevel : ExtNum :=
  Math_max (parseBitwiseBrowsingLevel (browsingLevel props)).

(** [Flags.maxValue(browsingLevel)] *)
Definition maxBrowsingLevel : ExtNum := Flags_maxValue (browsingLevel props).

(** [(isOwner || isModerator) && x.nsfwLevel === 0] *)
Definition override (isOwner : bool) (nsfwLevel : Z) : bool :=
  (isOwner || isModerator) && (nsfwLevel =? 0).

(** [for (const tag of tagIds) if (hiddenTags.get(tag)) return ...] *)
Definition anyHiddenTag (tagIds : list Z) : bool :=
  existsb (get (hiddenTags prefs)) tagIds.

(** *** [case 'models'] *)

Definition modelsFilter (model : BaseModel.t) : Tally bool := fun h =>
  let userId := UserRef.id (BaseModel.user model) in
  let isOwner := strictEq (Some userId) currentUserId in
  if override isOwner (BaseModel.nsfwLevel model) then (true, h)
  else if negb (Flags_intersects (BaseModel.nsfwLevel model) (browsingLevel props))
  then (false, Hidden.incr_browsingLevel h)
  else if truthyNum userId && get (hiddenUsers prefs) userId
  then (false, Hidden.incr_users h)
  else if get (hiddenModels prefs) (BaseModel.id model) && negb (showHidden props)
  then (false, Hidden.incr_models h)
  else if anyHiddenTag (orEmpty (BaseModel.tags model))
  then (false, Hidden.incr_tags h)
  else (true, h).

(** The callback of [images?.filter] for the images of the model [x]. *)
Definition modelImageVisible (x : BaseModel.t) (i : ModelImage.t) : bool :=
  let userId := ModelImage.userId i in
  let isOwner := truthy userId && strictEq userId currentUserId in
  if override isOwner (ModelImage.nsfwLevel i) then true
  else if (if BaseModel.nsfw x
           then exceeds (ModelImage.nsfwLevel i) maxSelectedLevel
           else negb (Flags_intersects (ModelImage.nsfwLevel i) (browsingLevel props)))
  then false
  else if get (hiddenImages prefs) (ModelImage.id i) then false
  else if anyHiddenTag (orEmpty (ModelImage.tags i)) then false
  else true.

(** The comparator of [filteredImages.sort]. *)
Definition compareIntersects (a b : ModelImage.t) : Z :=
  let aIntersects := Flags_intersects (ModelImage.nsfwLevel a) (browsingLevel props) in
  let bIntersects := Flags_intersects (ModelImage.nsfwLevel b) (browsingLevel props) in
  if Bool.eqb aIntersects bIntersects then 0 else if aIntersects then -1 else 1.

(** [sort] works in place: [sortedImages] and [filteredImages] are the same
    array whenever [x.nsfw] holds, so the images of the result are sorted. *)
Definition modelImages (x : BaseModel.t) : list ModelImage.t :=
  let filteredImages :=
    match BaseModel.images x with
    | Some imgs => List.filter (modelImageVisible x) imgs
    | None => []
    end in
  if BaseModel.nsfw x then sortBy compareIntersects filteredImages
  else filteredImages.

Definition modelsMap (x : BaseModel.t) (h : Hidden.t)
  : Result (option BaseModel.t * Hidden.t) :=
  let sortedImages := modelImages x in
  let h := if (length sortedImages =? 0)%nat then Hidden.incr_noImages h else h in
  Ok (if negb (length sortedImages =? 0)%nat || showImageless props
      then Some (BaseModel.withImages x sortedImages)
      else None, h).

(** *** [case 'images'] *)

Definition imagesFilter (image : BaseImage.t) : Tally bool := fun h =>
  let userId :=
    nullish (BaseImage.userId image) (option_map UserRef.id (BaseImage.user image)) in
  let isOwner := truthy userId && strictEq userId currentUserId in
  if override isOwner (BaseImage.nsfwLevel image) then (true, h)
  else if (if allowLowerLevels props
           then exceeds (BaseImage.nsfwLevel image) maxBrowsingLevel
           else negb (Flags_intersects (BaseImage.nsfwLevel image) (browsingLevel props)))
  then (false, Hidden.incr_browsingLevel h)
  else if truthy userId && from_option (get (hiddenUsers prefs)) false userId
  then (false, Hidden.incr_users h)
  else if get (hiddenImages prefs) (BaseImage.id image) && negb (showHidden props)
  then (false, Hidden.incr_images h)
  else if anyHiddenTag (orEmpty (BaseImage.tagIds image))
  then (false, Hidden.incr_tags h)
  else (true, h).

(** *** [case 'articles'] *)

Definition articlesFilter (article : BaseArticle.t) : Tally bool := fun h =>
  let userId := UserRef.id (BaseArticle.user article) in
  let isOwner := strictEq (Some userId) currentUserId in
  if override isOwner (BaseArticle.nsfwLevel article) then (true, h)
  else if negb (Flags_intersects (BaseArticle.nsfwLevel article) (browsingLevel props))
  then (false, Hidden.incr_browsingLevel h)
  else if get (hiddenUsers prefs) (UserRef.id (BaseArticle.user article))
  then (false, Hidden.incr_users h)
  else if anyHiddenTag (List.map UserRef.id (orEmpty (BaseArticle.tags article)))
  then (false, Hidden.incr_tags h)
  else
    match BaseArticle.coverImage article with
    | Some coverImage =>
        if get (hiddenImages prefs) (CoverImage.id coverImage)
        then (false, Hidden.incr_images h)
        else if anyHiddenTag (CoverImage.tags coverImage)
        then (false, Hidden.incr_tags h)
        else (true, h)
    | None => (true, h)
    end.

(** *** [case 'users'] *)

Definition usersFilter (user : BaseUser.t) : Tally bool := fun h =>
  if strictEq (Some (BaseUser.id user)) currentUserId then (true, h)
  else if get (hiddenUsers prefs) (BaseUser.id user)
  then (false, Hidden.incr_users h)
  else (true, h).

(** *** [case 'collections'] *)

(** The loop over [collection.image.tagIds]: it increments [hidden.images]
    at every hidden tag and does not return. *)
Definition countHiddenTags (tagIds : list Z) (h : Hidden.t) : Hidden.t :=
  fold_left
    (fun h tag => if get (hiddenTags prefs) tag then Hidden.incr_images h else h)
    tagIds h.

Definition collectionsFilter (collection : BaseCollection.t) : Tally bool := fun h =>
  let userId :=
    nullish (BaseCollection.userId collection)
      (option_map UserRef.id (BaseCollection.user collection)) in
  let isOwner := truthy userId && strictEq userId currentUserId in
  if override isOwner (BaseCollection.nsfwLevel collection) then (true, h)
  else if negb (Flags_intersects (BaseCollection.nsfwLevel collection) (browsingLevel props))
  then (false, Hidden.incr_browsingLevel h)
  else if truthy userId && from_option (get (hiddenUsers prefs)) false userId
  then (false, Hidden.incr_users h)
  else
    match BaseCollection.image collection with
    | Some image =>
        if get (hiddenImages prefs) (OwnedImage.id image)
        then (false, Hidden.incr_images h)
        else (true, countHiddenTags (orEmpty (OwnedImage.tagIds image)) h)
    | None => (true, h)
    end.

(** The callback of the image filter of collections and bounties. *)
Definition ownedImageVisible (i : OwnedImage.t) : bool :=
  let userId := OwnedImage.userId i in
  let isOwner := strictEq (Some userId) currentUserId in
  if override isOwner (OwnedImage.nsfwLevel i) then true
  else if negb (Flags_intersects (OwnedImage.nsfwLevel i) (browsingLevel props)) then false
  else if get (hiddenImages prefs) (OwnedImage.id i) then false
  else if anyHiddenTag (orEmpty (OwnedImage.tagIds i)) then false
  else true.

(** [image ? [...images, image] : images] with [images = []] by default. *)
Definition mergedImages (x : BaseCollection.t) : list OwnedImage.t :=
  match BaseCollection.image x with
  | Some image => orEmpty (BaseCollection.images x) ++ [image]
  | None => orEmpty (BaseCollection.images x)
  end.

Definition collectionsMap (x : BaseCollection.t) (h : Hidden.t)
  : Result (option BaseCollection.t * Hidden.t) :=
  let filteredImages := List.filter ownedImageVisible (mergedImages x) in
  let h := if (length filteredImages =? 0)%nat then Hidden.incr_noImages h else h in
  Ok (if negb (length filteredImages =? 0)%nat || showImageless props
      then Some (BaseCollection.withImages x filteredImages)
      else None, h).

(** *** [case 'bounties'] *)

Definition bountiesFilter (bounty : BaseBounty.t) : Tally bool := fun h =>
  let userId := UserRef.id (BaseBounty.user bounty) in
  let isOwner := strictEq (Some userId) currentUserId in
  if override isOwner (BaseBounty.nsfwLevel bounty) then (true, h)
  else if negb (Flags_intersects (BaseBounty.nsfwLevel bounty) (browsingLevel props))
  then (false, Hidden.incr_browsingLevel h)
  else if get (hiddenUsers prefs) (UserRef.id (BaseBounty.user bounty))
  then (false, Hidden.incr_users h)
  else if existsb (fun image => get (hiddenImages prefs) (OwnedImage.id image))
            (orEmpty (BaseBounty.images bounty))
  then (false, Hidden.incr_images h)
  else if anyHiddenTag (orEmpty (BaseBounty.tags bounty))
  then (false, Hidden.incr_tags h)
  else (true, h).

(** [images?.filter(...)] is [undefined] when [images] is; the test
    [filteredImages?.length === 0] is then false and [filteredImages.length]
    throws a [TypeError]. *)
Definition bountiesMap (x : BaseBounty.t) (h : Hidden.t)
  : Result (option BaseBounty.t * Hidden.t) :=
  match option_map (List.filter ownedImageVisible) (BaseBounty.images x) with
  | None => Throw TypeError
  | Some filteredImages =>
      let h := if (length filteredImages =? 0)%nat then Hidden.incr_noImages h else h in
      Ok (if negb (length filteredImages =? 0)%nat
          then Some (BaseBounty.withImages x filteredImages)
          else None, h)
  end.

(** *** [case 'posts'] *)

Definition postsFilter (post : BasePost.t) : Tally bool := fun h =>
  let userId :=
    nullish (BasePost.userId post) (option_map UserRef.id (BasePost.user post)) in
  let isOwner := truthy userId && strictEq userId currentUserId in
  if override isOwner (BasePost.nsfwLevel post) then (true, h)
  else if negb (Flags_intersects (BasePost.nsfwLevel post) (browsingLevel props))
  then (false, Hidden.incr_browsingLevel h)
  else if truthy userId && from_option (get (hiddenUsers prefs)) false userId
  then (false, Hidden.incr_users h)
  else (true, h).

(** The callback of the image filter of posts: [isOwner] is a bare [===]. *)
Definition postImageVisible (image : BaseImage.t) : bool :=
  let userId :=
    nullish (BaseImage.userId image) (option_map UserRef.id (BaseImage.user image)) in
  let isOwner := strictEq userId currentUserId in
  if override isOwner (BaseImage.nsfwLevel image) then true
  else if negb (Flags_intersects (BaseImage.nsfwLevel image) (browsingLevel props)) then false
  else if get (hiddenImages prefs) (BaseImage.id image) then false
  else if anyHiddenTag (orEmpty (BaseImage.tagIds image)) then false
  else true.

Definition postsMap (post : BasePost.t) (h : Hidden.t)
  : Result (option BasePost.t * Hidden.t) :=
  match BasePost.images post with
  | None => Ok (Some post, h)
  | Some imgs =>
      let filteredImages := List.filter postImageVisible imgs in
      let h := if (length filteredImages =? 0)%nat then Hidden.incr_noImages h else h in
      Ok (if negb (length filteredImages =? 0)%nat || showImageless props
          then Some (BasePost.withImages post filteredImages)
          else None, h)
  end.

(** *** [case 'tags'] *)

Definition moderatedTagIds : list Z :=
  List.map BaseTag.id
    (List.filter
       (fun x => truthy (BaseTag.nsfwLevel x)
                 && from_option (fun l => Flags_intersects l (browsingLevel props))
                      false (BaseTag.nsfwLevel x))
       (moderatedTags prefs)).

(** [xs.includes(n)] *)
Definition includes (xs : list Z) (n : Z) : bool := existsb (Z.eqb n) xs.

Definition tagsFilter (tag : BaseTag.t) : Tally bool := fun h =>
  if get (hiddenTags prefs) (BaseTag.id tag) then (false, Hidden.incr_tags h)
  else if truthy (BaseTag.nsfwLevel tag)
          && from_option (fun l => NsfwLevel_PG13 <? l) false (BaseTag.nsfwLevel tag)
          && negb (includes moderatedTagIds (BaseTag.id tag))
  then (false, Hidden.incr_browsingLevel h)
  else (true, h).

(** *** The two shapes of the branches *)

(** [value.filter(p)] *)
Definition filtered {A : Type} (p : A -> Tally bool) (value : list A)
  : Result (FilterResult A) :=
  let '(kept, h) := filterM p value Hidden.zero in
  Ok {| items := kept; hidden := h |}.

(** [value.filter(p).map(f).filter(isDefined)] *)
Definition filteredMapped {A : Type} (p : A -> Tally bool)
    (f : A -> Hidden.t -> Result (option A * Hidden.t)) (value : list A)
  : Result (FilterResult A) :=
  let '(kept, h) := filterM p value Hidden.zero in
  match mapM f kept h with
  | Throw e => Throw e
  | Ok (mapped, h) => Ok {| items := defined mapped; hidden := h |}
  end.

(** [switch (key)] for the keys of [BaseDataTypeMap]. *)
Definition switch (k : DataKey) : list (ItemOf k) -> Result (FilterResult (ItemOf k)) :=
  match k with
  | models => filteredMapped modelsFilter modelsMap
  | images => filtered imagesFilter
  | articles => filtered articlesFilter
  | users => filtered usersFilter
  | collections => filteredMapped collectionsFilter collectionsMap
  | bounties => filteredMapped bountiesFilter bountiesMap
  | posts => filteredMapped postsFilter postsMap
  | tags => filtered tagsFilter
  end.

Definition filterPreferences (type : TypeArg) (data : option (list (ElemOf type)))
  : Result (FilterResult (ElemOf type)) :=
  match data with
  | None => Ok {| items := []; hidden := Hidden.zero |}
  | Some value =>
      if disabled props || hiddenLoading prefs
      then Ok {| items := []; hidden := Hidden.zero |}
      else
        match type return list (ElemOf type) -> Result (FilterResult (ElemOf type)) with
        | key k => switch k
        | unhandled _ => fun _ => Throw UnhandledFilterType
        end value
  end.
End FilterPreferences.

(** ** [useApplyHiddenPreferences] *)

Module Hook.
(** The argument of the hook, without [type]. *)
Record Args (type : TypeArg) : Type := {
  data : option (list (ElemOf type));
  showHidden : bool;
  showImageless : bool;
  disabled : bool;
  isRefetching : bool;
  hiddenImages : list Z;
  hiddenUsers : list Z;
  hiddenTags : list Z;
  browsingLevel : option Z;
  allowLowerLevels : bool;
}.

(** What the hook reads from React: the session, the [previous] state, the
    debounced browsing level and the hidden-preferences context. *)
Record Env (type : TypeArg) : Type := {
  currentUser : option SessionUser.t;
  previous : list (ElemOf type);
  systemBrowsingLevel : Z;
  context : HiddenPreferencesState;
}.

Record Out (type : TypeArg) : Type := {
  loadingPreferences : bool;
  items : list (ElemOf type);
  hiddenCount : Z;
}.
End Hook.
Arguments Hook.data {type}.
Arguments Hook.showHidden {type}.
Arguments Hook.showImageless {type}.
Arguments Hook.disabled {type}.
Arguments Hook.isRefetching {type}.
Arguments Hook.hiddenImages {type}.
Arguments Hook.hiddenUsers {type}.
Arguments Hook.hiddenTags {type}.
Arguments Hook.browsingLevel {type}.
Arguments Hook.allowLowerLevels {type}.
Arguments Hook.currentUser {type}.
Arguments Hook.previous {type}.
Arguments Hook.systemBrowsingLevel {type}.
Arguments Hook.context {type}.
Arguments Hook.loadingPreferences {type}.
Arguments Hook.items {type}.
Arguments Hook.hiddenCount {type}.

(** [new Map([...m, ...ids.map((id) => [id, true])])] when [ids] is not empty. *)
Definition withHidden (m : gmap Z bool) (ids : list Z) : gmap Z bool :=
  if (0 <? length ids)%nat
  then fold_left (fun acc id => <[id := true]> acc) ids m
  else m.

(** The [preferences] that the hook hands to the filter. *)
Definition mergedPreferences {type : TypeArg} (args : Hook.Args type)
    (ctx : HiddenPreferencesState) : HiddenPreferencesState :=
  {| hiddenModels := hiddenModels ctx;
     hiddenImages := withHidden (hiddenImages ctx) (Hook.hiddenImages args);
     hiddenTags := withHidden (hiddenTags ctx) (Hook.hiddenTags args);
     hiddenUsers := withHidden (hiddenUsers ctx) (Hook.hiddenUsers args);
     moderatedTags := moderatedTags ctx;
     hiddenLoading := hiddenLoading ctx |}.

(** The props of the call of [filterPreferences] inside [useMemo]. *)
Definition hookProps {type : TypeArg} (args : Hook.Args type) (env : Hook.Env type)
  : FilterPreferencesProps :=
  {| hiddenPreferences := mergedPreferences args (Hook.context env);
     browsingLevel :=
       from_option (fun n => n) (Hook.systemBrowsingLevel env) (Hook.browsingLevel args);
     showHidden := Hook.showHidden args;
     showImageless := Hook.showImageless args;
     disabled := Hook.disabled args;
     currentUser := Hook.currentUser env;
     allowLowerLevels := Hook.allowLowerLevels args |}.

(** One render of the hook in which [useMemo] computes its value. *)
Definition useApplyHiddenPreferences `{SharedUtils} (type : TypeArg)
    (args : Hook.Args type) (env : Hook.Env type) : Result (Hook.Out type) :=
  match filterPreferences (hookProps args env) type (Hook.data args) with
  | Throw e => Throw e
  | Ok r =>
      let hiddenCount :=
        Hidden.browsingLevel (hidden r) + Hidden.models (hidden r)
        + Hidden.images (hidden r) + Hidden.tags (hidden r) + Hidden.users (hidden r) in
      Ok {| Hook.loadingPreferences := hiddenLoading (Hook.context env);
            Hook.items := if Hook.isRefetching args then Hook.previous env else items r;
            Hook.hiddenCount := hiddenCount |}
  end.

(** * Vocabulary of the properties *)

(** The call reaches the [switch]: [disabled] is false and the preferences are
    loaded ([data] is present whenever it is written [Some value]). *)
Definition reachesSwitch (props : FilterPreferencesProps) : bool :=
  negb (disabled props || hiddenLoading (hiddenPreferences props)).

(** Every bounty has the [images] array that [BaseBounty] declares. *)
Definition imagesPresent (k : DataKey) : ItemOf k -> bool :=
  match k with
  | bounties => fun x => match BaseBounty.images x with Some _ => true | None => false end
  | _ => fun _ => true
  end.

Definition isBounties (k : DataKey) : bool :=
  match k with bounties => true | _ => false end.

(** The level that the browsing-level rule of the branch of [k] tests; the
    branches of users and tags have no such rule. *)
Definition levelOf (k : DataKey) : ItemOf k -> option Z :=
  match k with
  | models => fun x => Some (BaseModel.nsfwLevel x)
  | images => fun x => Some (BaseImage.nsfwLevel x)
  | articles => fun x => Some (BaseArticle.nsfwLevel x)
  | collections => fun x => Some (BaseCollection.nsfwLevel x)
  | bounties => fun x => Some (BaseBounty.nsfwLevel x)
  | posts => fun x => Some (BasePost.nsfwLevel x)
  | users | tags => fun _ => None
  end.

(** The parent with an empty [images] array. *)
Definition emptied (k : DataKey) : ItemOf k -> ItemOf k :=
  match k with
  | models => fun x => BaseModel.withImages x []
  | collections => fun x => BaseCollection.withImages x []
  | bounties => fun x => BaseBounty.withImages x []
  | posts => fun x => BasePost.withImages x []
  | _ => fun x => x
  end.

(** The results of two calls, one after the other. *)
Definition combine {A : Type} (r1 r2 : Result (FilterResult A)) : Result (FilterResult A) :=
  match r1, r2 with
  | Ok a, Ok b =>
      Ok {| items := items a ++ items b; hidden := Hidden.add (hidden a) (hidden b) |}
  | Throw e, _ => Throw e
  | Ok _, Throw e => Throw e
  end.

(** A callback is additive when it only adds a fixed amount to the tally. *)
Definition additive {A : Type} (m : Tally A) : Prop :=
  forall h, m h = (fst (m Hidden.zero), Hidden.add h (snd (m Hidden.zero))).

Definition additiveR {A : Type} (m : Hidden.t -> Result (A * Hidden.t)) : Prop :=
  forall h, m h = match m Hidden.zero with
                  | Throw e => Throw e
                  | Ok (a, d) => Ok (a, Hidden.add h d)
                  end.

(** [props] with another [showHidden]. *)
Definition setShowHidden (b : bool) (props : FilterPreferencesProps)
  : FilterPreferencesProps :=
  {| hiddenPreferences := hiddenPreferences props;
     browsingLevel := browsingLevel props;
     showHidden := b;
     showImageless := showImageless props;
     disabled := disabled props;
     currentUser := currentUser props;
     allowLowerLevels := allowLowerLevels props |}.


Section PerItem.
Context {U : SharedUtils}.
Variable props : FilterPreferencesProps.

(** The callback of [value.filter] in the branch of [k]. *)
Definition filterCallback (k : DataKey) : ItemOf k -> Tally bool :=
  match k with
  | models => modelsFilter props
  | images => imagesFilter props
  | articles => articlesFilter props
  | users => usersFilter props
  | collections => collectionsFilter props
  | bounties => bountiesFilter props
  | posts => postsFilter props
  | tags => tagsFilter props
  end.

(** The callback of [.map] in the branch of [k]; a branch without [.map]
    returns the item as it is. *)
Definition mapCallback (k : DataKey)
  : ItemOf k -> Hidden.t -> Result (option (ItemOf k) * Hidden.t) :=
  match k with
  | models => modelsMap props
  | collections => collectionsMap props
  | bounties => bountiesMap props
  | posts => postsMap props
  | _ => fun x h => Ok (Some x, h)
  end.

(** The filter callback returns [true] for [x]. *)
Definition passes (k : DataKey) (x : ItemOf k) : bool :=
  fst (filterCallback k x Hidden.zero).

(** What the filter callback adds to the tally for [x]. *)
Definition filterTally (k : DataKey) (x : ItemOf k) : Hidden.t :=
  snd (filterCallback k x Hidden.zero).

(** What the map callback returns for [x]. *)
Definition mapped (k : DataKey) (x : ItemOf k) : Result (option (ItemOf k)) :=
  match mapCallback k x Hidden.zero with
  | Throw e => Throw e
  | Ok (o, _) => Ok o
  end.

(** The items that [x] contributes to the output. *)
Definition contribution (k : DataKey) (x : ItemOf k) : list (ItemOf k) :=
  if passes k x
  then match mapped k x with
       | Ok (Some o) => [o]
       | _ => []
       end
  else [].

(** The owner test at the head of the filter callback of the branch of [k]. *)
Definition isOwner (k : DataKey) : ItemOf k -> bool :=
  match k with
  | models => fun x =>
      strictEq (Some (UserRef.id (BaseModel.user x))) (currentUserId props)
  | images => fun x =>
      let userId :=
        nullish (BaseImage.userId x) (option_map UserRef.id (BaseImage.user x)) in
      truthy userId && strictEq userId (currentUserId props)
  | articles => fun x =>
      strictEq (Some (UserRef.id (BaseArticle.user x))) (currentUserId props)
  | users => fun x => strictEq (Some (BaseUser.id x)) (currentUserId props)
  | collections => fun x =>
      let userId :=
        nullish (BaseCollection.userId x) (option_map UserRef.id (BaseCollection.user x)) in
      truthy userId && strictEq userId (currentUserId props)
  | bounties => fun x =>
      strictEq (Some (UserRef.id (BaseBounty.user x))) (currentUserId props)
  | posts => fun x =>
      let userId :=
        nullish (BasePost.userId x) (option_map UserRef.id (BasePost.user x)) in
      truthy userId && strictEq userId (currentUserId props)
  | tags => fun _ => false
  end.

(** The item is the viewer's own or the viewer is a moderator, and its level
    is exactly [0]: the first test of the six branches that have a level. *)
Definition overridden (k : DataKey) (x : ItemOf k) : bool :=
  match levelOf k x with
  | Some level => override props (isOwner k x) level
  | None => false
  end.

(** The level of the item does not intersect the browsing level. *)
Definition levelMismatch (k : DataKey) (x : ItemOf k) : bool :=
  match levelOf k x with
  | Some level => negb (Flags_intersects level (browsingLevel props))
  | None => false
  end.

(** The maturity test that the branch of [k] applies to an item. *)
Definition levelVisible (k : DataKey) (x : ItemOf k) : bool :=
  match levelOf k x with
  | Some level =>
      match k with
      | images =>
          if allowLowerLevels props
          then negb (exceeds level (maxBrowsingLevel props))
          else Flags_intersects level (browsingLevel props)
      | _ => Flags_intersects level (browsingLevel props)
      end
  | None => true
  end.

(** The number of child images that survive the image filter of the branch of
    [k]; [None] when the branch has no image filter or skips it. *)
Definition childCount (k : DataKey) : ItemOf k -> option nat :=
  match k with
  | models => fun x => Some (length (modelImages props x))
  | collections => fun x =>
      Some (length (List.filter (ownedImageVisible props) (mergedImages x)))
  | bounties => fun x =>
      option_map (fun imgs => length (List.filter (ownedImageVisible props) imgs))
        (BaseBounty.images x)
  | posts => fun x =>
      option_map (fun imgs => length (List.filter (postImageVisible props) imgs))
        (BasePost.images x)
  | _ => fun _ => None
  end.

(** No child image survives and the branch does not keep such a parent. *)
Definition droppedImageless (k : DataKey) (x : ItemOf k) : bool :=
  match childCount k x with
  | Some O => negb (showImageless props && negb (isBounties k))
  | _ => false
  end.

(** The tag loop of the featured image of a collection finds no hidden tag. *)
Definition featuredTagsClear (k : DataKey) : ItemOf k -> bool :=
  match k with
  | collections => fun x =>
      match BaseCollection.image x with
      | Some image => negb (anyHiddenTag props (orEmpty (OwnedImage.tagIds image)))
      | None => true
      end
  | _ => fun _ => true
  end.

(** The images with a level that intersects the browsing level first, the
    others after them, each group in its order. *)
Definition intersectingFirst (imgs : list ModelImage.t) : list ModelImage.t :=
  let intersects i := Flags_intersects (ModelImage.nsfwLevel i) (browsingLevel props) in
  List.filter intersects imgs ++ List.filter (fun i => negb (intersects i)) imgs.

(** [o] is [x] with its images replaced by some of them, in their order (for
    a model with [nsfw], with the intersecting images first). *)
Definition derived (k : DataKey) : ItemOf k -> ItemOf k -> Prop :=
  match k with
  | models => fun x o =>
      exists imgs, sublist imgs (orEmpty (BaseModel.images x))
        /\ o = BaseModel.withImages x
                 (if BaseModel.nsfw x then intersectingFirst imgs else imgs)
  | collections => fun x o =>
      exists imgs, sublist imgs (mergedImages x) /\ o = BaseCollection.withImages x imgs
  | bounties => fun x o =>
      exists imgs, sublist imgs (orEmpty (BaseBounty.images x))
        /\ o = BaseBounty.withImages x imgs
  | posts => fun x o =>
      o = x \/ exists imgs, sublist imgs (orEmpty (BasePost.images x))
                 /\ o = BasePost.withImages x imgs
  | _ => fun x o => o = x
  end.
End PerItem.

(** ** Sample inputs *)

Definition noPreferences : HiddenPreferencesState :=
  {| hiddenModels := ∅; hiddenImages := ∅; hiddenTags := ∅; hiddenUsers := ∅;
     moderatedTags := []; hiddenLoading := false |}.

(** An anonymous viewer with the browsing level [level]. *)
Definition plainProps (level : Z) : FilterPreferencesProps :=
  {| hiddenPreferences := noPreferences; browsingLevel := level; showHidden := false;
     showImageless := false; disabled := false; currentUser := None;
     allowLowerLevels := false |}.

(** The viewer [user] with the browsing level [level]. *)
Definition viewerProps (user : SessionUser.t) (level : Z) (prefs : HiddenPreferencesState)
  : FilterPreferencesProps :=
  {| hiddenPreferences := prefs; browsingLevel := level; showHidden := false;
     showImageless := false; disabled := false; currentUser := Some user;
     allowLowerLevels := false |}.

Definition bountyWithoutImages : BaseBounty.t :=
  BaseBounty.mk 1 (UserRef.mk 7) None 1 false None.

(** A model rated PG of user [7] whose only image is rated R. *)
Definition modelWithRestrictedImage : BaseModel.t :=
  BaseModel.mk 1 (UserRef.mk 7) (Some [ModelImage.mk 10 None 4 None]) None 1 false.

(** A post rated PG of user [7] whose only image is rated R. *)
Definition postWithRestrictedImage : BasePost.t :=
  BasePost.mk (Some 7) None 1 (Some [BaseImage.mk 10 None None None 4]).

(** The hook called for models with no override of the hidden ids. *)
Definition plainArgs (data : list BaseModel.t) : Hook.Args (key models) :=
  Hook.Build_Args (key models) (Some data) false false false false [] [] [] None false.

(** An anonymous session with the browsing level [level]. *)
Definition plainEnv (level : Z) : Hook.Env (key models) :=
  Hook.Build_Env (key models) None [] level noPreferences.

(** The viewer [7], who is not a moderator, and the moderator [9]. *)
Definition viewer7 : SessionUser.t := SessionUser.mk 7 false.
Definition moderator9 : SessionUser.t := SessionUser.mk 9 true.

(** Preferences that hide the image [3], the user [7] and the tag [5]. *)
Definition hidingPreferences : HiddenPreferencesState :=
  {| hiddenModels := ∅; hiddenImages := {[3 := true]}; hiddenTags := {[5 := true]};
     hiddenUsers := {[7 := true]}; moderatedTags := []; hiddenLoading := false |}.

(** An unrated image of user [7], with the tag [5]. *)
Definition ownUnratedImage : BaseImage.t :=
  BaseImage.mk 3 (Some 7) None (Some [5]) 0.

(** An unrated model of user [7] whose only image is rated R. *)
Definition ownUnratedModel : BaseModel.t :=
  BaseModel.mk 2 (UserRef.mk 7) (Some [ModelImage.mk 10 None 4 None]) None 0 false.

(** The unrated tag [5]. *)
Definition unratedTag : BaseTag.t := BaseTag.mk 5 (Some 0).

(** An unrated image of the user with the id [0]. *)
Definition unratedImageOfUserZero : BaseImage.t :=
  BaseImage.mk 4 (Some 0) None None 0.


(** A model of user [8] rated PG and X, with one image rated PG. *)
Definition modelRatedPgAndX : BaseModel.t :=
  BaseModel.mk 6 (UserRef.mk 8) (Some [ModelImage.mk 11 None 1 None]) None 9 false.

(** An image of user [8] rated PG. *)
Definition imageRatedPg : BaseImage.t := BaseImage.mk 12 (Some 8) None None 1.

(** An image of user [8] rated R. *)
Definition imageRatedR : BaseImage.t := BaseImage.mk 13 (Some 8) None None 4.

(** The tag [5], rated PG. *)
Definition tagRatedPg : BaseTag.t := BaseTag.mk 5 (Some 1).


(** Preferences that hide the tags [5] and [6]. *)
Definition hidingTagsPreferences : HiddenPreferencesState :=
  {| hiddenModels := ∅; hiddenImages := ∅; hiddenTags := {[5 := true; 6 := true]};
     hiddenUsers := ∅; moderatedTags := []; hiddenLoading := false |}.

(** A collection of user [8] rated PG, without images other than its
    featured image, which carries the tags [5] and [6]. *)
Definition collectionWithTaggedImage : BaseCollection.t :=
  BaseCollection.mk 20 (Some 8) None 1 (Some (OwnedImage.mk 21 (Some [5; 6]) 1 8))
    (Some []).

(** A model of user [8] rated PG with [nsfw], whose images are rated PG13
    and PG, in this order. *)
Definition nsfwModel : BaseModel.t :=
  BaseModel.mk 30 (UserRef.mk 8)
    (Some [ModelImage.mk 31 None 2 None; ModelImage.mk 32 None 1 None]) None 1 true.








(** An image rated PG without an owner reference and without tags. *)
Definition imageWithoutOwner : BaseImage.t := BaseImage.mk 14 None None None 1.



(** The hook called for models without [data]. *)
Definition absentArgs : Hook.Args (key models) :=
  Hook.Build_Args (key models) None false false false false [] [] [] None false.

(** * Vocabulary of the further properties *)

(** The sum that the hook reports as [hiddenCount]. *)
Definition reportedCount (h : Hidden.t) : Z :=
  Hidden.browsingLevel h + Hidden.models h + Hidden.images h + Hidden.tags h
  + Hidden.users h.

(** [props] with another [allowLowerLevels], with another [showImageless]. *)
Definition setAllowLowerLevels (b : bool) (props : FilterPreferencesProps)
  : FilterPreferencesProps :=
  {| hiddenPreferences := hiddenPreferences props;
     browsingLevel := browsingLevel props;
     showHidden := showHidden props;
     showImageless := showImageless props;
     disabled := disabled props;
     currentUser := currentUser props;
     allowLowerLevels := b |}.

Definition setShowImageless (b : bool) (props : FilterPreferencesProps)
  : FilterPreferencesProps :=
  {| hiddenPreferences := hiddenPreferences props;
     browsingLevel := browsingLevel props;
     showHidden := showHidden props;
     showImageless := b;
     disabled := disabled props;
     currentUser := currentUser props;
     allowLowerLevels := allowLowerLevels props |}.

(** The branch of [k] has no [.map] stage. *)
Definition filterOnly (k : DataKey) : bool :=
  match k with
  | images | articles | users | tags => true
  | _ => false
  end.

(** The parent has at least one image, or is a post without an [images]
    array; an item of a branch without [.map] has nothing to lack. *)
Definition hasImages (k : DataKey) : ItemOf k -> bool :=
  match k with
  | models => fun o => negb (length (orEmpty (BaseModel.images o)) =? 0)%nat
  | collections => fun o => negb (length (orEmpty (BaseCollection.images o)) =? 0)%nat
  | bounties => fun o =>
      match BaseBounty.images o with
      | Some imgs => negb (length imgs =? 0)%nat
      | None => false
      end
  | posts => fun o =>
      match BasePost.images o with
      | Some imgs => negb (length imgs =? 0)%nat
      | None => true
      end
  | _ => fun _ => true
  end.

Section MoreVocabulary.
Context {U : SharedUtils}.
Variable props : FilterPreferencesProps.

Local Abbreviation prefs := (hiddenPreferences props).

(** The first test of the filter callback of the branch of [k] lets the item
    through: the override of the six branches with a level, the viewer's own
    entry for users; tags have no such test. *)
Definition exempt (k : DataKey) : ItemOf k -> bool :=
  match k with
  | users => fun x => strictEq (Some (BaseUser.id x)) (currentUserId props)
  | tags => fun _ => false
  | k' => overridden props k'
  end.

(** One of the block-list rules of the filter callback of the branch of [k]
    applies to the item: a hidden owner, a hidden id, a hidden tag. *)
Definition blocked (k : DataKey) : ItemOf k -> bool :=
  match k with
  | models => fun x =>
      let userId := UserRef.id (BaseModel.user x) in
      (truthyNum userId && get (hiddenUsers prefs) userId)
      || (get (hiddenModels prefs) (BaseModel.id x) && negb (showHidden props))
      || anyHiddenTag props (orEmpty (BaseModel.tags x))
  | images => fun x =>
      let userId :=
        nullish (BaseImage.userId x) (option_map UserRef.id (BaseImage.user x)) in
      (truthy userId && from_option (get (hiddenUsers prefs)) false userId)
      || (get (hiddenImages prefs) (BaseImage.id x) && negb (showHidden props))
      || anyHiddenTag props (orEmpty (BaseImage.tagIds x))
  | articles => fun x =>
      get (hiddenUsers prefs) (UserRef.id (BaseArticle.user x))
      || anyHiddenTag props (List.map UserRef.id (orEmpty (BaseArticle.tags x)))
      || match BaseArticle.coverImage x with
         | Some coverImage =>
             get (hiddenImages prefs) (CoverImage.id coverImage)
             || anyHiddenTag props (CoverImage.tags coverImage)
         | None => false
         end
  | users => fun x => get (hiddenUsers prefs) (BaseUser.id x)
  | collections => fun x =>
      let userId :=
        nullish (BaseCollection.userId x) (option_map UserRef.id (BaseCollection.user x)) in
      (truthy userId && from_option (get (hiddenUsers prefs)) false userId)
      || match BaseCollection.image x with
         | Some image => get (hiddenImages prefs) (OwnedImage.id image)
         | None => false
         end
  | bounties => fun x =>
      get (hiddenUsers prefs) (UserRef.id (BaseBounty.user x))
      || existsb (fun image => get (hiddenImages prefs) (OwnedImage.id image))
           (orEmpty (BaseBounty.images x))
      || anyHiddenTag props (orEmpty (BaseBounty.tags x))
  | posts => fun x =>
      let userId :=
        nullish (BasePost.userId x) (option_map UserRef.id (BasePost.user x)) in
      truthy userId && from_option (get (hiddenUsers prefs)) false userId
  | tags => fun x => get (hiddenTags prefs) (BaseTag.id x)
  end.

(** A nested image may be shown: it is the viewer's own (or the viewer is a
    moderator) and unrated, or its level passes [levelOk], its id is not
    hidden and it has no hidden tag. *)
Definition imageShowable (isOwner : bool) (level id : Z) (tagIds : list Z)
    (levelOk : bool) : Prop :=
  override props isOwner level = true
  \/ (levelOk = true /\ get (hiddenImages prefs) id = false
      /\ anyHiddenTag props tagIds = false).

(** Every image of the parent [o] may be shown. *)
Definition childImagesShowable (k : DataKey) : ItemOf k -> Prop :=
  match k with
  | models => fun o =>
      Forall
        (fun i =>
           imageShowable
             (truthy (ModelImage.userId i)
              && strictEq (ModelImage.userId i) (currentUserId props))
             (ModelImage.nsfwLevel i) (ModelImage.id i) (orEmpty (ModelImage.tags i))
             (if BaseModel.nsfw o
              then negb (exceeds (ModelImage.nsfwLevel i) (maxSelectedLevel props))
              else Flags_intersects (ModelImage.nsfwLevel i) (browsingLevel props)))
        (orEmpty (BaseModel.images o))
  | collections => fun o =>
      Forall
        (fun i =>
           imageShowable (strictEq (Some (OwnedImage.userId i)) (currentUserId props))
             (OwnedImage.nsfwLevel i) (OwnedImage.id i) (orEmpty (OwnedImage.tagIds i))
             (Flags_intersects (OwnedImage.nsfwLevel i) (browsingLevel props)))
        (orEmpty (BaseCollection.images o))
  | bounties => fun o =>
      Forall
        (fun i =>
           imageShowable (strictEq (Some (OwnedImage.userId i)) (currentUserId props))
             (OwnedImage.nsfwLevel i) (OwnedImage.id i) (orEmpty (OwnedImage.tagIds i))
             (Flags_intersects (OwnedImage.nsfwLevel i) (browsingLevel props)))
        (orEmpty (BaseBounty.images o))
  | posts => fun o =>
      Forall
        (fun i =>
           imageShowable
             (strictEq
                (nullish (BaseImage.userId i) (option_map UserRef.id (BaseImage.user i)))
                (currentUserId props))
             (BaseImage.nsfwLevel i) (BaseImage.id i) (orEmpty (BaseImage.tagIds i))
             (Flags_intersects (BaseImage.nsfwLevel i) (browsingLevel props)))
        (orEmpty (BasePost.images o))
  | _ => fun _ => True
  end.

(** The test of the users branch and the tests of the tags branch. *)
Definition userShown (user : BaseUser.t) : bool :=
  strictEq (Some (BaseUser.id user)) (currentUserId props)
  || negb (get (hiddenUsers prefs) (BaseUser.id user)).

Definition tagRestricted (tag : BaseTag.t) : bool :=
  truthy (BaseTag.nsfwLevel tag)
  && from_option (fun l => NsfwLevel_PG13 <? l) false (BaseTag.nsfwLevel tag)
  && negb (includes (moderatedTagIds props) (BaseTag.id tag)).
End MoreVocabulary.

(** The level test of the filter callback of the branch of [k] lets the item
    through: the maturity test of the six branches with a level, the
    restriction of tags; users have no level. *)
Definition levelPasses `{SharedUtils} (props : FilterPreferencesProps) (k : DataKey)
  : ItemOf k -> bool :=
  match k with
  | tags => fun x => negb (tagRestricted props x)
  | k' => levelVisible props k'
  end.


(** A model of user [8] rated PG with the id [6] and the tag [5], and
    preferences that hide both the model [6] and the tag [5]. *)
Definition modelHiddenAndTagged : BaseModel.t :=
  BaseModel.mk 6 (UserRef.mk 8) (Some [ModelImage.mk 11 None 1 None]) (Some [5]) 1 false.

Definition hidingModelAndTag : HiddenPreferencesState :=
  {| hiddenModels := {[6 := true]}; hiddenImages := ∅; hiddenTags := {[5 := true]};
     hiddenUsers := ∅; moderatedTags := []; hiddenLoading := false |}.

(** [props] with other hidden preferences. *)
Definition setPreferences (prefs : HiddenPreferencesState) (props : FilterPreferencesProps)
  : FilterPreferencesProps :=
  {| hiddenPreferences := prefs;
     browsingLevel := browsingLevel props;
     showHidden := showHidden props;
     showImageless := showImageless props;
     disabled := disabled props;
     currentUser := currentUser props;
     allowLowerLevels := allowLowerLevels props |}.

(** [more] hides every id that [prefs] hides, with the same moderated tags and
    the same loading flag. *)
Definition hidesNoLess (prefs more : HiddenPreferencesState) : Prop :=
  (forall i, get (hiddenModels prefs) i = true -> get (hiddenModels more) i = true)
  /\ (forall i, get (hiddenImages prefs) i = true -> get (hiddenImages more) i = true)
  /\ (forall i, get (hiddenTags prefs) i = true -> get (hiddenTags more) i = true)
  /\ (forall i, get (hiddenUsers prefs) i = true -> get (hiddenUsers more) i = true)
  /\ moderatedTags more = moderatedTags prefs
  /\ hiddenLoading more = hiddenLoading prefs.

(** The number of elements of [xs] for which [p] holds. *)
Definition countIf {A : Type} (p : A -> bool) (xs : list A) : Z :=
  Z.of_nat (length (List.filter p xs)).

(** * The bounty controller

    The handlers of [src/server/controllers/bounty.controller.ts] that compute
    on what the services return.  The services ([getAllBounties],
    [getImagesForBounties], [getAllEntriesByBountyId], [getImagesByEntity],
    [getFilesByEntity], [getBountyEntryEarnedBuzz]), [throwDbError] and the
    class [TRPCError] are not part of the sources: they are parameters; a
    rejected promise is [Throws]. *)

Inductive Outcome (E A : Type) : Type :=
  | Returns (a : A)
  | Throws (e : E).
Arguments Returns {E A} a.
Arguments Throws {E A} e.

(** [{ id, name }] of a tag. *)
Module TagInfo.
Record t : Type := mk { id : Z; name : string }.
End TagInfo.

(** [{ tag: { id, name } }], an element of the selected [tags]. *)
Module TagLink.
Record t : Type := mk { tag : TagInfo.t }.
End TagLink.

(** A bounty as [getAllBounties] returns it; [rest] stands for the selected
    fields that the handler copies ([name], [createdAt], [user], [stats], ...). *)
Module BountyRow.
Record t (A : Type) : Type := mk { id : Z; tags : list TagLink.t; rest : A }.
Arguments mk {A}.
Arguments id {A}.
Arguments tags {A}.
Arguments rest {A}.
End BountyRow.

(** A bounty as [getInfiniteBountiesHandler] returns it. *)
Module BountyItem.
Record t (A Img : Type) : Type :=
  mk { id : Z; rest : A; images : list Img; tags : list TagInfo.t }.
Arguments mk {A Img}.
Arguments id {A Img}.
Arguments rest {A Img}.
Arguments images {A Img}.
Arguments tags {A Img}.
End BountyItem.

(** [GetInfiniteBountySchema]: [limit], [userId] and the other fields. *)
Module BountyInput.
Record t (F : Type) : Type := mk { limit : Z; userId : option Z; filters : F }.
Arguments mk {F}.
Arguments limit {F}.
Arguments userId {F}.
Arguments filters {F}.
End BountyInput.

(** The argument of [getImagesForBounties]. *)
Module ImagesQuery.
Record t : Type :=
  mk { bountyIds : list Z; userId : option Z; isModerator : option bool }.
End ImagesQuery.

(** [{ nextCursor, items }] *)
Module BountyPage.
Record t (A Img : Type) : Type :=
  mk { nextCursor : option Z; items : list (BountyItem.t A Img) }.
Arguments mk {A Img}.
Arguments nextCursor {A Img}.
Arguments items {A Img}.
End BountyPage.

(** [items.pop()]: the array without its last element, and that element. *)
Definition pop {A : Type} (xs : list A) : list A * option A :=
  (removelast xs, List.last (List.map Some xs) None).

Section GetInfiniteBounties.
Context {F A Img E : Type}.
Variable getAllBounties : BountyInput.t F -> Outcome E (list (BountyRow.t A)).
Variable getImagesForBounties : ImagesQuery.t -> Outcome E (gmap Z (list Img)).
Variable throwDbError : E -> E.

(** The callback of [items.map] at the end of the handler. *)
Definition withBountyImages (images : gmap Z (list Img)) (item : BountyRow.t A)
  : option (BountyItem.t A Img) :=
  match images !! BountyRow.id item with
  | Some (image :: itemImages) =>
      Some (BountyItem.mk (BountyRow.id item) (BountyRow.rest item) (image :: itemImages)
              (List.map
                 (fun link => TagInfo.mk (TagInfo.id (TagLink.tag link))
                                (TagInfo.name (TagLink.tag link)))
                 (BountyRow.tags item)))
  | _ => None
  end.

(** [input.limit + 1 ?? 10] is [(input.limit + 1) ?? 10], and a sum is never
    nullish: the limit asked for is [input.limit + 1].  Every error caught is
    thrown again through [throwDbError]. *)
Definition getInfiniteBountiesHandler (input : BountyInput.t F)
    (user : option SessionUser.t) : Outcome E (BountyPage.t A Img) :=
  let limit := BountyInput.limit input + 1 in
  let userId := nullish (BountyInput.userId input) (option_map SessionUser.id user) in
  match getAllBounties (BountyInput.mk limit userId (BountyInput.filters input)) with
  | Throws error => Throws (throwDbError error)
  | Returns items =>
      let '(items, nextCursor) :=
        if BountyInput.limit input <? Z.of_nat (length items)
        then let '(items, nextItem) := pop items in
             (items, option_map BountyRow.id nextItem)
        else (items, None) in
      let bountIds := List.map BountyRow.id items in
      match getImagesForBounties
              (ImagesQuery.mk bountIds (option_map SessionUser.id user)
                 (option_map SessionUser.isModerator user)) with
      | Throws error => Throws (throwDbError error)
      | Returns imgs =>
          Returns (BountyPage.mk nextCursor (defined (List.map (withBountyImages imgs) items)))
      end
  end.
End GetInfiniteBounties.

(** An entry as [getAllEntriesByBountyId] returns it. *)
Module EntryRow.
Record t (A : Type) : Type := mk { id : Z; rest : A }.
Arguments mk {A}.
Arguments id {A}.
Arguments rest {A}.
End EntryRow.

(** An image as [getImagesByEntity] returns it. *)
Module EntityImage.
Record t (I : Type) : Type := mk { entityId : Z; rest : I }.
Arguments mk {I}.
Arguments entityId {I}.
Arguments rest {I}.
End EntityImage.

(** A file as [getFilesByEntity] returns it: [metadata] may be absent, and so
    may its [unlockAmount]. *)
Module EntityFile.
Record t (X : Type) : Type := mk { metadata : option (option Z); rest : X }.
Arguments mk {X}.
Arguments metadata {X}.
Arguments rest {X}.
End EntityFile.

(** An element of what [getBountyEntryEarnedBuzz] returns. *)
Module Awarded.
Record t : Type := mk { id : Z; awardedUnitAmount : Z }.
End Awarded.

(** An entry as [getBountyEntriesHandler] returns it. *)
Module EntryItem.
Record t (A I : Type) : Type := mk {
  id : Z;
  rest : A;
  images : list (EntityImage.t I);
  fileUnlockAmount : Z;
  fileCount : Z;
  awardedUnitAmountTotal : Z;
}.
Arguments mk {A I}.
Arguments id {A I}.
Arguments rest {A I}.
Arguments images {A I}.
Arguments fileUnlockAmount {A I}.
Arguments fileCount {A I}.
Arguments awardedUnitAmountTotal {A I}.
End EntryItem.

Section GetBountyEntries.
Context {A I X E : Type}.
Variable getAllEntriesByBountyId : Z -> option Z -> Outcome E (list (EntryRow.t A)).
Variable getImagesByEntity : list Z -> Outcome E (list (EntityImage.t I)).
Variable getFilesByEntity : list Z -> Outcome E (list (EntityFile.t X)).
Variable getBountyEntryEarnedBuzz : list Z -> Outcome E (list Awarded.t).
Variable throwDbError : E -> E.
Variable isTRPCError : E -> bool.

(** [if (error instanceof TRPCError) throw error; throw throwDbError(error);] *)
Definition rethrow {R : Type} (error : E) : Outcome E R :=
  if isTRPCError error then Throws error else Throws (throwDbError error).

(** [curr.metadata ? curr.metadata?.unlockAmount ?? 0 : 0] *)
Definition unlockAmountOf (file : EntityFile.t X) : Z :=
  match EntityFile.metadata file with
  | Some (Some unlockAmount) => unlockAmount
  | _ => 0
  end.

(** [files.reduce((acc, curr) => Math.max(acc, ...), 0)] *)
Definition highestUnlockAmount (files : list (EntityFile.t X)) : Z :=
  fold_left (fun acc curr => Z.max acc (unlockAmountOf curr)) files 0.

(** [Number(awardedTotal.find((a) => a.id === entry.id)?.awardedUnitAmount ?? 0)] *)
Definition awardedTo (awardedTotal : list Awarded.t) (entryId : Z) : Z :=
  match List.find (fun a => Awarded.id a =? entryId) awardedTotal with
  | Some a => Awarded.awardedUnitAmount a
  | None => 0
  end.

(** The callback of [entries.map] at the end of the handler. *)
Definition entryItem (images : list (EntityImage.t I)) (files : list (EntityFile.t X))
    (awardedTotal : list Awarded.t) (entry : EntryRow.t A) : EntryItem.t A I :=
  let awardedUnitAmountTotal := awardedTo awardedTotal (EntryRow.id entry) in
  EntryItem.mk (EntryRow.id entry) (EntryRow.rest entry)
    (List.filter (fun i => EntityImage.entityId i =? EntryRow.id entry) images)
    (Z.max 0 (highestUnlockAmount files - awardedUnitAmountTotal))
    (Z.of_nat (length files))
    awardedUnitAmountTotal.

(** [input] is [{ id, owned }]; the session user is [ctx.user]. *)
Definition getBountyEntriesHandler (id : Z) (owned : bool) (user : option SessionUser.t)
  : Outcome E (list (EntryItem.t A I)) :=
  match getAllEntriesByBountyId id
          (if owned then option_map SessionUser.id user else None) with
  | Throws error => rethrow error
  | Returns entries =>
      let ids := List.map EntryRow.id entries in
      match getImagesByEntity ids with
      | Throws error => rethrow error
      | Returns imgs =>
          match getFilesByEntity ids with
          | Throws error => rethrow error
          | Returns files =>
              match getBountyEntryEarnedBuzz ids with
              | Throws error => rethrow error
              | Returns awardedTotal =>
                  Returns (List.map (entryItem imgs files awardedTotal) entries)
              end
          end
      end
  end.
End GetBountyEntries.

(** Services that return three rows, images for the rows [1] and [3], two
    entries, three images, two files and one award. *)
Definition sampleRows : list (BountyRow.t unit) :=
  [BountyRow.mk 1 [TagLink.mk (TagInfo.mk 5 "anime")] tt; BountyRow.mk 2 [] tt;
   BountyRow.mk 3 [] tt].

Definition sampleGetAllBounties (q : BountyInput.t unit)
  : Outcome unit (list (BountyRow.t unit)) := Returns sampleRows.

Definition sampleGetImagesForBounties (q : ImagesQuery.t)
  : Outcome unit (gmap Z (list unit)) := Returns {[1 := [tt]; 2 := []; 3 := [tt; tt]]}.

Definition sampleEntries : list (EntryRow.t unit) := [EntryRow.mk 1 tt; EntryRow.mk 2 tt].

Definition sampleEntryImages : list (EntityImage.t unit) :=
  [EntityImage.mk 1 tt; EntityImage.mk 2 tt; EntityImage.mk 1 tt].

Definition sampleFiles : list (EntityFile.t unit) :=
  [EntityFile.mk (Some (Some 50)) tt; EntityFile.mk None tt].

Definition sampleAwarded : list Awarded.t := [Awarded.mk 1 20].

(** A post of user [8] rated PG with an unrated image that has no owner
    reference, the id [3] and the tag [5]. *)
Definition postWithOwnerlessImage : BasePost.t :=
  BasePost.mk (Some 8) None 1 (Some [BaseImage.mk 3 None None (Some [5]) 0]).

(** An anonymous viewer with the browsing level [level] and the preferences
    [prefs]. *)
Definition anonymousProps (level : Z) (prefs : HiddenPreferencesState)
  : FilterPreferencesProps :=
  {| hiddenPreferences := prefs; browsingLevel := level; showHidden := false;
     showImageless := false; disabled := false; currentUser := None;
     allowLowerLevels := false |}.

(** * Properties *)

(** ** The tally is a commutative monoid that the callbacks only add to *)

Ltac hidden_eq :=
  repeat match goal with h : Hidden.t |- _ => destruct h end;
  unfold Hidden.add, Hidden.zero, Hidden.incr_browsingLevel, Hidden.incr_models,
    Hidden.incr_images, Hidden.incr_tags, Hidden.incr_users, Hidden.incr_noImages;
  cbn [Hidden.unprocessed Hidden.browsingLevel Hidden.models Hidden.images
       Hidden.tags Hidden.users Hidden.noImages];
  f_equal; lia.

Lemma add_zero_r (h : Hidden.t) : Hidden.add h Hidden.zero = h.
Proof. hidden_eq. Qed.

Lemma add_zero_l (h : Hidden.t) : Hidden.add Hidden.zero h = h.
Proof. hidden_eq. Qed.

Lemma add_assoc (a b c : Hidden.t) :
  Hidden.add a (Hidden.add b c) = Hidden.add (Hidden.add a b) c.
Proof. hidden_eq. Qed.

Lemma filterM_additive {A : Type} (p : A -> Tally bool) (xs : list A) :
  (forall x, additive (p x)) -> additive (filterM p xs).
Proof.
  intros Hp. induction xs as [|x xs IH]; intros h; cbn [filterM].
  - cbn. now rewrite add_zero_r.
  - rewrite (Hp x h). destruct (p x Hidden.zero) as [keep d] eqn:E. cbn [fst snd].
    rewrite (IH (Hidden.add h d)), (IH d).
    destruct (filterM p xs Hidden.zero) as [rest d']. cbn [fst snd].
    now rewrite add_assoc.
Qed.

Lemma filterM_app {A : Type} (p : A -> Tally bool) (xs ys : list A) (h : Hidden.t) :
  filterM p (xs ++ ys) h =
  let '(r1, h1) := filterM p xs h in
  let '(r2, h2) := filterM p ys h1 in
  (r1 ++ r2, h2).
Proof.
  revert h. induction xs as [|x xs IH]; intros h; cbn [filterM app].
  - now destruct (filterM p ys h).
  - destruct (p x h) as [keep h1]. rewrite IH.
    destruct (filterM p xs h1) as [r1 h2]. destruct (filterM p ys h2) as [r2 h3].
    now destruct keep.
Qed.

Lemma mapM_additive {A B : Type} (f : A -> Hidden.t -> Result (B * Hidden.t))
    (xs : list A) :
  (forall x, additiveR (f x)) -> additiveR (mapM f xs).
Proof.
  intros Hf. induction xs as [|x xs IH]; intros h; cbn [mapM].
  - now rewrite add_zero_r.
  - rewrite (Hf x h). destruct (f x Hidden.zero) as [[y d]|e]; [|reflexivity].
    rewrite (IH (Hidden.add h d)), (IH d).
    destruct (mapM f xs Hidden.zero) as [[ys d']|e]; [|reflexivity].
    now rewrite add_assoc.
Qed.

Lemma mapM_app {A B : Type} (f : A -> Hidden.t -> Result (B * Hidden.t))
    (xs ys : list A) (h : Hidden.t) :
  mapM f (xs ++ ys) h =
  match mapM f xs h with
  | Throw e => Throw e
  | Ok (r1, h1) =>
      match mapM f ys h1 with
      | Throw e => Throw e
      | Ok (r2, h2) => Ok (r1 ++ r2, h2)
      end
  end.
Proof.
  revert h. induction xs as [|x xs IH]; intros h; cbn [mapM app].
  - now destruct (mapM f ys h) as [[r2 h2]|e].
  - destruct (f x h) as [[y h1]|e]; [|reflexivity]. rewrite IH.
    destruct (mapM f xs h1) as [[r1 h2]|e]; [|reflexivity].
    now destruct (mapM f ys h2) as [[r2 h3]|e].
Qed.

Lemma defined_app {A : Type} (xs ys : list (option A)) :
  defined (xs ++ ys) = defined xs ++ defined ys.
Proof.
  induction xs as [|[x|] xs IH]; cbn [defined app]; [reflexivity| |assumption].
  now rewrite IH.
Qed.

Lemma filtered_app {A : Type} (p : A -> Tally bool) (xs ys : list A) :
  (forall x, additive (p x)) ->
  filtered p (xs ++ ys) = combine (filtered p xs) (filtered p ys).
Proof.
  intros Hp. unfold filtered. rewrite filterM_app.
  destruct (filterM p xs Hidden.zero) as [r1 h1].
  rewrite (filterM_additive p ys Hp h1).
  now destruct (filterM p ys Hidden.zero) as [r2 h2].
Qed.

Lemma filteredMapped_app {A : Type} (p : A -> Tally bool)
    (f : A -> Hidden.t -> Result (option A * Hidden.t)) (xs ys : list A) :
  (forall x, additive (p x)) -> (forall x, additiveR (f x)) ->
  filteredMapped p f (xs ++ ys) = combine (filteredMapped p f xs) (filteredMapped p f ys).
Proof.
  intros Hp Hf. unfold filteredMapped. rewrite filterM_app.
  destruct (filterM p xs Hidden.zero) as [r1 h1].
  rewrite (filterM_additive p ys Hp h1).
  destruct (filterM p ys Hidden.zero) as [r2 h2]. cbn [fst snd].
  rewrite mapM_app.
  rewrite (mapM_additive f r1 Hf (Hidden.add h1 h2)).
  rewrite (mapM_additive f r1 Hf h1).
  destruct (mapM f r1 Hidden.zero) as [[m1 d1]|e]; [|reflexivity].
  rewrite (mapM_additive f r2 Hf (Hidden.add (Hidden.add h1 h2) d1)).
  rewrite (mapM_additive f r2 Hf h2).
  destruct (mapM f r2 Hidden.zero) as [[m2 d2]|e]; [|reflexivity].
  cbn [combine items hidden]. rewrite defined_app. do 2 f_equal. hidden_eq.
Qed.

(** ** Every callback of the filter is additive *)

Section Callbacks.
Context {U : SharedUtils}.
Variable props : FilterPreferencesProps.

Ltac additive_cases cb :=
  intros h; unfold cb;
  repeat match goal with
         | |- context [if ?c then _ else _] => destruct c
         | |- context [match ?o with Some _ => _ | None => _ end] => destruct o
         end;
  cbn [fst snd]; try (f_equal; hidden_eq).

Lemma modelsFilter_additive x : additive (modelsFilter props x).
Proof. additive_cases (@modelsFilter). Qed.

Lemma imagesFilter_additive x : additive (imagesFilter props x).
Proof. additive_cases (@imagesFilter). Qed.

Lemma articlesFilter_additive x : additive (articlesFilter props x).
Proof. additive_cases (@articlesFilter). Qed.

Lemma usersFilter_additive x : additive (usersFilter props x).
Proof. additive_cases (@usersFilter). Qed.

Lemma bountiesFilter_additive x : additive (bountiesFilter props x).
Proof. additive_cases (@bountiesFilter). Qed.

Lemma postsFilter_additive x : additive (postsFilter props x).
Proof. additive_cases (@postsFilter). Qed.

Lemma tagsFilter_additive x : additive (tagsFilter props x).
Proof. additive_cases (@tagsFilter). Qed.

Lemma countHiddenTags_add tagIds h :
  countHiddenTags props tagIds h =
  Hidden.add h (countHiddenTags props tagIds Hidden.zero).
Proof.
  unfold countHiddenTags. revert h.
  induction tagIds as [|t ts IH]; intros h; cbn [fold_left].
  - now rewrite add_zero_r.
  - rewrite IH. rewrite (IH (if get _ t then _ else _)).
    destruct (get (hiddenTags (hiddenPreferences props)) t);
      [|now rewrite add_zero_l].
    rewrite add_assoc. f_equal. hidden_eq.
Qed.

Lemma collectionsFilter_additive x : additive (collectionsFilter props x).
Proof.
  intros h; unfold collectionsFilter.
  repeat match goal with
         | |- context [if ?c then _ else _] => destruct c
         | |- context [match ?o with Some _ => _ | None => _ end] => destruct o
         end;
  cbn [fst snd]; try (f_equal; hidden_eq).
  f_equal. apply countHiddenTags_add.
Qed.

Ltac additiveR_cases cb :=
  intros h; unfold cb;
  repeat match goal with
         | |- context [match ?o with Some _ => _ | None => _ end] => destruct o
         end;
  try reflexivity;
  repeat match goal with
         | |- context [if ?c then _ else _] => destruct c
         end;
  try (do 2 f_equal; hidden_eq).

Lemma modelsMap_additive x : additiveR (modelsMap props x).
Proof. additiveR_cases (@modelsMap). Qed.

Lemma collectionsMap_additive x : additiveR (collectionsMap props x).
Proof. additiveR_cases (@collectionsMap). Qed.

Lemma bountiesMap_additive x : additiveR (bountiesMap props x).
Proof. additiveR_cases (@bountiesMap). Qed.

Lemma postsMap_additive x : additiveR (postsMap props x).
Proof. additiveR_cases (@postsMap). Qed.

(** A call on a list is the calls on its parts, one after the other. *)
Lemma switch_app (k : DataKey) (xs ys : list (ItemOf k)) :
  switch props k (xs ++ ys) = combine (switch props k xs) (switch props k ys).
Proof.
  destruct k; cbn [switch];
    first [ apply filtered_app | apply filteredMapped_app ];
    auto using modelsFilter_additive, imagesFilter_additive, articlesFilter_additive,
      usersFilter_additive, collectionsFilter_additive, bountiesFilter_additive,
      postsFilter_additive, tagsFilter_additive, modelsMap_additive,
      collectionsMap_additive, bountiesMap_additive, postsMap_additive.
Qed.
End Callbacks.

(** ** What a call does with one item *)

Section PerItemLemmas.
Context {U : SharedUtils}.
Variable props : FilterPreferencesProps.

Lemma mapM_return {A : Type} (xs : list A) (h : Hidden.t) :
  mapM (fun x h => Ok (Some x, h)) xs h = Ok (List.map Some xs, h).
Proof.
  induction xs as [|x xs IH]; cbn [mapM List.map]; [reflexivity|].
  now rewrite IH.
Qed.

Lemma defined_map_Some {A : Type} (xs : list A) : defined (List.map Some xs) = xs.
Proof. induction xs as [|x xs IH]; cbn; [reflexivity|now rewrite IH]. Qed.

Lemma filtered_as_mapped {A : Type} (p : A -> Tally bool) (xs : list A) :
  filtered p xs = filteredMapped p (fun x h => Ok (Some x, h)) xs.
Proof.
  unfold filtered, filteredMapped. destruct (filterM p xs Hidden.zero) as [kept h].
  now rewrite mapM_return, defined_map_Some.
Qed.

Lemma switch_callbacks (k : DataKey) (xs : list (ItemOf k)) :
  switch props k xs = filteredMapped (filterCallback props k) (mapCallback props k) xs.
Proof. destruct k; cbn [switch filterCallback mapCallback]; auto using filtered_as_mapped. Qed.

Lemma filterCallback_additive k x : additive (filterCallback props k x).
Proof.
  destruct k; cbn [filterCallback];
    auto using modelsFilter_additive, imagesFilter_additive, articlesFilter_additive,
      usersFilter_additive, collectionsFilter_additive, bountiesFilter_additive,
      postsFilter_additive, tagsFilter_additive.
Qed.

Lemma mapCallback_additive k x : additiveR (mapCallback props k x).
Proof.
  destruct k; cbn [mapCallback];
    auto using modelsMap_additive, collectionsMap_additive, bountiesMap_additive,
      postsMap_additive;
    intros h; now rewrite add_zero_r.
Qed.

(** The call on a single item. *)
Lemma switch_single (k : DataKey) (x : ItemOf k) :
  switch props k [x] =
  if passes props k x
  then match mapCallback props k x (snd (filterCallback props k x Hidden.zero)) with
       | Throw e => Throw e
       | Ok (o, h) => Ok {| items := defined [o]; hidden := h |}
       end
  else Ok {| items := []; hidden := snd (filterCallback props k x Hidden.zero) |}.
Proof.
  rewrite switch_callbacks. unfold filteredMapped, passes. cbn [filterM].
  destruct (filterCallback props k x Hidden.zero) as [[|] h]; cbn [fst snd mapM]; [|reflexivity].
  destruct (mapCallback props k x h) as [[o h']|e]; reflexivity.
Qed.

Lemma switch_cons (k : DataKey) (x : ItemOf k) (xs : list (ItemOf k)) :
  switch props k (x :: xs) = combine (switch props k [x]) (switch props k xs).
Proof. apply (switch_app props k [x] xs). Qed.

Lemma switch_nil (k : DataKey) :
  switch props k [] = Ok {| items := []; hidden := Hidden.zero |}.
Proof. destruct k; reflexivity. Qed.

Lemma switch_single_items (k : DataKey) (x : ItemOf k) r :
  switch props k [x] = Ok r -> items r = contribution props k x.
Proof.
  rewrite switch_single. unfold contribution, mapped.
  destruct (passes props k x); [|now intros [= <-]].
  rewrite (mapCallback_additive k x).
  destruct (mapCallback props k x Hidden.zero) as [[[o|] d]|e]; now intros [= <-].
Qed.

(** The output of a call lists the contributions of the items in order. *)
Lemma switch_items (k : DataKey) (xs : list (ItemOf k)) r :
  switch props k xs = Ok r -> items r = flat_map (contribution props k) xs.
Proof.
  revert r. induction xs as [|x xs IH]; intros r.
  - rewrite switch_nil. now intros [= <-].
  - rewrite switch_cons.
    destruct (switch props k [x]) as [r1|e] eqn:E1; [|discriminate].
    destruct (switch props k xs) as [r2|e] eqn:E2; [|discriminate].
    intros [= <-]. cbn [combine items flat_map].
    now rewrite (switch_single_items k x r1 E1), (IH r2 eq_refl).
Qed.

Lemma mapped_present (k : DataKey) (x : ItemOf k) :
  imagesPresent k x = true -> exists o, mapped props k x = Ok o.
Proof.
  unfold mapped.
  destruct k; cbn [imagesPresent mapCallback]; intros Hx; eauto.
  - unfold bountiesMap. destruct (BaseBounty.images x); [cbn; eauto|discriminate].
  - unfold postsMap. destruct (BasePost.images x); eauto.
Qed.

(** A call returns when every bounty has its images. *)
Lemma switch_returns (k : DataKey) (xs : list (ItemOf k)) :
  Forall (fun x => imagesPresent k x = true) xs -> exists r, switch props k xs = Ok r.
Proof.
  induction 1 as [|x xs Hx _ [r2 IH]].
  - rewrite switch_nil. eauto.
  - rewrite switch_cons, IH, switch_single.
    destruct (passes props k x); [|cbn; eauto].
    rewrite (mapCallback_additive k x).
    destruct (mapped_present k x Hx) as [o Ho]. unfold mapped in Ho.
    destruct (mapCallback props k x Hidden.zero) as [[o' d]|e]; [cbn; eauto|discriminate].
Qed.

Lemma filterPreferences_switch (k : DataKey) (xs : list (ItemOf k)) :
  reachesSwitch props = true ->
  filterPreferences props (key k) (Some xs) = switch props k xs.
Proof.
  unfold reachesSwitch, filterPreferences. intros H.
  now destruct (disabled props || hiddenLoading (hiddenPreferences props)).
Qed.
End PerItemLemmas.

(** ** The tally that the filter callback adds *)

Ltac callback_cases :=
  repeat match goal with
         | |- context [if ?c then _ else _] => destruct c eqn:?
         | |- context [match ?o with Some _ => _ | None => _ end] => destruct o eqn:?
         end.

Ltac unfold_filter k :=
  destruct k; unfold passes, filterTally; cbn [filterCallback];
  unfold modelsFilter, imagesFilter, articlesFilter, usersFilter, collectionsFilter,
    bountiesFilter, postsFilter, tagsFilter.

Section FilterTally.
Context {U : SharedUtils}.
Variable props : FilterPreferencesProps.

Lemma countHiddenTags_clear tagIds h :
  anyHiddenTag props tagIds = false -> countHiddenTags props tagIds h = h.
Proof.
  unfold anyHiddenTag, countHiddenTags. revert h.
  induction tagIds as [|t ts IH]; intros h; cbn [existsb fold_left]; [reflexivity|].
  intros [-> Hts]%orb_false_iff. now apply IH.
Qed.

Lemma countHiddenTags_images tagIds h :
  exists n, 0 <= n /\
    countHiddenTags props tagIds h =
    Hidden.mk (Hidden.unprocessed h) (Hidden.browsingLevel h) (Hidden.models h)
      (Hidden.images h + n) (Hidden.tags h) (Hidden.users h) (Hidden.noImages h).
Proof.
  unfold countHiddenTags. revert h.
  induction tagIds as [|t ts IH]; intros h; cbn [fold_left].
  - exists 0. split; [lia|]. destruct h; cbn. f_equal; lia.
  - destruct (IH (if get (hiddenTags (hiddenPreferences props)) t
                  then Hidden.incr_images h else h)) as [n [Hn ->]].
    destruct (get (hiddenTags (hiddenPreferences props)) t).
    + exists (n + 1). split; [lia|]. destruct h; cbn. f_equal; lia.
    + exists n. split; [lia|]. reflexivity.
Qed.

(** An item that passes the filter adds nothing to the tally. *)
Lemma passes_tally k x :
  passes props k x = true -> featuredTagsClear props k x = true ->
  filterTally props k x = Hidden.zero.
Proof.
  unfold_filter k; cbn [featuredTagsClear]; callback_cases; cbn [fst snd];
    try discriminate; try reflexivity.
  intros _ Hc. apply countHiddenTags_clear. now apply negb_true_iff in Hc.
Qed.

(** An item that the filter rejects is counted once, by one rule. *)
Lemma fails_tally k x :
  passes props k x = false ->
  filterTally props k x = Hidden.incr_browsingLevel Hidden.zero
  \/ filterTally props k x = Hidden.incr_models Hidden.zero
  \/ filterTally props k x = Hidden.incr_images Hidden.zero
  \/ filterTally props k x = Hidden.incr_tags Hidden.zero
  \/ filterTally props k x = Hidden.incr_users Hidden.zero.
Proof.
  unfold_filter k; callback_cases; cbn [fst snd]; try discriminate; intros _; tauto.
Qed.

(** The filter callback never touches [unprocessed] and [noImages]. *)
Lemma filterTally_untouched k x :
  Hidden.unprocessed (filterTally props k x) = 0
  /\ Hidden.noImages (filterTally props k x) = 0.
Proof.
  destruct (passes props k x) eqn:Hp.
  - destruct k; try (rewrite (passes_tally _ x Hp eq_refl); now split).
    revert Hp. unfold passes, filterTally. cbn [filterCallback]. unfold collectionsFilter.
    callback_cases; cbn [fst snd]; try discriminate; intros _; try (now split).
    destruct (countHiddenTags_images (orEmpty (OwnedImage.tagIds t)) Hidden.zero)
      as [n [_ ->]]. now split.
  - destruct (fails_tally k x Hp) as [->|[->|[->|[->| ->]]]]; now split.
Qed.
End FilterTally.

(** ** Errors and the short-circuit *)

Section Errors.
Context {U : SharedUtils}.
Variable props : FilterPreferencesProps.

Lemma mapCallback_throws k x h e : mapCallback props k x h = Throw e -> e = TypeError.
Proof.
  destruct k; cbn [mapCallback]; try discriminate.
  - unfold bountiesMap. destruct (option_map _ _); [discriminate|congruence].
  - unfold postsMap. destruct (BasePost.images x); discriminate.
Qed.

(** The result of a call on one item, when it returns. *)
Lemma switch_single_ok k x r :
  switch props k [x] = Ok r ->
  (passes props k x = false
   /\ r = {| items := []; hidden := filterTally props k x |})
  \/ (passes props k x = true
      /\ exists o d, mapCallback props k x Hidden.zero = Ok (o, d)
           /\ r = {| items := defined [o];
                     hidden := Hidden.add (filterTally props k x) d |}).
Proof.
  rewrite switch_single. fold (filterTally props k x).
  destruct (passes props k x); [|intros [= <-]; now left].
  rewrite (mapCallback_additive props k x).
  destruct (mapCallback props k x Hidden.zero) as [[o d]|e]; [|discriminate].
  intros [= <-]. right. eauto.
Qed.

Lemma switch_throws k xs e : switch props k xs = Throw e -> e = TypeError.
Proof.
  induction xs as [|x xs IH].
  - rewrite switch_nil. discriminate.
  - rewrite switch_cons, switch_single.
    destruct (passes props k x).
    + destruct (mapCallback props k x _) as [[o h]|e'] eqn:E.
      * cbn [combine]. destruct (switch props k xs); [discriminate|].
        intros [= <-]. now apply IH.
      * cbn [combine]. intros [= <-]. eapply mapCallback_throws, E.
    + cbn [combine]. destruct (switch props k xs); [discriminate|].
      intros [= <-]. now apply IH.
Qed.

Lemma mapCallback_tally k x o d :
  mapCallback props k x Hidden.zero = Ok (o, d) ->
  d = Hidden.zero \/ d = Hidden.incr_noImages Hidden.zero.
Proof.
  destruct k; cbn [mapCallback];
    unfold modelsMap, collectionsMap, bountiesMap, postsMap;
    callback_cases; intros [= <- <-]; tauto.
Qed.

Lemma switch_unprocessed k xs r :
  switch props k xs = Ok r -> Hidden.unprocessed (hidden r) = 0.
Proof.
  revert r. induction xs as [|x xs IH]; intros r.
  - rewrite switch_nil. now intros [= <-].
  - rewrite switch_cons.
    destruct (switch props k [x]) as [r1|e] eqn:E1; [|discriminate].
    destruct (switch props k xs) as [r2|e] eqn:E2; [|discriminate].
    intros [= <-]. cbn [hidden Hidden.add Hidden.unprocessed].
    rewrite (IH r2 eq_refl).
    destruct (filterTally_untouched props k x) as [Hu _].
    destruct (switch_single_ok k x r1 E1) as [[_ ->]|[_ [o [d [Hm ->]]]]];
      cbn [hidden Hidden.add Hidden.unprocessed]; rewrite Hu.
    + reflexivity.
    + now destruct (mapCallback_tally k x o d Hm) as [-> | ->].
Qed.
End Errors.

(** C9 (amended).  [filterPreferences] throws the unhandled-type error exactly
    when [type] is not one of the eight keys and the call is not
    short-circuited ([data] present, not disabled, preferences loaded); a
    short-circuited call returns the empty result whatever [type] is; and for
    each of the eight keys the call returns a result when every bounty has its
    [images] array. *)
Theorem unhandled_type_error `{SharedUtils} :
  (forall props type (data : option (list (ElemOf type))),
      filterPreferences props type data = Throw UnhandledFilterType <->
      (exists name, type = unhandled name) /\ data <> None /\ reachesSwitch props = true)
  /\ (forall props type (data : option (list (ElemOf type))),
         data = None \/ reachesSwitch props = false ->
         filterPreferences props type data = Ok {| items := []; hidden := Hidden.zero |})
  /\ (forall props k (data : option (list (ItemOf k))),
         Forall (fun x => imagesPresent k x = true) (orEmpty data) ->
         exists r, filterPreferences props (key k) data = Ok r).
Proof.
  split; [|split].
  - intros props type data. unfold filterPreferences, reachesSwitch. split.
    + destruct data as [value|]; [|discriminate].
      destruct (disabled props || hiddenLoading (hiddenPreferences props)); [discriminate|].
      destruct type as [k|name].
      * intros E. apply switch_throws in E. discriminate.
      * intros _. repeat split; eauto.
    + intros [[name ->] [Hd Hr]]. destruct data as [value|]; [|congruence].
      now destruct (disabled props || hiddenLoading (hiddenPreferences props)).
  - intros props type data. unfold filterPreferences, reachesSwitch.
    destruct data as [value|]; [|reflexivity].
    intros [|Hr]; [discriminate|].
    now destruct (disabled props || hiddenLoading (hiddenPreferences props)).
  - intros props k data Hall. unfold filterPreferences.
    destruct data as [value|]; [|eauto].
    destruct (disabled props || hiddenLoading (hiddenPreferences props)); [eauto|].
    now apply switch_returns.
Qed.

Lemma unhandled_type_error_witness :
  (exists r, filterPreferences (plainProps 1) (key bounties)
               (Some [BaseBounty.withImages bountyWithoutImages []]) = Ok r)
  /\ filterPreferences (plainProps 1) (unhandled "clubs") None
     = Ok {| items := []; hidden := Hidden.zero |}.
Proof.
  split.
  - apply (proj2 (proj2 unhandled_type_error) (plainProps 1) bounties
             (Some [BaseBounty.withImages bountyWithoutImages []])).
    repeat constructor.
  - apply (proj1 (proj2 unhandled_type_error) (plainProps 1) (unhandled "clubs") None).
    now left.
Defined.

(** C9 as stated fails: with [disabled] set, a [type] outside the eight keys
    does not throw. *)
Lemma unhandled_type_short_circuit :
  filterPreferences
    {| hiddenPreferences := noPreferences; browsingLevel := 1; showHidden := false;
       showImageless := false; disabled := true; currentUser := None;
       allowLowerLevels := false |}
    (unhandled "clubs") (Some [tt])
  = Ok {| items := []; hidden := Hidden.zero |}.
Proof. reflexivity. Qed.

(** ** Parents without images *)

Lemma length_zero_nil {A : Type} (l : list A) : length l = 0%nat -> l = [].
Proof. now destruct l. Qed.

(** C3 (amended).  A model, collection, post or bounty that passes the filter
    and keeps none of its images is counted under [noImages]; a model, a
    collection and a post are returned with an empty [images] array when
    [showImageless] is set and dropped when it is not; a bounty is dropped
    whatever [showImageless] is. *)
Theorem imageless_parent `{SharedUtils} (props : FilterPreferencesProps) (k : DataKey)
    (x : ItemOf k) :
  reachesSwitch props = true ->
  passes props k x = true ->
  childCount props k x = Some 0%nat ->
  exists r,
    filterPreferences props (key k) (Some [x]) = Ok r
    /\ Hidden.noImages (hidden r) = 1
    /\ items r = if showImageless props && negb (isBounties k) then [emptied k x] else [].
Proof.
  intros Hr Hp Hc. rewrite (filterPreferences_switch props k [x] Hr), switch_single, Hp.
  fold (filterTally props k x).
  destruct (filterTally_untouched props k x) as [_ Hn].
  destruct k; cbn [childCount] in Hc; try discriminate;
    cbn [mapCallback emptied isBounties].
  - injection Hc as Hc. unfold modelsMap. rewrite Hc. cbn [Nat.eqb negb orb].
    apply length_zero_nil in Hc. rewrite Hc.
    eexists; split; [reflexivity|]. cbn [hidden items Hidden.noImages Hidden.incr_noImages].
    split; [lia|]. now destruct (showImageless props).
  - injection Hc as Hc. unfold collectionsMap. rewrite Hc. cbn [Nat.eqb negb orb].
    apply length_zero_nil in Hc. rewrite Hc.
    eexists; split; [reflexivity|]. cbn [hidden items Hidden.noImages Hidden.incr_noImages].
    split; [lia|]. now destruct (showImageless props).
  - unfold bountiesMap. destruct (BaseBounty.images x) as [imgs|]; [|discriminate].
    cbn [option_map] in *. injection Hc as Hc. rewrite Hc. cbn [Nat.eqb negb orb].
    eexists; split; [reflexivity|]. cbn [hidden items Hidden.noImages Hidden.incr_noImages].
    split; [lia|]. now rewrite andb_false_r.
  - unfold postsMap. destruct (BasePost.images x) as [imgs|]; [|discriminate].
    cbn [option_map] in *. injection Hc as Hc. rewrite Hc. cbn [Nat.eqb negb orb].
    apply length_zero_nil in Hc. rewrite Hc.
    eexists; split; [reflexivity|]. cbn [hidden items Hidden.noImages Hidden.incr_noImages].
    split; [lia|]. now destruct (showImageless props).
Qed.

Lemma imageless_parent_witness :
  exists r,
    filterPreferences (plainProps 3) (key models) (Some [modelWithRestrictedImage]) = Ok r
    /\ Hidden.noImages (hidden r) = 1
    /\ items r = [].
Proof.
  apply (imageless_parent (plainProps 3) models modelWithRestrictedImage);
    reflexivity.
Defined.

(** C3 as stated fails: with [showImageless] false, a model and a post whose
    images are all filtered out are dropped from the output. *)
Lemma imageless_model_and_post_dropped :
  filterPreferences (plainProps 3) (key models) (Some [modelWithRestrictedImage])
  = Ok {| items := []; hidden := Hidden.incr_noImages Hidden.zero |}
  /\ filterPreferences (plainProps 3) (key posts) (Some [postWithRestrictedImage])
     = Ok {| items := []; hidden := Hidden.incr_noImages Hidden.zero |}.
Proof. split; reflexivity. Qed.

(** ** The count of hidden items of the hook *)

Lemma filterPreferences_unprocessed `{SharedUtils} props type
    (data : option (list (ElemOf type))) r :
  filterPreferences props type data = Ok r -> Hidden.unprocessed (hidden r) = 0.
Proof.
  unfold filterPreferences. destruct data as [value|]; [|now intros [= <-]].
  destruct (disabled props || hiddenLoading (hiddenPreferences props));
    [now intros [= <-]|].
  destruct type as [k|name]; [apply switch_unprocessed|discriminate].
Qed.

(** C10.  Whenever the filter returns a tally, the hook returns, and its
    [hiddenCount] is the sum of the counters [browsingLevel], [models],
    [images], [tags] and [users]: it is the total of the tally without
    [noImages], and [unprocessed] is zero. *)
Theorem hiddenCount_excludes_noImages `{SharedUtils} (type : TypeArg)
    (args : Hook.Args type) (env : Hook.Env type) (r : FilterResult (ElemOf type)) :
  filterPreferences (hookProps args env) type (Hook.data args) = Ok r ->
  exists out,
    useApplyHiddenPreferences type args env = Ok out
    /\ Hook.hiddenCount out =
       Hidden.browsingLevel (hidden r) + Hidden.models (hidden r)
       + Hidden.images (hidden r) + Hidden.tags (hidden r) + Hidden.users (hidden r)
    /\ Hidden.unprocessed (hidden r) = 0
    /\ Hook.hiddenCount out = Hidden.total (hidden r) - Hidden.noImages (hidden r).
Proof.
  intros E. unfold useApplyHiddenPreferences. rewrite E.
  eexists; split; [reflexivity|]. cbn [Hook.hiddenCount].
  pose proof (filterPreferences_unprocessed _ _ _ _ E) as Hu.
  repeat split; [assumption|]. unfold Hidden.total. lia.
Qed.

Lemma hiddenCount_excludes_noImages_witness :
  exists out,
    useApplyHiddenPreferences (key models) (plainArgs [modelWithRestrictedImage])
      (plainEnv 3) = Ok out
    /\ Hook.hiddenCount out = 0 + 0 + 0 + 0 + 0
    /\ 0 = 0
    /\ Hook.hiddenCount out = 1 - 1.
Proof.
  apply (hiddenCount_excludes_noImages (key models) (plainArgs [modelWithRestrictedImage])
           (plainEnv 3) {| items := []; hidden := Hidden.incr_noImages Hidden.zero |}).
  reflexivity.
Defined.

(** ** The override of the owner and of the moderator *)

Section Override.
Context {U : SharedUtils}.
Variable props : FilterPreferencesProps.

(** An overridden item passes the filter. *)
Lemma overridden_passes k x : overridden props k x = true -> passes props k x = true.
Proof.
  unfold overridden.
  unfold_filter k; cbn [levelOf isOwner]; try discriminate; intros ->; reflexivity.
Qed.

(** The map callback keeps the parent unless it is left without images. *)
Lemma mapped_kept k x :
  imagesPresent k x = true -> droppedImageless props k x = false ->
  exists o, mapped props k x = Ok (Some o).
Proof.
  unfold droppedImageless, mapped.
  destruct k; cbn [imagesPresent childCount mapCallback isBounties]; eauto;
    unfold modelsMap, collectionsMap, bountiesMap, postsMap.
  - intros _. destruct (length (modelImages props x)); cbn [Nat.eqb negb orb andb];
      [rewrite andb_true_r; intros ->%negb_false_iff|]; eauto.
  - intros _. destruct (length (List.filter _ _)); cbn [Nat.eqb negb orb andb];
      [rewrite andb_true_r; intros ->%negb_false_iff|]; eauto.
  - destruct (BaseBounty.images x) as [imgs|]; [|discriminate]. intros _.
    cbn [option_map]. destruct (length (List.filter _ _)); cbn [Nat.eqb negb];
      [rewrite andb_false_r; discriminate|]; eauto.
  - intros _. destruct (BasePost.images x) as [imgs|]; [|eauto].
    cbn [option_map]. destruct (length (List.filter _ _)); cbn [Nat.eqb negb orb andb];
      [rewrite andb_true_r; intros ->%negb_false_iff|]; eauto.
Qed.

Lemma contribution_in k x o xs ys r :
  passes props k x = true -> mapped props k x = Ok (Some o) ->
  switch props k (xs ++ x :: ys) = Ok r -> In o (items r).
Proof.
  intros Hp Hm E. rewrite (switch_items props k _ r E).
  apply in_flat_map. exists x. split; [apply in_elt|].
  unfold contribution. rewrite Hp, Hm. now left.
Qed.
End Override.

(** C1 (amended).  In a call that is not short-circuited, for the six content
    types with a level (models, images, articles, collections, bounties,
    posts), an item for which the owner test of its branch holds or whose
    viewer is a moderator, and whose level is exactly [0], is in the output,
    in the form that the map callback of the branch returns, whatever the
    hidden sets and the browsing level are, unless it is dropped for lack of
    images.  Images and articles are never dropped that way. *)
Theorem owner_override_visible `{SharedUtils} (props : FilterPreferencesProps)
    (k : DataKey) (xs : list (ItemOf k)) (x : ItemOf k) (ys : list (ItemOf k)) :
  reachesSwitch props = true ->
  Forall (fun y => imagesPresent k y = true) (xs ++ x :: ys) ->
  overridden props k x = true ->
  droppedImageless props k x = false ->
  exists r o,
    filterPreferences props (key k) (Some (xs ++ x :: ys)) = Ok r
    /\ mapped props k x = Ok (Some o)
    /\ In o (items r)
    /\ (k = images \/ k = articles -> o = x).
Proof.
  intros Hr Hall Ho Hd.
  rewrite (filterPreferences_switch props k _ Hr).
  destruct (switch_returns props k _ Hall) as [r E].
  assert (Hx : imagesPresent k x = true).
  { apply (proj1 (List.Forall_forall _ _) Hall), in_elt. }
  destruct (mapped_kept props k x Hx Hd) as [o Hm].
  exists r, o. repeat split; try assumption.
  - eapply contribution_in; eauto using overridden_passes.
  - intros [-> | ->]; cbn in Hm; congruence.
Qed.

Lemma owner_override_visible_witness :
  exists r o,
    filterPreferences (viewerProps viewer7 1 hidingPreferences) (key images)
      (Some ([] ++ ownUnratedImage :: [])) = Ok r
    /\ mapped (viewerProps viewer7 1 hidingPreferences) images ownUnratedImage = Ok (Some o)
    /\ In o (items r)
    /\ (images = images \/ images = articles -> o = ownUnratedImage).
Proof.
  apply (owner_override_visible (viewerProps viewer7 1 hidingPreferences) images
           [] ownUnratedImage []);
    [reflexivity | repeat constructor | reflexivity | reflexivity].
Defined.

(** C1 as stated fails: the viewer's own unrated model is dropped when its
    images are filtered out; a moderator does not see a hidden unrated tag;
    and the owner test of images needs an owner id other than [0]. *)
Lemma override_not_for_every_item :
  filterPreferences (viewerProps viewer7 3 noPreferences) (key models)
    (Some [ownUnratedModel])
  = Ok {| items := []; hidden := Hidden.incr_noImages Hidden.zero |}
  /\ filterPreferences (viewerProps moderator9 3 hidingPreferences) (key tags)
       (Some [unratedTag])
     = Ok {| items := []; hidden := Hidden.incr_tags Hidden.zero |}
  /\ filterPreferences (viewerProps (SessionUser.mk 0 false) 1 noPreferences) (key images)
       (Some [unratedImageOfUserZero])
     = Ok {| items := []; hidden := Hidden.incr_browsingLevel Hidden.zero |}.
Proof. repeat split; reflexivity. Qed.

(** ** The browsing-level rule *)

Section LevelRule.
Context {U : SharedUtils}.
Variable props : FilterPreferencesProps.

(** An item that passes the filter is overridden or passes the maturity test
    of its branch. *)
Lemma passes_level k x :
  passes props k x = true ->
  overridden props k x = true \/ levelVisible props k x = true.
Proof.
  unfold overridden, levelVisible.
  unfold_filter k; cbn [levelOf isOwner]; auto;
    callback_cases; cbn [fst snd]; try discriminate; intros _;
    rewrite ?negb_false_iff, ?negb_true_iff in *; auto.
Qed.

(** An item that is not overridden and fails the intersection test is
    rejected by the browsing-level rule (for images, when [allowLowerLevels]
    is false). *)
Lemma mismatch_rejected k x :
  allowLowerLevels props = false ->
  overridden props k x = false -> levelMismatch props k x = true ->
  passes props k x = false
  /\ filterTally props k x = Hidden.incr_browsingLevel Hidden.zero.
Proof.
  unfold overridden, levelMismatch. intros Ha.
  unfold_filter k; cbn [levelOf isOwner]; try discriminate; rewrite ?Ha;
    intros -> ->; cbn [fst snd]; now split.
Qed.

(** The map callback changes neither the level nor the owner of an item. *)
Lemma mapped_level k x o :
  mapped props k x = Ok (Some o) ->
  levelOf k o = levelOf k x /\ isOwner props k o = isOwner props k x.
Proof.
  unfold mapped.
  destruct k; cbn [mapCallback levelOf isOwner];
    unfold modelsMap, collectionsMap, bountiesMap, postsMap;
    callback_cases; intros [= <-]; now split.
Qed.

End LevelRule.




(** ** One counter for each exclusion *)

Section OneCounter.
Context {U : SharedUtils}.
Variable props : FilterPreferencesProps.

(** The map callback drops a parent only when it counts it under [noImages]. *)
Lemma mapCallback_dropped k x d :
  mapCallback props k x Hidden.zero = Ok (None, d) ->
  d = Hidden.incr_noImages Hidden.zero.
Proof.
  destruct k; cbn [mapCallback];
    unfold modelsMap, collectionsMap, bountiesMap, postsMap;
    callback_cases; intros [= <-]; try reflexivity; discriminate.
Qed.

(** What the call on a single item adds to the tally. *)
Lemma single_item_tally k x rx :
  switch props k [x] = Ok rx ->
  (items rx = [] -> featuredTagsClear props k x = true -> Hidden.single (hidden rx))
  /\ (allowLowerLevels props = false -> overridden props k x = false ->
      levelMismatch props k x = true ->
      items rx = [] /\ hidden rx = Hidden.incr_browsingLevel Hidden.zero).
Proof.
  intros E. unfold Hidden.single.
  destruct (switch_single_ok props k x rx E) as [[Hp ->]|[Hp [o [d [Hm ->]]]]];
    cbn [items hidden]; split.
  - intros _ _. destruct (fails_tally props k x Hp) as [->|[->|[->|[->| ->]]]]; tauto.
  - intros Ha Ho Hl. split; [reflexivity|]. now apply mismatch_rejected.
  - destruct o as [o|]; [discriminate|]. intros _ Hc.
    rewrite (passes_tally props k x Hp Hc), (mapCallback_dropped k x d Hm). tauto.
  - intros Ha Ho Hl. destruct (mismatch_rejected props k x Ha Ho Hl). congruence.
Qed.

(** The result of a call is made of the results of the calls on the single
    items. *)
Lemma switch_by_items k xs r :
  switch props k xs = Ok r ->
  exists rs,
    Forall2 (fun x rx => switch props k [x] = Ok rx) xs rs
    /\ items r = concat (List.map items rs)
    /\ hidden r = fold_right Hidden.add Hidden.zero (List.map hidden rs).
Proof.
  revert r. induction xs as [|x xs IH]; intros r.
  - rewrite switch_nil. intros [= <-]. exists []. repeat split. constructor.
  - rewrite switch_cons.
    destruct (switch props k [x]) as [r1|e] eqn:E1; [|discriminate].
    destruct (switch props k xs) as [r2|e] eqn:E2; [|discriminate].
    intros [= <-]. destruct (IH r2 eq_refl) as [rs [Hrs [Hi Hh]]].
    exists (r1 :: rs). cbn [combine items hidden List.map concat fold_right].
    rewrite Hi, Hh. repeat split. now constructor.
Qed.
End OneCounter.

(** C2 (amended).  In a call that is not short-circuited, the output and the
    tally are the outputs and the tallies of the items taken one by one; an
    excluded item adds [1] to exactly one counter and nothing to the others
    (for a collection: when the featured image has no hidden tag); and for the
    six content types with a level, with [allowLowerLevels] false, an item
    that is not overridden and whose level does not intersect the browsing
    level is excluded and adds exactly [1] to [hidden.browsingLevel]. *)
Theorem one_counter_per_exclusion `{SharedUtils} (props : FilterPreferencesProps)
    (k : DataKey) (xs : list (ItemOf k)) :
  reachesSwitch props = true ->
  Forall (fun x => imagesPresent k x = true) xs ->
  exists r rs,
    filterPreferences props (key k) (Some xs) = Ok r
    /\ Forall2
         (fun x rx =>
            filterPreferences props (key k) (Some [x]) = Ok rx
            /\ (items rx = [] -> featuredTagsClear props k x = true ->
                Hidden.single (hidden rx))
            /\ (allowLowerLevels props = false -> overridden props k x = false ->
                levelMismatch props k x = true ->
                items rx = [] /\ hidden rx = Hidden.incr_browsingLevel Hidden.zero))
         xs rs
    /\ items r = concat (List.map items rs)
    /\ hidden r = fold_right Hidden.add Hidden.zero (List.map hidden rs).
Proof.
  intros Hr Hall. rewrite (filterPreferences_switch props k _ Hr).
  destruct (switch_returns props k _ Hall) as [r E].
  destruct (switch_by_items props k xs r E) as [rs [Hrs [Hi Hh]]].
  exists r, rs. repeat split; try assumption.
  clear -Hrs Hr. induction Hrs as [|x rx xs rs Hx _ IH]; constructor; [|assumption].
  rewrite (filterPreferences_switch props k _ Hr). split; [assumption|].
  now apply single_item_tally.
Qed.

Lemma one_counter_per_exclusion_witness :
  exists r rs,
    filterPreferences (plainProps 3) (key images) (Some [imageRatedR; imageRatedPg]) = Ok r
    /\ Forall2
         (fun x rx =>
            filterPreferences (plainProps 3) (key images) (Some [x]) = Ok rx
            /\ (items rx = [] -> featuredTagsClear (plainProps 3) images x = true ->
                Hidden.single (hidden rx))
            /\ (allowLowerLevels (plainProps 3) = false ->
                overridden (plainProps 3) images x = false ->
                levelMismatch (plainProps 3) images x = true ->
                items rx = [] /\ hidden rx = Hidden.incr_browsingLevel Hidden.zero))
         [imageRatedR; imageRatedPg] rs
    /\ items r = concat (List.map items rs)
    /\ hidden r = fold_right Hidden.add Hidden.zero (List.map hidden rs).
Proof.
  apply (one_counter_per_exclusion (plainProps 3) images [imageRatedR; imageRatedPg]);
    [reflexivity | repeat constructor].
Defined.

(** C2 as stated fails: the viewer's own unrated image has a level that does
    not intersect the browsing level and is neither excluded nor counted; nor
    is a tag rated PG under the browsing level PG13. *)
Lemma level_mismatch_not_always_excluded :
  Flags_intersects (BaseImage.nsfwLevel ownUnratedImage) 1 = false
  /\ filterPreferences (viewerProps viewer7 1 noPreferences) (key images)
       (Some [ownUnratedImage])
     = Ok {| items := [ownUnratedImage]; hidden := Hidden.zero |}
  /\ Flags_intersects 1 2 = false
  /\ filterPreferences (plainProps 2) (key tags) (Some [tagRatedPg])
     = Ok {| items := [tagRatedPg]; hidden := Hidden.zero |}.
Proof. repeat split; reflexivity. Qed.

(** The loop over the tags of the featured image of a collection counts each
    hidden tag under [images] and does not exclude the collection: here the
    collection is then dropped for lack of images, with three increments. *)
Lemma featured_tags_counted_per_tag :
  filterPreferences (viewerProps viewer7 1 hidingTagsPreferences) (key collections)
    (Some [collectionWithTaggedImage])
  = Ok {| items := [];
          hidden := Hidden.mk 0 0 0 2 0 0 1 |}.
Proof. reflexivity. Qed.

(** ** [showHidden] *)


Section ShowHidden.
Context {U : SharedUtils}.
Variable props : FilterPreferencesProps.


(** The map callback does not read [showHidden]. *)
Lemma mapCallback_showHidden b k x h :
  mapCallback (setShowHidden b props) k x h = mapCallback props k x h.
Proof. destruct k; reflexivity. Qed.




End ShowHidden.


Section ShowHiddenRules.
Context {U : SharedUtils}.
Variable props : FilterPreferencesProps.

End ShowHiddenRules.



(** A model whose id and whose tag are both hidden is counted under the
    models without [showHidden] and under the tags with it: [showHidden] does
    not bring it back. *)
Lemma hidden_id_and_hidden_tag :
  filterPreferences (setShowHidden false (viewerProps viewer7 1 hidingModelAndTag))
    (key models) (Some [modelHiddenAndTagged])
  = Ok {| items := []; hidden := Hidden.incr_models Hidden.zero |}
  /\ filterPreferences (setShowHidden true (viewerProps viewer7 1 hidingModelAndTag))
       (key models) (Some [modelHiddenAndTagged])
     = Ok {| items := []; hidden := Hidden.incr_tags Hidden.zero |}.
Proof. split; reflexivity. Qed.

(** ** Order of the output *)

Lemma filter_sublist {A : Type} (p : A -> bool) (l : list A) :
  sublist (List.filter p l) l.
Proof.
  induction l as [|x l IH]; cbn [List.filter]; [constructor|].
  destruct (p x); now constructor.
Qed.

Lemma insertBy_skip {A : Type} (cmp : A -> A -> Z) (x : A) (l1 l2 : list A) :
  Forall (fun y => 0 < cmp x y) l1 ->
  insertBy cmp x (l1 ++ l2) = l1 ++ insertBy cmp x l2.
Proof.
  induction 1 as [|y l1 Hy _ IH]; cbn [app insertBy]; [reflexivity|].
  destruct (Z.leb_spec (cmp x y) 0); [lia|]. now rewrite IH.
Qed.

Lemma insertBy_head {A : Type} (cmp : A -> A -> Z) (x : A) (l : list A) :
  Forall (fun y => cmp x y <= 0) l -> insertBy cmp x l = x :: l.
Proof.
  destruct 1 as [|y l Hy _]; cbn [insertBy]; [reflexivity|].
  now destruct (Z.leb_spec (cmp x y) 0); [|lia].
Qed.

Section Order.
Context {U : SharedUtils}.
Variable props : FilterPreferencesProps.

Local Abbreviation intersects :=
  (fun i => Flags_intersects (ModelImage.nsfwLevel i) (browsingLevel props)).

(** The sort of the images of a model puts the intersecting images first
    and keeps the order inside both groups. *)
Lemma sortBy_intersectingFirst (imgs : list ModelImage.t) :
  sortBy (compareIntersects props) imgs = intersectingFirst props imgs.
Proof.
  unfold intersectingFirst.
  induction imgs as [|x imgs IH]; cbn [sortBy List.filter]; [reflexivity|].
  rewrite IH. cbn beta.
  destruct (Flags_intersects (ModelImage.nsfwLevel x) (browsingLevel props)) eqn:Hx;
    cbn [negb app].
  - apply insertBy_head. apply List.Forall_forall. intros y _.
    unfold compareIntersects. rewrite Hx.
    destruct (Flags_intersects (ModelImage.nsfwLevel y) (browsingLevel props)); cbn; lia.
  - rewrite insertBy_skip.
    + f_equal. apply insertBy_head. apply List.Forall_forall.
      intros y [_ Hy]%filter_In. unfold compareIntersects. rewrite Hx.
      apply negb_true_iff in Hy. rewrite Hy. cbn. lia.
    + apply List.Forall_forall. intros y [_ Hy]%filter_In.
      unfold compareIntersects. rewrite Hx, Hy. cbn. lia.
Qed.

(** What the map callback returns is the item with some of its images. *)
Lemma mapped_derived k x o : mapped props k x = Ok (Some o) -> derived props k x o.
Proof.
  unfold mapped.
  destruct k; cbn [mapCallback derived]; try (now intros [= <-]).
  - unfold modelsMap. callback_cases; intros [= <-];
      exists (List.filter (modelImageVisible props x) (orEmpty (BaseModel.images x)));
      (split; [apply filter_sublist|]); f_equal; unfold modelImages;
      (destruct (BaseModel.nsfw x); [rewrite sortBy_intersectingFirst|]);
      now destruct (BaseModel.images x).
  - unfold collectionsMap. callback_cases; intros [= <-];
      eexists; (split; [apply filter_sublist|reflexivity]).
  - unfold bountiesMap. destruct (BaseBounty.images x) as [imgs|]; [|discriminate].
    cbn [option_map orEmpty]. callback_cases; intros [= <-];
      eexists; (split; [apply filter_sublist|reflexivity]).
  - unfold postsMap. destruct (BasePost.images x) as [imgs|]; [|intros [= <-]; now left].
    cbn [orEmpty]. callback_cases; intros [= <-];
      right; eexists; (split; [apply filter_sublist|reflexivity]).
Qed.

End Order.



(** Under the browsing level PG and R, the image rated PG of the model with
    [nsfw] comes before its image rated PG13. *)
Lemma nsfw_model_images_reordered :
  filterPreferences (plainProps 5) (key models) (Some [nsfwModel])
  = Ok {| items :=
            [BaseModel.withImages nsfwModel
               [ModelImage.mk 32 None 1 None; ModelImage.mk 31 None 2 None]];
          hidden := Hidden.zero |}.
Proof. reflexivity. Qed.

(** ** Filtering twice *)

Lemma filter_all {A : Type} (p : A -> bool) (l : list A) :
  Forall (fun x => p x = true) l -> List.filter p l = l.
Proof.
  induction 1 as [|x l Hx _ IH]; cbn [List.filter]; [reflexivity|].
  now rewrite Hx, IH.
Qed.

Lemma filter_holds {A : Type} (p : A -> bool) (l : list A) :
  Forall (fun x => p x = true) (List.filter p l).
Proof. apply List.Forall_forall. now intros x [_ Hx]%filter_In. Qed.

Lemma filter_idem {A : Type} (p : A -> bool) (l : list A) :
  List.filter p (List.filter p l) = List.filter p l.
Proof. apply filter_all, filter_holds. Qed.

Lemma filter_none {A : Type} (p : A -> bool) (l : list A) :
  Forall (fun x => p x = false) l -> List.filter p l = [].
Proof.
  induction 1 as [|x l Hx _ IH]; cbn [List.filter]; [reflexivity|].
  now rewrite Hx, IH.
Qed.

Lemma filter_keeps {A : Type} (p q : A -> bool) (l : list A) :
  Forall (fun x => p x = true) l -> Forall (fun x => p x = true) (List.filter q l).
Proof.
  rewrite !List.Forall_forall. intros Hl x [Hx _]%filter_In. now apply Hl.
Qed.

Lemma existsb_filter {A : Type} (f p : A -> bool) (l : list A) :
  existsb f l = false -> existsb f (List.filter p l) = false.
Proof.
  induction l as [|x l IH]; cbn [existsb List.filter]; [reflexivity|].
  intros [Hx Hl]%orb_false_iff. destruct (p x); cbn [existsb]; [rewrite Hx|]; auto.
Qed.

Section Idempotence.
Context {U : SharedUtils}.
Variable props : FilterPreferencesProps.

Lemma intersectingFirst_idem imgs :
  intersectingFirst props (intersectingFirst props imgs) = intersectingFirst props imgs.
Proof.
  unfold intersectingFirst. rewrite !List.filter_app, !filter_idem.
  rewrite (filter_none _ (List.filter (fun i => negb _) imgs)).
  - rewrite (filter_none (fun i => negb _) (List.filter _ imgs)).
    + now rewrite app_nil_r.
    + apply List.Forall_forall. intros y [_ Hy]%filter_In. now rewrite Hy.
  - apply List.Forall_forall. intros y [_ Hy]%filter_In. now apply negb_true_iff.
Qed.

Lemma intersectingFirst_all (p : ModelImage.t -> bool) imgs :
  Forall (fun i => p i = true) imgs ->
  List.filter p (intersectingFirst props imgs) = intersectingFirst props imgs.
Proof.
  intros Hall. apply filter_all. unfold intersectingFirst.
  apply Forall_app. split; now apply filter_keeps.
Qed.

(** The images that the map callback leaves to a model are left as they are
    by a second pass. *)
Lemma modelImages_fixed x :
  modelImages props (BaseModel.withImages x (modelImages props x)) = modelImages props x.
Proof.
  unfold modelImages at 1. cbn [BaseModel.withImages BaseModel.images BaseModel.nsfw].
  change (modelImageVisible props (BaseModel.withImages x (modelImages props x)))
    with (modelImageVisible props x).
  unfold modelImages. destruct (BaseModel.nsfw x).
  - rewrite !sortBy_intersectingFirst.
    rewrite intersectingFirst_all, intersectingFirst_idem; [reflexivity|].
    destruct (BaseModel.images x); [apply filter_holds|constructor].
  - destruct (BaseModel.images x); [apply filter_idem|reflexivity].
Qed.
End Idempotence.

Ltac returned :=
  let E := fresh "E" in intros E; first [discriminate E | injection E as <-].

Section Fixed.
Context {U : SharedUtils}.
Variable props : FilterPreferencesProps.

(** What the map callback returns passes the filter again. *)
Lemma mapped_passes k x o :
  passes props k x = true -> mapped props k x = Ok (Some o) ->
  passes props k o = true.
Proof.
  unfold mapped.
  destruct k; cbn [mapCallback]; try (now intros Hp [= <-]).
  - unfold modelsMap. intros Hp. callback_cases; returned; exact Hp.
  - unfold collectionsMap. intros Hp. callback_cases; returned;
      revert Hp; unfold passes; cbn [filterCallback]; unfold collectionsFilter;
      cbn [BaseCollection.withImages BaseCollection.userId BaseCollection.user
           BaseCollection.nsfwLevel BaseCollection.image];
      callback_cases; cbn [fst]; congruence.
  - unfold bountiesMap. destruct (BaseBounty.images x) as [imgs|] eqn:Hi; [|discriminate].
    cbn [option_map]. intros Hp. callback_cases; returned;
      revert Hp; unfold passes; cbn [filterCallback]; unfold bountiesFilter;
      cbn [BaseBounty.withImages BaseBounty.user BaseBounty.nsfwLevel BaseBounty.images
           BaseBounty.tags orEmpty]; rewrite Hi; cbn [orEmpty];
      (destruct (existsb _ imgs) eqn:He; [|rewrite (existsb_filter _ _ _ He)]);
      callback_cases; cbn [fst]; congruence.
  - unfold postsMap. destruct (BasePost.images x) as [imgs|]; [|now intros Hp [= <-]].
    intros Hp. callback_cases; returned; exact Hp.
Qed.

(** What the map callback returns is returned as it is by a second pass. *)
Lemma mapped_fixed k x o :
  mapped props k x = Ok (Some o) ->
  mapped props k o = Ok (Some o) /\ imagesPresent k o = true.
Proof.
  unfold mapped.
  destruct k; cbn [mapCallback imagesPresent]; try (now intros [= <-]).
  - unfold modelsMap. cbn zeta. intros E. split; [|reflexivity].
    destruct (negb (length (modelImages props x) =? 0)%nat || showImageless props) eqn:Hc;
      [|discriminate].
    injection E as <-. rewrite modelImages_fixed, Hc. reflexivity.
  - unfold collectionsMap. cbn zeta. intros E. split; [|reflexivity].
    destruct (negb (length (List.filter (ownedImageVisible props) (mergedImages x)) =? 0)%nat
              || showImageless props) eqn:Hc; [|discriminate].
    injection E as <-.
    cbn [mergedImages BaseCollection.withImages BaseCollection.image BaseCollection.images
         orEmpty].
    rewrite filter_idem, Hc. reflexivity.
  - unfold bountiesMap. destruct (BaseBounty.images x) as [imgs|]; [|discriminate].
    cbn [option_map]. cbn zeta. intros E.
    destruct (negb (length (List.filter (ownedImageVisible props) imgs) =? 0)%nat) eqn:Hc;
      [|discriminate].
    injection E as <-. split; [|reflexivity].
    cbn [BaseBounty.withImages BaseBounty.images option_map].
    rewrite filter_idem, Hc. reflexivity.
  - unfold postsMap. destruct (BasePost.images x) as [imgs|] eqn:Hi.
    + cbn zeta. intros E. split; [|reflexivity].
      destruct (negb (length (List.filter (postImageVisible props) imgs) =? 0)%nat
                || showImageless props) eqn:Hc; [|discriminate].
      injection E as <-. cbn [BasePost.withImages BasePost.images].
      rewrite filter_idem, Hc. reflexivity.
    + intros [= <-]. now rewrite Hi.
Qed.

Lemma contribution_fixed k x o :
  In o (contribution props k x) ->
  contribution props k o = [o] /\ imagesPresent k o = true.
Proof.
  unfold contribution at 1. destruct (passes props k x) eqn:Hp; [|intros []].
  destruct (mapped props k x) as [[o'|]|e] eqn:Hm; [|intros []|intros []].
  intros [<-|[]]. destruct (mapped_fixed k x o' Hm) as [Hf Hi]. split; [|assumption].
  unfold contribution. now rewrite (mapped_passes k x o' Hp Hm), Hf.
Qed.

Lemma survivors_fixed k xs :
  flat_map (contribution props k) (flat_map (contribution props k) xs)
  = flat_map (contribution props k) xs
  /\ Forall (fun o => imagesPresent k o = true) (flat_map (contribution props k) xs).
Proof.
  induction xs as [|x xs [IH1 IH2]]; cbn [flat_map]; [split; [reflexivity|constructor]|].
  rewrite flat_map_app, IH1. split.
  - f_equal. pose proof (contribution_fixed k x) as Hx.
    destruct (contribution props k x) as [|o os] eqn:Hc; [reflexivity|].
    assert (os = []) as ->.
    { revert Hc. unfold contribution. destruct (passes props k x); [|discriminate].
      destruct (mapped props k x) as [[?|]|?]; congruence. }
    cbn [flat_map]. rewrite app_nil_r. apply Hx. now left.
  - apply Forall_app. split; [|assumption].
    apply List.Forall_forall. intros o Ho. now apply (contribution_fixed k x o).
Qed.
End Fixed.

(** C8.  Filtering is idempotent: the call returns a result when every bounty
    has its images, and the call on the items of this result, with the same
    props, returns the same items. *)
Theorem filter_idempotent `{SharedUtils} (props : FilterPreferencesProps) (k : DataKey)
    (data : option (list (ItemOf k))) :
  Forall (fun x => imagesPresent k x = true) (orEmpty data) ->
  exists r r',
    filterPreferences props (key k) data = Ok r
    /\ filterPreferences props (key k) (Some (items r)) = Ok r'
    /\ items r' = items r.
Proof.
  intros Hall. destruct (reachesSwitch props) eqn:Hr.
  - destruct data as [xs|].
    + rewrite (filterPreferences_switch props k _ Hr). cbn [orEmpty] in Hall.
      destruct (switch_returns props k _ Hall) as [r E].
      pose proof (switch_items props k _ r E) as Hi.
      destruct (survivors_fixed props k xs) as [Hf Hp].
      assert (Hall' : Forall (fun x => imagesPresent k x = true) (items r))
        by now rewrite Hi.
      destruct (switch_returns props k _ Hall') as [r' E'].
      exists r, r'. rewrite (filterPreferences_switch props k _ Hr).
      repeat split; try assumption.
      cbn [ElemOf]. rewrite (switch_items props k _ r' E'), Hi. exact Hf.
    + exists {| items := []; hidden := Hidden.zero |},
        {| items := []; hidden := Hidden.zero |}.
      split; [reflexivity|]. cbn [items].
      rewrite (filterPreferences_switch props k [] Hr), switch_nil. now split.
  - exists {| items := []; hidden := Hidden.zero |}, {| items := []; hidden := Hidden.zero |}.
    unfold reachesSwitch in Hr. apply negb_false_iff in Hr.
    unfold filterPreferences. rewrite Hr. now destruct data.
Qed.

Lemma filter_idempotent_witness :
  exists r r',
    filterPreferences (viewerProps viewer7 5 hidingPreferences) (key models)
      (Some [nsfwModel; modelWithRestrictedImage; ownUnratedModel]) = Ok r
    /\ filterPreferences (viewerProps viewer7 5 hidingPreferences) (key models)
         (Some (items r)) = Ok r'
    /\ items r' = items r.
Proof.
  apply (filter_idempotent (viewerProps viewer7 5 hidingPreferences) models
           (Some [nsfwModel; modelWithRestrictedImage; ownUnratedModel])).
  repeat constructor.
Defined.

(** ** Absent optional fields *)






Section Defaults.
Context {U : SharedUtils}.
Variable props : FilterPreferencesProps.









End Defaults.




(** * Further properties of the filter *)

(** ** Every input item is in the output or counted *)

Section Accounting.
Context {U : SharedUtils}.
Variable props : FilterPreferencesProps.

Lemma reportedCount_add a b :
  reportedCount (Hidden.add a b) = reportedCount a + reportedCount b.
Proof. destruct a, b. unfold reportedCount. cbn. lia. Qed.

Lemma total_add a b : Hidden.total (Hidden.add a b) = Hidden.total a + Hidden.total b.
Proof. destruct a, b. unfold Hidden.total. cbn. lia. Qed.

Lemma noImages_add a b :
  Hidden.noImages (Hidden.add a b) = Hidden.noImages a + Hidden.noImages b.
Proof. destruct a, b. reflexivity. Qed.

(** A parent that the map callback keeps is counted under [noImages] only
    when [showImageless] is set. *)
Lemma mapCallback_kept k x o d :
  mapCallback props k x Hidden.zero = Ok (Some o, d) ->
  (showImageless props = false \/ isBounties k = true \/ filterOnly k = true) ->
  d = Hidden.zero.
Proof.
  destruct k; cbn [mapCallback isBounties filterOnly];
    unfold modelsMap, collectionsMap, bountiesMap, postsMap;
    callback_cases; intros E; try discriminate E; injection E as <- <-;
    try reflexivity;
    intros [Hs|[Hs|Hs]]; try discriminate Hs;
    try rewrite Hs in *; cbn in *; congruence.
Qed.

(** What one item adds to the length of the output and to the counters. *)
Lemma single_item_account k x rx :
  switch props k [x] = Ok rx -> featuredTagsClear props k x = true ->
  reportedCount (hidden rx) = (if passes props k x then 0 else 1)
  /\ 0 <= Hidden.noImages (hidden rx)
  /\ Z.of_nat (length (items rx)) + Hidden.total (hidden rx) >= 1
  /\ Z.of_nat (length (items rx)) + reportedCount (hidden rx) <= 1
  /\ Hidden.total (hidden rx) = reportedCount (hidden rx) + Hidden.noImages (hidden rx)
  /\ (showImageless props = false \/ isBounties k = true \/ filterOnly k = true ->
      Z.of_nat (length (items rx)) + Hidden.total (hidden rx) = 1).
Proof.
  intros E Hc.
  destruct (switch_single_ok props k x rx E) as [[Hp ->]|[Hp [o [d [Hm ->]]]]];
    rewrite Hp; cbn [items hidden].
  - destruct (fails_tally props k x Hp) as [->|[->|[->|[->| ->]]]];
      vm_compute; repeat split; congruence.
  - rewrite (passes_tally props k x Hp Hc), add_zero_l.
    destruct o as [o|].
    + destruct (mapCallback_tally props k x _ d Hm) as [-> | ->].
      * vm_compute; repeat split; congruence.
      * repeat split; try (vm_compute; congruence).
        intros Hs. pose proof (mapCallback_kept k x o _ Hm Hs). discriminate.
    + rewrite (mapCallback_dropped props k x d Hm). vm_compute; repeat split; congruence.
Qed.

Lemma switch_account k xs r :
  switch props k xs = Ok r ->
  Forall (fun x => featuredTagsClear props k x = true) xs ->
  reportedCount (hidden r) = countIf (fun x => negb (passes props k x)) xs
  /\ 0 <= Hidden.noImages (hidden r)
  /\ Z.of_nat (length (items r)) + Hidden.total (hidden r) >= Z.of_nat (length xs)
  /\ Z.of_nat (length (items r)) + reportedCount (hidden r) <= Z.of_nat (length xs)
  /\ Hidden.total (hidden r) = reportedCount (hidden r) + Hidden.noImages (hidden r)
  /\ (showImageless props = false \/ isBounties k = true \/ filterOnly k = true ->
      Z.of_nat (length (items r)) + Hidden.total (hidden r) = Z.of_nat (length xs)).
Proof.
  intros E Hall. revert r E.
  induction Hall as [|x xs Hx _ IH]; intros r.
  - rewrite switch_nil. intros [= <-]. vm_compute. repeat split; congruence.
  - rewrite switch_cons.
    destruct (switch props k [x]) as [r1|e] eqn:E1; [|discriminate].
    destruct (switch props k xs) as [r2|e] eqn:E2; [|discriminate].
    intros [= <-]. cbn [combine items hidden].
    destruct (single_item_account k x r1 E1 Hx) as (A1 & A2 & A3 & A4 & A5 & A6).
    destruct (IH r2 eq_refl) as (B1 & B2 & B3 & B4 & B5 & B6).
    rewrite reportedCount_add, total_add, noImages_add, length_app.
    unfold countIf in *. cbn [List.filter].
    destruct (passes props k x); cbn [negb length] in *; repeat split; try lia;
      intros Hs; specialize (A6 Hs); specialize (B6 Hs); lia.
Qed.
End Accounting.

(** X1.  In a call that is not short-circuited (for collections: when no
    featured image carries a hidden tag), the five counters that the hook
    reports count exactly the items that the filter callback rejects; the
    number of items missing from the output lies between this count and the
    total of the tally; and every missing item is counted exactly once when
    [showImageless] is false, for bounties and for the branches without
    images. *)
Theorem every_item_accounted `{SharedUtils} (props : FilterPreferencesProps)
    (k : DataKey) (xs : list (ItemOf k)) :
  reachesSwitch props = true ->
  Forall (fun x => imagesPresent k x = true) xs ->
  Forall (fun x => featuredTagsClear props k x = true) xs ->
  exists r,
    filterPreferences props (key k) (Some xs) = Ok r
    /\ reportedCount (hidden r) = countIf (fun x => negb (passes props k x)) xs
    /\ reportedCount (hidden r) <= Z.of_nat (length xs) - Z.of_nat (length (items r))
    /\ Z.of_nat (length xs) - Z.of_nat (length (items r)) <= Hidden.total (hidden r)
    /\ (showImageless props = false \/ isBounties k = true \/ filterOnly k = true ->
        Z.of_nat (length xs) - Z.of_nat (length (items r)) = Hidden.total (hidden r)).
Proof.
  intros Hr Hall Hclear. rewrite (filterPreferences_switch props k _ Hr).
  destruct (switch_returns props k _ Hall) as [r E]. exists r.
  destruct (switch_account props k xs r E Hclear) as (A1 & A2 & A3 & A4 & A5 & A6).
  cbn [ElemOf] in *. repeat split; try assumption; try lia.
  intros Hs. specialize (A6 Hs). lia.
Qed.

Lemma every_item_accounted_witness :
  exists r,
    filterPreferences (plainProps 3) (key images) (Some [imageRatedR; imageRatedPg]) = Ok r
    /\ reportedCount (hidden r)
       = countIf (fun x => negb (passes (plainProps 3) images x)) [imageRatedR; imageRatedPg]
    /\ reportedCount (hidden r) <= 2 - Z.of_nat (length (items r))
    /\ 2 - Z.of_nat (length (items r)) <= Hidden.total (hidden r)
    /\ (showImageless (plainProps 3) = false \/ isBounties images = true
        \/ filterOnly images = true ->
        2 - Z.of_nat (length (items r)) = Hidden.total (hidden r)).
Proof.
  apply (every_item_accounted (plainProps 3) images [imageRatedR; imageRatedPg]);
    [reflexivity | repeat constructor | repeat constructor].
Defined.

(** ** A second pass hides nothing *)

Section SecondPass.
Context {U : SharedUtils}.
Variable props : FilterPreferencesProps.

Lemma contribution_passes k x o :
  In o (contribution props k x) ->
  passes props k o = true /\ featuredTagsClear props k o = true.
Proof.
  intros Ho. destruct (contribution_fixed props k x o Ho) as [Hf _]. split.
  - unfold contribution in Hf. now destruct (passes props k o).
  - revert Ho. unfold contribution.
    destruct (passes props k x); [|intros []].
    destruct (mapped props k x) as [[o'|]|e] eqn:Hm; [|intros []|intros []].
    intros [<-|[]]. destruct k; cbn [featuredTagsClear]; try reflexivity.
    assert (Hn : BaseCollection.image o' = None).
    { revert Hm. unfold mapped. cbn [mapCallback]. unfold collectionsMap. cbn zeta.
      destruct (negb _ || _); intros E; [injection E as <-; reflexivity|discriminate E]. }
    now rewrite Hn.
Qed.

Lemma survivors_pass k xs :
  Forall (fun o => passes props k o = true /\ featuredTagsClear props k o = true)
    (flat_map (contribution props k) xs).
Proof.
  apply List.Forall_forall. intros o [x [_ Ho]]%in_flat_map.
  eapply contribution_passes, Ho.
Qed.
End SecondPass.

(** X2.  The call on the items of a result rejects none of them: the five
    counters that the hook reports are all zero after a second pass. *)
Theorem second_pass_hides_nothing `{SharedUtils} (props : FilterPreferencesProps)
    (k : DataKey) (xs : list (ItemOf k)) :
  reachesSwitch props = true ->
  Forall (fun x => imagesPresent k x = true) xs ->
  exists r r',
    filterPreferences props (key k) (Some xs) = Ok r
    /\ filterPreferences props (key k) (Some (items r)) = Ok r'
    /\ reportedCount (hidden r') = 0.
Proof.
  intros Hr Hall. rewrite (filterPreferences_switch props k _ Hr).
  destruct (switch_returns props k _ Hall) as [r E].
  pose proof (switch_items props k _ r E) as Hi.
  destruct (survivors_fixed props k xs) as [_ Hp].
  pose proof (survivors_pass props k xs) as Hs. rewrite <- Hi in Hp, Hs.
  destruct (switch_returns props k _ Hp) as [r' E'].
  exists r, r'. rewrite (filterPreferences_switch props k _ Hr).
  repeat split; try assumption.
  assert (Hc : Forall (fun x => featuredTagsClear props k x = true) (items r)).
  { eapply List.Forall_impl; [|exact Hs]. now intros o [_ Ho]. }
  destruct (switch_account props k _ r' E' Hc) as (A1 & _).
  cbn [ElemOf] in *. rewrite A1.
  unfold countIf. rewrite filter_none; [reflexivity|].
  eapply List.Forall_impl; [|exact Hs]. intros o [Ho _]. cbn beta. now rewrite Ho.
Qed.

Lemma second_pass_hides_nothing_witness :
  exists r r',
    filterPreferences (viewerProps viewer7 5 hidingPreferences) (key models)
      (Some [nsfwModel; modelWithRestrictedImage; ownUnratedModel]) = Ok r
    /\ filterPreferences (viewerProps viewer7 5 hidingPreferences) (key models)
         (Some (items r)) = Ok r'
    /\ reportedCount (hidden r') = 0.
Proof.
  apply (second_pass_hides_nothing (viewerProps viewer7 5 hidingPreferences) models
           [nsfwModel; modelWithRestrictedImage; ownUnratedModel]);
    [reflexivity | repeat constructor].
Defined.

(** ** Blocked items are never shown *)

Section Blocked.
Context {U : SharedUtils}.
Variable props : FilterPreferencesProps.

(** An item that is not exempt and that a block-list rule applies to is
    rejected by the filter callback. *)
Lemma blocked_fails k x :
  exempt props k x = false -> blocked props k x = true -> passes props k x = false.
Proof.
  unfold exempt, overridden.
  unfold_filter k; cbn [levelOf isOwner blocked];
    intros He; try rewrite He; callback_cases; cbn [fst orb andb negb];
    try reflexivity; discriminate.
Qed.
End Blocked.

(** X3.  An item that is not exempt (not overridden; for users: not the
    viewer) and whose owner, id or tags are blocked by the hidden sets, as the
    branch of its type reads them, adds nothing to the output of a call and
    adds exactly one to the count that the hook reports. *)
Theorem blocked_never_shown `{SharedUtils} (props : FilterPreferencesProps)
    (k : DataKey) (xs : list (ItemOf k)) (x : ItemOf k) (ys : list (ItemOf k)) :
  reachesSwitch props = true ->
  Forall (fun y => imagesPresent k y = true) xs ->
  Forall (fun y => imagesPresent k y = true) ys ->
  exempt props k x = false ->
  blocked props k x = true ->
  exists r r1 r2,
    filterPreferences props (key k) (Some (xs ++ x :: ys)) = Ok r
    /\ filterPreferences props (key k) (Some xs) = Ok r1
    /\ filterPreferences props (key k) (Some ys) = Ok r2
    /\ items r = items r1 ++ items r2
    /\ reportedCount (hidden r) = reportedCount (hidden r1) + 1 + reportedCount (hidden r2).
Proof.
  intros Hr Hxs Hys He Hb. rewrite !(filterPreferences_switch props k _ Hr).
  destruct (switch_returns props k _ Hxs) as [r1 E1].
  destruct (switch_returns props k _ Hys) as [r2 E2].
  pose proof (blocked_fails props k x He Hb) as Hp.
  change (xs ++ x :: ys) with (xs ++ [x] ++ ys).
  rewrite !switch_app, E1, E2, switch_single, Hp. cbn [combine items hidden].
  eexists _, r1, r2. repeat split. cbn [hidden app].
  rewrite !reportedCount_add. fold (filterTally props k x).
  assert (Hone : reportedCount (filterTally props k x) = 1).
  { destruct (fails_tally props k x Hp) as [->|[->|[->|[->| ->]]]]; reflexivity. }
  cbn [ElemOf] in *. lia.
Qed.

Lemma blocked_never_shown_witness :
  exists r r1 r2,
    filterPreferences (viewerProps moderator9 3 hidingPreferences) (key tags)
      (Some ([tagRatedPg] ++ unratedTag :: [])) = Ok r
    /\ filterPreferences (viewerProps moderator9 3 hidingPreferences) (key tags)
         (Some [tagRatedPg]) = Ok r1
    /\ filterPreferences (viewerProps moderator9 3 hidingPreferences) (key tags)
         (Some []) = Ok r2
    /\ items r = items r1 ++ items r2
    /\ reportedCount (hidden r) = reportedCount (hidden r1) + 1 + reportedCount (hidden r2).
Proof.
  apply (blocked_never_shown (viewerProps moderator9 3 hidingPreferences) tags
           [tagRatedPg] unratedTag []);
    [reflexivity | repeat constructor | constructor | reflexivity | reflexivity].
Defined.

(** ** The images of the returned parents *)

Ltac showable :=
  first [ left; solve [auto]
        | right; repeat split;
          first [reflexivity | assumption | apply negb_true_iff; assumption] ].

Section ChildImages.
Context {U : SharedUtils}.
Variable props : FilterPreferencesProps.

Lemma modelImages_visible x :
  Forall (fun i => modelImageVisible props x i = true) (modelImages props x).
Proof.
  unfold modelImages.
  assert (Hf : Forall (fun i => modelImageVisible props x i = true)
                 match BaseModel.images x with
                 | Some imgs => List.filter (modelImageVisible props x) imgs
                 | None => []
                 end).
  { destruct (BaseModel.images x); [apply filter_holds|constructor]. }
  destruct (BaseModel.nsfw x); [|exact Hf].
  rewrite sortBy_intersectingFirst. unfold intersectingFirst.
  apply Forall_app. split; now apply filter_keeps.
Qed.

(** The images that the map callback leaves to a parent may all be shown. *)
Lemma mapped_showable k x o :
  mapped props k x = Ok (Some o) -> childImagesShowable props k o.
Proof.
  unfold mapped.
  destruct k; cbn [mapCallback childImagesShowable]; try (intros; exact I).
  - unfold modelsMap. cbn zeta. destruct (negb _ || _); intros E; [|discriminate E].
    injection E as <-.
    cbn [BaseModel.withImages BaseModel.images BaseModel.nsfw orEmpty].
    eapply List.Forall_impl; [|apply modelImages_visible].
    intros i. unfold modelImageVisible, imageShowable.
    callback_cases; try discriminate; intros _;
      rewrite ?negb_false_iff in *; showable.
  - unfold collectionsMap. cbn zeta. destruct (negb _ || _); intros E; [|discriminate E].
    injection E as <-. cbn [BaseCollection.withImages BaseCollection.images orEmpty].
    eapply List.Forall_impl; [|apply filter_holds].
    intros i. unfold ownedImageVisible, imageShowable.
    callback_cases; try discriminate; intros _;
      rewrite ?negb_false_iff in *; showable.
  - unfold bountiesMap. destruct (BaseBounty.images x) as [imgs|]; [|discriminate].
    cbn [option_map]. cbn zeta. destruct (negb _); intros E; [|discriminate E].
    injection E as <-. cbn [BaseBounty.withImages BaseBounty.images orEmpty].
    eapply List.Forall_impl; [|apply filter_holds].
    intros i. unfold ownedImageVisible, imageShowable.
    callback_cases; try discriminate; intros _;
      rewrite ?negb_false_iff in *; showable.
  - unfold postsMap. destruct (BasePost.images x) as [imgs|] eqn:Hi.
    + cbn zeta. destruct (negb _ || _); intros E; [|discriminate E].
      injection E as <-. cbn [BasePost.withImages BasePost.images orEmpty].
      eapply List.Forall_impl; [|apply filter_holds].
      intros i. unfold postImageVisible, imageShowable.
      callback_cases; try discriminate; intros _;
      rewrite ?negb_false_iff in *; showable.
    + intros [= <-]. rewrite Hi. constructor.
Qed.

(** The parent that the map callback returns has an image, unless
    [showImageless] lets it through. *)
Lemma mapped_hasImages k x o :
  mapped props k x = Ok (Some o) ->
  showImageless props = false \/ isBounties k = true ->
  hasImages k o = true.
Proof.
  unfold mapped.
  destruct k; cbn [mapCallback hasImages isBounties]; try reflexivity;
    unfold modelsMap, collectionsMap, bountiesMap, postsMap; cbn zeta.
  - intros E [Hs|Hs]; [|discriminate Hs]. rewrite Hs, orb_false_r in E.
    destruct (negb _) eqn:Hn; [|discriminate E]. injection E as <-. exact Hn.
  - intros E [Hs|Hs]; [|discriminate Hs]. rewrite Hs, orb_false_r in E.
    destruct (negb _) eqn:Hn; [|discriminate E]. injection E as <-. exact Hn.
  - destruct (BaseBounty.images x) as [imgs|]; [|discriminate]. cbn [option_map].
    intros E _. destruct (negb _) eqn:Hn; [|discriminate E]. injection E as <-. exact Hn.
  - destruct (BasePost.images x) as [imgs|] eqn:Hi.
    + intros E [Hs|Hs]; [|discriminate Hs]. rewrite Hs, orb_false_r in E.
      destruct (negb _) eqn:Hn; [|discriminate E]. injection E as <-. exact Hn.
    + intros [= <-] _. now rewrite Hi.
Qed.

Lemma survivors_mapped k xs (Q : ItemOf k -> Prop) :
  (forall x o, mapped props k x = Ok (Some o) -> Q o) ->
  Forall Q (flat_map (contribution props k) xs).
Proof.
  intros HQ. apply List.Forall_forall. intros o [x [_ Ho]]%in_flat_map.
  revert Ho. unfold contribution. destruct (passes props k x); [|intros []].
  destruct (mapped props k x) as [[o'|]|e] eqn:Hm; [|intros []|intros []].
  intros [<-|[]]. eapply HQ, Hm.
Qed.
End ChildImages.

(** X4.  In a call that is not short-circuited, every image of every returned
    model, collection, bounty or post is the viewer's own (or the viewer is a
    moderator) and unrated, or else its level passes the test of its branch,
    its id is not hidden and none of its tags is hidden. *)
Theorem nested_images_showable `{SharedUtils} (props : FilterPreferencesProps)
    (k : DataKey) (xs : list (ItemOf k)) :
  reachesSwitch props = true ->
  Forall (fun x => imagesPresent k x = true) xs ->
  exists r,
    filterPreferences props (key k) (Some xs) = Ok r
    /\ Forall (childImagesShowable props k) (items r).
Proof.
  intros Hr Hall. rewrite (filterPreferences_switch props k _ Hr).
  destruct (switch_returns props k _ Hall) as [r E]. exists r. split; [assumption|].
  cbn [ElemOf]. rewrite (switch_items props k _ r E).
  apply survivors_mapped, mapped_showable.
Qed.

Lemma nested_images_showable_witness :
  exists r,
    filterPreferences (viewerProps viewer7 5 hidingPreferences) (key models)
      (Some [nsfwModel; modelWithRestrictedImage]) = Ok r
    /\ Forall (childImagesShowable (viewerProps viewer7 5 hidingPreferences) models)
         (items r).
Proof.
  apply (nested_images_showable (viewerProps viewer7 5 hidingPreferences) models
           [nsfwModel; modelWithRestrictedImage]);
    [reflexivity | repeat constructor].
Defined.

(** X5.  In a call that is not short-circuited, every returned bounty has at
    least one image, whatever [showImageless] is; and when [showImageless] is
    false, so has every returned model and collection, and every returned
    post that has an [images] array. *)
Theorem parents_have_images `{SharedUtils} (props : FilterPreferencesProps)
    (k : DataKey) (xs : list (ItemOf k)) :
  reachesSwitch props = true ->
  Forall (fun x => imagesPresent k x = true) xs ->
  showImageless props = false \/ isBounties k = true ->
  exists r,
    filterPreferences props (key k) (Some xs) = Ok r
    /\ Forall (fun o => hasImages k o = true) (items r).
Proof.
  intros Hr Hall Hs. rewrite (filterPreferences_switch props k _ Hr).
  destruct (switch_returns props k _ Hall) as [r E]. exists r. split; [assumption|].
  cbn [ElemOf]. rewrite (switch_items props k _ r E).
  apply survivors_mapped. intros x o Hm. now apply (mapped_hasImages props k x o).
Qed.

Lemma parents_have_images_witness :
  exists r,
    filterPreferences (plainProps 5) (key models)
      (Some [nsfwModel; modelWithRestrictedImage]) = Ok r
    /\ Forall (fun o => hasImages models o = true) (items r).
Proof.
  apply (parents_have_images (plainProps 5) models [nsfwModel; modelWithRestrictedImage]);
    [reflexivity | repeat constructor | now left].
Defined.

(** ** The branches of users and tags *)

Section UsersAndTags.
Context {U : SharedUtils}.
Variable props : FilterPreferencesProps.

Lemma countIf_cons {A : Type} (p : A -> bool) (x : A) (xs : list A) :
  countIf p (x :: xs) = (if p x then 1 else 0) + countIf p xs.
Proof. unfold countIf. cbn [List.filter]. destruct (p x); cbn [length]; lia. Qed.

Lemma switch_users xs :
  switch props users xs =
  Ok {| items := List.filter (userShown props) xs;
        hidden := Hidden.mk 0 0 0 0 0 (countIf (fun u => negb (userShown props u)) xs) 0 |}.
Proof.
  induction xs as [|x xs IH]; [reflexivity|].
  rewrite switch_cons, IH, switch_single. unfold passes. cbn [filterCallback mapCallback].
  rewrite countIf_cons. cbn [List.filter]. unfold usersFilter, userShown.
  destruct (strictEq _ _); cbn [fst snd orb negb combine items hidden app defined];
    [do 2 f_equal; unfold Hidden.add; cbn; f_equal; lia|].
  destruct (get _ _); cbn [fst snd orb negb combine items hidden app defined];
    do 2 f_equal; unfold Hidden.add; cbn; f_equal; lia.
Qed.

Lemma switch_tags xs :
  switch props tags xs =
  Ok {| items :=
          List.filter
            (fun t => negb (get (hiddenTags (hiddenPreferences props)) (BaseTag.id t))
                      && negb (tagRestricted props t)) xs;
        hidden :=
          Hidden.mk 0
            (countIf
               (fun t => negb (get (hiddenTags (hiddenPreferences props)) (BaseTag.id t))
                         && tagRestricted props t) xs)
            0 0
            (countIf (fun t => get (hiddenTags (hiddenPreferences props)) (BaseTag.id t)) xs)
            0 0 |}.
Proof.
  induction xs as [|x xs IH]; [reflexivity|].
  rewrite switch_cons, IH, switch_single. unfold passes. cbn [filterCallback mapCallback].
  rewrite !countIf_cons. cbn [List.filter]. unfold tagsFilter.
  fold (tagRestricted props x).
  destruct (get _ _); cbn [fst snd andb negb combine items hidden app defined];
    [do 2 f_equal; unfold Hidden.add; cbn; f_equal; lia|].
  destruct (tagRestricted props x);
    cbn [fst snd andb negb combine items hidden app defined];
    do 2 f_equal; unfold Hidden.add; cbn; f_equal; lia.
Qed.
End UsersAndTags.

(** X6.  For users, a call that is not short-circuited keeps the viewer and
    every user who is not in the hidden users, in their order, whatever the
    browsing level and the other hidden sets are, also for a moderator; and
    [hidden.users], the only counter it touches, is the number of users it
    removes. *)
Theorem users_kept_unless_hidden `{SharedUtils} (props : FilterPreferencesProps)
    (xs : list BaseUser.t) :
  reachesSwitch props = true ->
  filterPreferences props (key users) (Some xs) =
  Ok {| items := List.filter (userShown props) xs;
        hidden := Hidden.mk 0 0 0 0 0 (countIf (fun u => negb (userShown props u)) xs) 0 |}.
Proof.
  intros Hr. rewrite (filterPreferences_switch props users xs Hr). apply switch_users.
Qed.

(** X7.  For tags, a call that is not short-circuited removes the hidden tags,
    counted under [hidden.tags], then the tags with a level above PG13 that
    are not among the moderated tags whose level intersects the browsing
    level, counted under [hidden.browsingLevel]; it keeps the others in their
    order and touches no other counter. *)
Theorem tags_hidden_or_restricted `{SharedUtils} (props : FilterPreferencesProps)
    (xs : list BaseTag.t) :
  reachesSwitch props = true ->
  filterPreferences props (key tags) (Some xs) =
  Ok {| items :=
          List.filter
            (fun t => negb (get (hiddenTags (hiddenPreferences props)) (BaseTag.id t))
                      && negb (tagRestricted props t)) xs;
        hidden :=
          Hidden.mk 0
            (countIf
               (fun t => negb (get (hiddenTags (hiddenPreferences props)) (BaseTag.id t))
                         && tagRestricted props t) xs)
            0 0
            (countIf (fun t => get (hiddenTags (hiddenPreferences props)) (BaseTag.id t)) xs)
            0 0 |}.
Proof.
  intros Hr. rewrite (filterPreferences_switch props tags xs Hr). apply switch_tags.
Qed.

(** ** Options that a branch does not read *)

(** X8.  [showHidden] is read by the branches of models and images only,
    [allowLowerLevels] by the branch of images only, and [showImageless] by
    the branches of models, collections and posts only: for every other
    content type the result of the call does not depend on the option. *)
Theorem options_read_by_their_branches `{SharedUtils} (props : FilterPreferencesProps)
    (k : DataKey) (data : option (list (ItemOf k))) (b : bool) :
  (k <> models -> k <> images ->
   filterPreferences (setShowHidden b props) (key k) data
   = filterPreferences props (key k) data)
  /\ (k <> images ->
      filterPreferences (setAllowLowerLevels b props) (key k) data
      = filterPreferences props (key k) data)
  /\ (k <> models -> k <> collections -> k <> posts ->
      filterPreferences (setShowImageless b props) (key k) data
      = filterPreferences props (key k) data).
Proof.
  repeat split; destruct k; intros; try congruence; reflexivity.
Qed.

Lemma users_kept_unless_hidden_witness :
  filterPreferences (viewerProps viewer7 1 hidingPreferences) (key users)
    (Some [BaseUser.mk 7; BaseUser.mk 8])
  = Ok {| items :=
            List.filter (userShown (viewerProps viewer7 1 hidingPreferences))
              [BaseUser.mk 7; BaseUser.mk 8];
          hidden :=
            Hidden.mk 0 0 0 0 0
              (countIf
                 (fun u => negb (userShown (viewerProps viewer7 1 hidingPreferences) u))
                 [BaseUser.mk 7; BaseUser.mk 8]) 0 |}.
Proof.
  apply (users_kept_unless_hidden (viewerProps viewer7 1 hidingPreferences)
           [BaseUser.mk 7; BaseUser.mk 8]).
  reflexivity.
Defined.

Lemma tags_hidden_or_restricted_witness :
  exists r,
    filterPreferences (viewerProps moderator9 3 hidingPreferences) (key tags)
      (Some [tagRatedPg; BaseTag.mk 8 (Some 4); BaseTag.mk 9 None]) = Ok r
    /\ items r = [BaseTag.mk 9 None]
    /\ Hidden.tags (hidden r) = 1 /\ Hidden.browsingLevel (hidden r) = 1.
Proof.
  eexists. split.
  - apply (tags_hidden_or_restricted (viewerProps moderator9 3 hidingPreferences)
             [tagRatedPg; BaseTag.mk 8 (Some 4); BaseTag.mk 9 None]).
    reflexivity.
  - repeat split.
Defined.

Lemma options_read_by_their_branches_witness :
  filterPreferences (setShowHidden true (viewerProps moderator9 3 hidingPreferences))
    (key tags) (Some [tagRatedPg])
  = filterPreferences (viewerProps moderator9 3 hidingPreferences) (key tags)
      (Some [tagRatedPg])
  /\ filterPreferences (setAllowLowerLevels true (plainProps 1)) (key models)
       (Some [modelRatedPgAndX])
     = filterPreferences (plainProps 1) (key models) (Some [modelRatedPgAndX])
  /\ filterPreferences (setShowImageless true (plainProps 1)) (key bounties)
       (Some [BaseBounty.withImages bountyWithoutImages []])
     = filterPreferences (plainProps 1) (key bounties)
         (Some [BaseBounty.withImages bountyWithoutImages []]).
Proof.
  split; [|split].
  - apply (proj1 (options_read_by_their_branches
                    (viewerProps moderator9 3 hidingPreferences) tags
                    (Some [tagRatedPg]) true)); discriminate.
  - apply (proj1 (proj2 (options_read_by_their_branches (plainProps 1) models
                           (Some [modelRatedPgAndX]) true))); discriminate.
  - apply (proj2 (proj2 (options_read_by_their_branches (plainProps 1) bounties
                           (Some [BaseBounty.withImages bountyWithoutImages []]) true)));
      discriminate.
Defined.

(** * Further properties of the hook *)

Lemma get_insert (m : gmap Z bool) (i k : Z) :
  get (<[i := true]> m) k = (k =? i) || get m k.
Proof.
  unfold get. destruct (Z.eqb_spec k i) as [->|Hne].
  - now rewrite lookup_insert_eq.
  - rewrite lookup_insert_ne; [reflexivity|congruence].
Qed.

Lemma get_withHidden (m : gmap Z bool) (ids : list Z) (k : Z) :
  get (withHidden m ids) k = includes ids k || get m k.
Proof.
  unfold withHidden, includes.
  destruct ids as [|i ids]; [reflexivity|]. cbn [length Nat.ltb Nat.leb].
  revert m. generalize (i :: ids) as l. clear i ids.
  induction l as [|i l IH]; intros m; cbn [fold_left existsb]; [reflexivity|].
  rewrite IH, get_insert. destruct (k =? i), (existsb (Z.eqb k) l); reflexivity.
Qed.

Lemma includes_In (xs : list Z) (k : Z) : includes xs k = true <-> In k xs.
Proof.
  unfold includes. rewrite existsb_exists. split.
  - intros [y [Hy ->%Z.eqb_eq]]. exact Hy.
  - intros Hk. exists k. split; [assumption|apply Z.eqb_refl].
Qed.

Section HookProperties.
Context {U : SharedUtils}.



End HookProperties.



(** X9.  The preferences that the hook hands to the filter hide an image, a
    user or a tag exactly when its id is among the ids passed to the hook or
    hidden in the context: the merge adds the passed ids and removes nothing,
    and it leaves the hidden models, the moderated tags and the loading flag
    as they are. *)
Theorem merged_preferences_hide_passed_ids (type : TypeArg) (args : Hook.Args type)
    (ctx : HiddenPreferencesState) (k : Z) :
  (get (hiddenImages (mergedPreferences args ctx)) k = true
   <-> In k (Hook.hiddenImages args) \/ get (hiddenImages ctx) k = true)
  /\ (get (hiddenUsers (mergedPreferences args ctx)) k = true
      <-> In k (Hook.hiddenUsers args) \/ get (hiddenUsers ctx) k = true)
  /\ (get (hiddenTags (mergedPreferences args ctx)) k = true
      <-> In k (Hook.hiddenTags args) \/ get (hiddenTags ctx) k = true)
  /\ hiddenModels (mergedPreferences args ctx) = hiddenModels ctx
  /\ moderatedTags (mergedPreferences args ctx) = moderatedTags ctx
  /\ hiddenLoading (mergedPreferences args ctx) = hiddenLoading ctx.
Proof.
  cbn [mergedPreferences hiddenImages hiddenUsers hiddenTags hiddenModels moderatedTags
       hiddenLoading].
  rewrite !get_withHidden, !orb_true_iff, !includes_In. tauto.
Qed.

(** X11.  When [data] is absent, [disabled] is set or the preferences are
    loading, the hook does not throw, whatever [type] is: it reports no hidden
    item and returns no item (the previous items while refetching). *)
Theorem hook_short_circuit `{SharedUtils} (type : TypeArg) (args : Hook.Args type)
    (env : Hook.Env type) :
  Hook.data args = None \/ Hook.disabled args = true
  \/ hiddenLoading (Hook.context env) = true ->
  useApplyHiddenPreferences type args env
  = Ok {| Hook.loadingPreferences := hiddenLoading (Hook.context env);
          Hook.items := if Hook.isRefetching args then Hook.previous env else [];
          Hook.hiddenCount := 0 |}.
Proof.
  intros Hc. unfold useApplyHiddenPreferences, filterPreferences.
  destruct (Hook.data args) as [xs|]; [|reflexivity].
  cbn [hookProps disabled hiddenPreferences mergedPreferences hiddenLoading].
  destruct Hc as [Hc|[-> | ->]]; [discriminate|reflexivity|].
  now rewrite orb_true_r.
Qed.

Lemma hook_short_circuit_witness :
  useApplyHiddenPreferences (key models) absentArgs (plainEnv 1)
  = Ok {| Hook.loadingPreferences := false; Hook.items := []; Hook.hiddenCount := 0 |}.
Proof.
  apply (hook_short_circuit (key models) absentArgs (plainEnv 1)). now left.
Defined.



(** * Properties of the bounty controller *)

Lemma pop_spec {A : Type} (xs : list A) :
  (xs = [] /\ pop xs = ([], None))
  \/ exists front x, xs = front ++ [x] /\ pop xs = (front, Some x).
Proof.
  induction xs as [|x front _] using rev_ind; [now left|].
  right. exists front, x. split; [reflexivity|]. unfold pop.
  rewrite removelast_last, List.map_app. cbn [List.map]. now rewrite last_last.
Qed.

Lemma defined_length {A : Type} (xs : list (option A)) :
  (length (defined xs) <= length xs)%nat.
Proof. induction xs as [|[x|] xs IH]; cbn [defined length]; lia. Qed.

Section BountiesPage.
Context {F A Img E : Type}.
Variable getAllBounties : BountyInput.t F -> Outcome E (list (BountyRow.t A)).
Variable getImagesForBounties : ImagesQuery.t -> Outcome E (gmap Z (list Img)).
Variable throwDbError : E -> E.

Lemma withBountyImages_some imgs (row : BountyRow.t A) (item : BountyItem.t A Img) :
  withBountyImages imgs row = Some item ->
  BountyItem.id item = BountyRow.id row
  /\ BountyItem.rest item = BountyRow.rest row
  /\ BountyItem.images item <> []
  /\ imgs !! BountyItem.id item = Some (BountyItem.images item)
  /\ List.map TagInfo.id (BountyItem.tags item)
     = List.map (fun link => TagInfo.id (TagLink.tag link)) (BountyRow.tags row).
Proof.
  unfold withBountyImages. destruct (imgs !! BountyRow.id row) as [[|i l]|] eqn:Hl;
    try discriminate.
  intros [= <-]. cbn. rewrite List.map_map. repeat split; [discriminate|assumption].
Qed.

Lemma page_items (imgs : gmap Z (list Img)) (rows : list (BountyRow.t A)) :
  Forall (fun item : BountyItem.t A Img => BountyItem.images item <> []
                      /\ imgs !! BountyItem.id item = Some (BountyItem.images item))
    (defined (List.map (withBountyImages imgs) rows))
  /\ sublist (List.map BountyItem.id (defined (List.map (withBountyImages imgs) rows)))
       (List.map BountyRow.id rows).
Proof.
  induction rows as [|row rows [IH1 IH2]]; cbn [List.map defined];
    [split; constructor|].
  destruct (withBountyImages imgs row) as [item|] eqn:Hw; cbn [List.map].
  - destruct (withBountyImages_some imgs row item Hw) as (Hid & _ & Hne & Hl & _).
    split; [constructor; auto|]. rewrite Hid. now constructor.
  - split; [assumption|now constructor].
Qed.
(** The page lists the rows with at least one image, in their order, each
    with the images found under its id and with the tags of its links. *)
Lemma page_rows (imgs : gmap Z (list Img)) (rows : list (BountyRow.t A)) :
  Forall2
    (fun (row : BountyRow.t A) (item : BountyItem.t A Img) =>
       BountyItem.id item = BountyRow.id row
       /\ BountyItem.rest item = BountyRow.rest row
       /\ imgs !! BountyRow.id row = Some (BountyItem.images item)
       /\ BountyItem.images item <> []
       /\ BountyItem.tags item = List.map TagLink.tag (BountyRow.tags row))
    (List.filter
       (fun row => match imgs !! BountyRow.id row with
                   | Some (_ :: _) => true
                   | _ => false
                   end) rows)
    (defined (List.map (withBountyImages imgs) rows)).
Proof.
  induction rows as [|row rows IH]; cbn [List.map defined List.filter]; [constructor|].
  unfold withBountyImages at 1.
  destruct (imgs !! BountyRow.id row) as [[|i l]|] eqn:Hl; try assumption.
  constructor; [|assumption].
  cbn [BountyItem.id BountyItem.rest BountyItem.images BountyItem.tags].
  split; [reflexivity|]. split; [reflexivity|]. split; [assumption|].
  split; [discriminate|].
  apply List.map_ext. now intros [[id name]].
Qed.

Lemma front_sublist (limit : Z) (rows : list (BountyRow.t A)) :
  sublist (if limit <? Z.of_nat (length rows) then removelast rows else rows) rows.
Proof.
  destruct (limit <? Z.of_nat (length rows)); [|reflexivity].
  destruct (pop_spec rows) as [[-> _]|[front [lastRow [-> _]]]]; [constructor|].
  rewrite removelast_last. now apply sublist_inserts_r.
Qed.
End BountiesPage.

(** X13.  When [getAllBounties] returns at most the [limit + 1] rows it is
    asked for and [getImagesForBounties] returns, the handler returns a page
    of at most [limit] bounties, made from the rows [front] with the images
    looked up for them; when no more than [limit] rows came back, [front] is
    all the rows and there is no [nextCursor]; when more came back,
    [nextCursor] is the id of the last row, and this row is neither looked up
    for images nor put on the page. *)
Theorem bounties_page_and_cursor {F A Img E : Type}
    (getAllBounties : BountyInput.t F -> Outcome E (list (BountyRow.t A)))
    (getImagesForBounties : ImagesQuery.t -> Outcome E (gmap Z (list Img)))
    (throwDbError : E -> E) (input : BountyInput.t F) (user : option SessionUser.t)
    (rows : list (BountyRow.t A)) :
  0 <= BountyInput.limit input ->
  getAllBounties
    (BountyInput.mk (BountyInput.limit input + 1)
       (nullish (BountyInput.userId input) (option_map SessionUser.id user))
       (BountyInput.filters input)) = Returns rows ->
  Z.of_nat (length rows) <= BountyInput.limit input + 1 ->
  (forall q, exists imgs, getImagesForBounties q = Returns imgs) ->
  exists page front imgs,
    getInfiniteBountiesHandler getAllBounties getImagesForBounties throwDbError input user
    = Returns page
    /\ getImagesForBounties
         (ImagesQuery.mk (List.map BountyRow.id front) (option_map SessionUser.id user)
            (option_map SessionUser.isModerator user)) = Returns imgs
    /\ BountyPage.items page = defined (List.map (withBountyImages imgs) front)
    /\ Z.of_nat (length (BountyPage.items page)) <= BountyInput.limit input
    /\ (Z.of_nat (length rows) <= BountyInput.limit input ->
        front = rows /\ BountyPage.nextCursor page = None)
    /\ (BountyInput.limit input < Z.of_nat (length rows) ->
        exists lastRow,
          rows = front ++ [lastRow]
          /\ BountyPage.nextCursor page = Some (BountyRow.id lastRow)).
Proof.
  intros Hl Hrows Hlen Himgs. unfold getInfiniteBountiesHandler. rewrite Hrows.
  destruct (Z.ltb_spec (BountyInput.limit input) (Z.of_nat (length rows))) as [Hgt|Hle].
  - destruct (pop_spec rows) as [[-> _]|[front [lastRow [-> Hpop]]]];
      [cbn [length] in Hgt; lia|].
    rewrite Hpop. cbn [option_map].
    destruct (Himgs (ImagesQuery.mk (List.map BountyRow.id front)
                       (option_map SessionUser.id user)
                       (option_map SessionUser.isModerator user))) as [imgs Hi].
    rewrite Hi. exists (BountyPage.mk (Some (BountyRow.id lastRow))
                          (defined (List.map (withBountyImages imgs) front))), front, imgs.
    cbn [BountyPage.items BountyPage.nextCursor].
    rewrite length_app in Hlen, Hgt. cbn [length] in Hlen, Hgt.
    split; [reflexivity|]. split; [assumption|]. split; [reflexivity|].
    split; [|split].
    + pose proof (defined_length (List.map (withBountyImages imgs) front)) as Hd.
      rewrite length_map in Hd. lia.
    + rewrite length_app. cbn [length]. intros Hle. lia.
    + intros _. now exists lastRow.
  - destruct (Himgs (ImagesQuery.mk (List.map BountyRow.id rows)
                       (option_map SessionUser.id user)
                       (option_map SessionUser.isModerator user))) as [imgs Hi].
    rewrite Hi. exists (BountyPage.mk None (defined (List.map (withBountyImages imgs) rows))),
      rows, imgs.
    cbn [BountyPage.items BountyPage.nextCursor].
    split; [reflexivity|]. split; [assumption|]. split; [reflexivity|].
    split; [|split].
    + pose proof (defined_length (List.map (withBountyImages imgs) rows)) as Hd.
      rewrite length_map in Hd. lia.
    + intros _. now split.
    + intros Hgt. lia.
Qed.

(** X14.  When the two services return, the handler returns a page.  Its
    bounties are made from the rows [front] that are looked up for images
    (all the rows, or all but the last when more than [limit] came back) and
    from the images [imgs] that [getImagesForBounties] returns for the ids of
    these rows: the page lists, in their order, the rows of [front] that have
    at least one image under their id in [imgs], each with its id, its other
    fields, exactly the images found under its id and the tags of its tag
    links; a row without images is left out. *)
Theorem bounties_page_has_images {F A Img E : Type}
    (getAllBounties : BountyInput.t F -> Outcome E (list (BountyRow.t A)))
    (getImagesForBounties : ImagesQuery.t -> Outcome E (gmap Z (list Img)))
    (throwDbError : E -> E) (input : BountyInput.t F) (user : option SessionUser.t)
    (rows : list (BountyRow.t A)) :
  getAllBounties
    (BountyInput.mk (BountyInput.limit input + 1)
       (nullish (BountyInput.userId input) (option_map SessionUser.id user))
       (BountyInput.filters input)) = Returns rows ->
  (forall q, exists imgs, getImagesForBounties q = Returns imgs) ->
  exists (page : BountyPage.t A Img) (front : list (BountyRow.t A))
         (imgs : gmap Z (list Img)),
    getInfiniteBountiesHandler getAllBounties getImagesForBounties throwDbError input user
    = Returns page
    /\ (Z.of_nat (length rows) <= BountyInput.limit input -> front = rows)
    /\ (BountyInput.limit input < Z.of_nat (length rows) -> front = removelast rows)
    /\ getImagesForBounties
         (ImagesQuery.mk (List.map BountyRow.id front) (option_map SessionUser.id user)
            (option_map SessionUser.isModerator user)) = Returns imgs
    /\ Forall2
         (fun (row : BountyRow.t A) (item : BountyItem.t A Img) =>
            BountyItem.id item = BountyRow.id row
            /\ BountyItem.rest item = BountyRow.rest row
            /\ imgs !! BountyRow.id row = Some (BountyItem.images item)
            /\ BountyItem.images item <> []
            /\ BountyItem.tags item = List.map TagLink.tag (BountyRow.tags row))
         (List.filter
            (fun row => match imgs !! BountyRow.id row with
                        | Some (_ :: _) => true
                        | _ => false
                        end) front)
         (BountyPage.items page)
    /\ Forall (fun item : BountyItem.t A Img =>
                 BountyItem.images item <> []
                 /\ imgs !! BountyItem.id item = Some (BountyItem.images item))
         (BountyPage.items page)
    /\ sublist (List.map BountyItem.id (BountyPage.items page))
         (List.map BountyRow.id rows).
Proof.
  intros Hrows Himgs.
  set (front := if BountyInput.limit input <? Z.of_nat (length rows)
                then removelast rows else rows).
  destruct (Himgs (ImagesQuery.mk (List.map BountyRow.id front)
                     (option_map SessionUser.id user)
                     (option_map SessionUser.isModerator user))) as [imgs Hi].
  exists (BountyPage.mk
            (if BountyInput.limit input <? Z.of_nat (length rows)
             then option_map BountyRow.id (List.last (List.map Some rows) None)
             else None)
            (defined (List.map (withBountyImages imgs) front))), front, imgs.
  cbn [BountyPage.items].
  split; [|split; [|split; [|split; [|split; [|split]]]]].
  - unfold getInfiniteBountiesHandler. rewrite Hrows. unfold pop. subst front.
    destruct (BountyInput.limit input <? Z.of_nat (length rows)); now rewrite Hi.
  - intros Hle. subst front.
    destruct (Z.ltb_spec (BountyInput.limit input) (Z.of_nat (length rows)));
      [lia|reflexivity].
  - intros Hgt. subst front.
    destruct (Z.ltb_spec (BountyInput.limit input) (Z.of_nat (length rows)));
      [reflexivity|lia].
  - exact Hi.
  - apply page_rows.
  - destruct (page_items imgs front) as [H1 _]. exact H1.
  - destruct (page_items imgs front) as [_ H2].
    etransitivity; [exact H2|]. apply (fmap_sublist BountyRow.id). apply front_sublist.
Qed.

Section BountyEntries.
Context {X : Type}.

Lemma fold_max_spec (files : list (EntityFile.t X)) (a : Z) :
  let top := fold_left (fun acc curr => Z.max acc (unlockAmountOf curr)) files a in
  a <= top
  /\ (forall f, In f files -> unlockAmountOf f <= top)
  /\ (top = a \/ exists f, In f files /\ unlockAmountOf f = top).
Proof.
  revert a. induction files as [|f files IH]; intros a; cbn [fold_left].
  - repeat split; [lia|intros f []|now left].
  - destruct (IH (Z.max a (unlockAmountOf f))) as (H1 & H2 & H3). cbn zeta in *.
    repeat split.
    + lia.
    + intros g [<-|Hg]; [lia|now apply H2].
    + destruct H3 as [H3|[g [Hg H3]]].
      * destruct (Z.max_spec a (unlockAmountOf f)) as [[_ Hm]|[_ Hm]].
        -- right. exists f. split; [now left|congruence].
        -- left. congruence.
      * right. exists g. split; [now right|assumption].
Qed.

(** The highest unlock amount is not negative, no file asks for more, and it
    is [0] or the amount of one of the files. *)
Lemma highestUnlockAmount_spec (files : list (EntityFile.t X)) :
  0 <= highestUnlockAmount files
  /\ (forall f, In f files -> unlockAmountOf f <= highestUnlockAmount files)
  /\ (highestUnlockAmount files = 0
      \/ exists f, In f files /\ unlockAmountOf f = highestUnlockAmount files).
Proof. exact (fold_max_spec files 0). Qed.
End BountyEntries.

Section EntriesHandler.
Context {A I X E : Type}.
Variable getAllEntriesByBountyId : Z -> option Z -> Outcome E (list (EntryRow.t A)).
Variable getImagesByEntity : list Z -> Outcome E (list (EntityImage.t I)).
Variable getFilesByEntity : list Z -> Outcome E (list (EntityFile.t X)).
Variable getBountyEntryEarnedBuzz : list Z -> Outcome E (list Awarded.t).
Variable throwDbError : E -> E.
Variable isTRPCError : E -> bool.

(** The handler returns when the four services do. *)
Lemma entries_handler_returns (id : Z) (owned : bool) (user : option SessionUser.t)
    (entries : list (EntryRow.t A)) (imgs : list (EntityImage.t I))
    (files : list (EntityFile.t X)) (awardedTotal : list Awarded.t) :
  getAllEntriesByBountyId id (if owned then option_map SessionUser.id user else None)
  = Returns entries ->
  getImagesByEntity (List.map EntryRow.id entries) = Returns imgs ->
  getFilesByEntity (List.map EntryRow.id entries) = Returns files ->
  getBountyEntryEarnedBuzz (List.map EntryRow.id entries) = Returns awardedTotal ->
  getBountyEntriesHandler getAllEntriesByBountyId getImagesByEntity getFilesByEntity
    getBountyEntryEarnedBuzz throwDbError isTRPCError id owned user
  = Returns (List.map (entryItem imgs files awardedTotal) entries).
Proof.
  intros H1 H2 H3 H4. unfold getBountyEntriesHandler. now rewrite H1, H2, H3, H4.
Qed.
End EntriesHandler.

(** The amount awarded to an entry is the amount of the first element of
    [awardedTotal] with the id of the entry, and [0] when there is none. *)
Lemma awardedTo_spec (awardedTotal : list Awarded.t) (entryId : Z) :
  ((forall a, In a awardedTotal -> Awarded.id a <> entryId) ->
   awardedTo awardedTotal entryId = 0)
  /\ (forall before a after,
        awardedTotal = before ++ a :: after ->
        Forall (fun b => Awarded.id b <> entryId) before ->
        Awarded.id a = entryId ->
        awardedTo awardedTotal entryId = Awarded.awardedUnitAmount a).
Proof.
  unfold awardedTo. split.
  - intros Hno. destruct (List.find _ awardedTotal) as [a|] eqn:Hf; [|reflexivity].
    apply find_some in Hf. destruct Hf as [Hin He]. apply Z.eqb_eq in He.
    now destruct (Hno a Hin).
  - intros before a after -> Hb Ha.
    induction Hb as [|b before Hne _ IH]; cbn [app List.find].
    + apply Z.eqb_eq in Ha. now rewrite Ha.
    + apply Z.eqb_neq in Hne. now rewrite Hne.
Qed.

(** X15.  When the four services return, the handler returns one item for
    each entry, in order, with the id of the entry; the
    [awardedUnitAmountTotal] of an item is the amount of the first element
    with the id of the entry in what [getBountyEntryEarnedBuzz] returned, and
    [0] when there is none; the [fileUnlockAmount] of an item is never
    negative, added to this awarded amount it reaches the unlock amount of
    every file, it is the highest unlock amount less the awarded amount when
    this is positive, and, when the awarded amount is not negative, it is the
    least amount that reaches the unlock amount of every file. *)
Theorem entries_unlock_amount {A I X E : Type}
    (getAllEntriesByBountyId : Z -> option Z -> Outcome E (list (EntryRow.t A)))
    (getImagesByEntity : list Z -> Outcome E (list (EntityImage.t I)))
    (getFilesByEntity : list Z -> Outcome E (list (EntityFile.t X)))
    (getBountyEntryEarnedBuzz : list Z -> Outcome E (list Awarded.t))
    (throwDbError : E -> E) (isTRPCError : E -> bool)
    (id : Z) (owned : bool) (user : option SessionUser.t)
    (entries : list (EntryRow.t A)) (imgs : list (EntityImage.t I))
    (files : list (EntityFile.t X)) (awardedTotal : list Awarded.t) :
  getAllEntriesByBountyId id (if owned then option_map SessionUser.id user else None)
  = Returns entries ->
  getImagesByEntity (List.map EntryRow.id entries) = Returns imgs ->
  getFilesByEntity (List.map EntryRow.id entries) = Returns files ->
  getBountyEntryEarnedBuzz (List.map EntryRow.id entries) = Returns awardedTotal ->
  exists out : list (EntryItem.t A I),
    getBountyEntriesHandler getAllEntriesByBountyId getImagesByEntity getFilesByEntity
      getBountyEntryEarnedBuzz throwDbError isTRPCError id owned user = Returns out
    /\ List.map EntryItem.id out = List.map EntryRow.id entries
    /\ List.map EntryItem.rest out = List.map EntryRow.rest entries
    /\ Forall
         (fun item : EntryItem.t A I =>
            0 <= EntryItem.fileUnlockAmount item
            /\ (forall f, In f files ->
                  unlockAmountOf f
                  <= EntryItem.awardedUnitAmountTotal item + EntryItem.fileUnlockAmount item)
            /\ (0 <= EntryItem.awardedUnitAmountTotal item ->
                forall a, 0 <= a ->
                  (forall f, In f files ->
                     unlockAmountOf f <= EntryItem.awardedUnitAmountTotal item + a) ->
                  EntryItem.fileUnlockAmount item <= a)
            /\ ((forall a, In a awardedTotal -> Awarded.id a <> EntryItem.id item) ->
                EntryItem.awardedUnitAmountTotal item = 0)
            /\ (forall before a after,
                  awardedTotal = before ++ a :: after ->
                  Forall (fun b => Awarded.id b <> EntryItem.id item) before ->
                  Awarded.id a = EntryItem.id item ->
                  EntryItem.awardedUnitAmountTotal item = Awarded.awardedUnitAmount a)
            /\ (forall top,
                  0 <= top ->
                  (forall f, In f files -> unlockAmountOf f <= top) ->
                  (top = 0 \/ exists f, In f files /\ unlockAmountOf f = top) ->
                  EntryItem.fileUnlockAmount item
                  = Z.max 0 (top - EntryItem.awardedUnitAmountTotal item)))
         out.
Proof.
  intros H1 H2 H3 H4.
  rewrite (entries_handler_returns _ _ _ _ throwDbError isTRPCError _ _ _ _ _ _ _
             H1 H2 H3 H4).
  eexists. split; [reflexivity|]. split; [|split].
  - rewrite List.map_map. reflexivity.
  - rewrite List.map_map. reflexivity.
  - apply List.Forall_forall. intros item [entry [<- _]]%in_map_iff.
    cbn [entryItem EntryItem.fileUnlockAmount EntryItem.awardedUnitAmountTotal
         EntryItem.id].
    destruct (highestUnlockAmount_spec files) as (T1 & T2 & T3).
    destruct (awardedTo_spec awardedTotal (EntryRow.id entry)) as [A1 A2].
    split; [lia|]. split; [|split; [|split; [|split]]].
    + intros f Hf. specialize (T2 f Hf). lia.
    + intros Ha a Ha0 Hall. destruct T3 as [T3|[f [Hf T3]]]; [lia|].
      specialize (Hall f Hf). lia.
    + exact A1.
    + exact A2.
    + intros top Ht Hall Hex.
      assert (highestUnlockAmount files = top); [|congruence].
      apply Z.le_antisymm.
      * destruct T3 as [T3|[f [Hf T3]]]; [lia|]. rewrite <- T3. now apply Hall.
      * destruct Hex as [->|[f [Hf <-]]]; [assumption|now apply T2].
Qed.

(** X16.  When the four services return, every image of a returned item
    belongs to the entry of the item, every image that belongs to an entry is
    among the images of its item, and [fileCount] is, for every item, the
    number of files of all the entries together. *)
Theorem entries_images_and_files {A I X E : Type}
    (getAllEntriesByBountyId : Z -> option Z -> Outcome E (list (EntryRow.t A)))
    (getImagesByEntity : list Z -> Outcome E (list (EntityImage.t I)))
    (getFilesByEntity : list Z -> Outcome E (list (EntityFile.t X)))
    (getBountyEntryEarnedBuzz : list Z -> Outcome E (list Awarded.t))
    (throwDbError : E -> E) (isTRPCError : E -> bool)
    (id : Z) (owned : bool) (user : option SessionUser.t)
    (entries : list (EntryRow.t A)) (imgs : list (EntityImage.t I))
    (files : list (EntityFile.t X)) (awardedTotal : list Awarded.t) :
  getAllEntriesByBountyId id (if owned then option_map SessionUser.id user else None)
  = Returns entries ->
  getImagesByEntity (List.map EntryRow.id entries) = Returns imgs ->
  getFilesByEntity (List.map EntryRow.id entries) = Returns files ->
  getBountyEntryEarnedBuzz (List.map EntryRow.id entries) = Returns awardedTotal ->
  exists out : list (EntryItem.t A I),
    getBountyEntriesHandler getAllEntriesByBountyId getImagesByEntity getFilesByEntity
      getBountyEntryEarnedBuzz throwDbError isTRPCError id owned user = Returns out
    /\ Forall
         (fun item : EntryItem.t A I =>
            Forall (fun i => EntityImage.entityId i = EntryItem.id item)
              (EntryItem.images item)
            /\ (forall i, In i imgs -> EntityImage.entityId i = EntryItem.id item ->
                          In i (EntryItem.images item))
            /\ sublist (EntryItem.images item) imgs
            /\ EntryItem.fileCount item = Z.of_nat (length files))
         out.
Proof.
  intros H1 H2 H3 H4.
  rewrite (entries_handler_returns _ _ _ _ throwDbError isTRPCError _ _ _ _ _ _ _
             H1 H2 H3 H4).
  eexists. split; [reflexivity|].
  apply List.Forall_forall. intros item [entry [<- _]]%in_map_iff.
  cbn [entryItem EntryItem.images EntryItem.id EntryItem.fileCount]. repeat split.
  - apply List.Forall_forall. intros i [_ Hi]%filter_In. now apply Z.eqb_eq.
  - intros i Hi He. apply filter_In. split; [assumption|now apply Z.eqb_eq].
  - apply filter_sublist.
Qed.

Lemma bounties_page_and_cursor_witness :
  exists page front imgs,
    getInfiniteBountiesHandler sampleGetAllBounties sampleGetImagesForBounties
      (fun e => e) (BountyInput.mk 2 None tt) None = Returns page
    /\ sampleGetImagesForBounties
         (ImagesQuery.mk (List.map BountyRow.id front) None None) = Returns imgs
    /\ BountyPage.items page = defined (List.map (withBountyImages imgs) front)
    /\ Z.of_nat (length (BountyPage.items page)) <= 2
    /\ (Z.of_nat (length sampleRows) <= 2 ->
        front = sampleRows /\ BountyPage.nextCursor page = None)
    /\ (2 < Z.of_nat (length sampleRows) ->
        exists lastRow,
          sampleRows = front ++ [lastRow]
          /\ BountyPage.nextCursor page = Some (BountyRow.id lastRow)).
Proof.
  apply (bounties_page_and_cursor sampleGetAllBounties sampleGetImagesForBounties
           (fun e => e) (BountyInput.mk 2 None tt) None sampleRows).
  - cbn. lia.
  - reflexivity.
  - cbn. lia.
  - intros q. eexists. reflexivity.
Defined.

Lemma bounties_page_has_images_witness :
  exists (page : BountyPage.t unit unit) (front : list (BountyRow.t unit))
         (imgs : gmap Z (list unit)),
    getInfiniteBountiesHandler sampleGetAllBounties sampleGetImagesForBounties
      (fun e => e) (BountyInput.mk 5 None tt) None = Returns page
    /\ (Z.of_nat (length sampleRows) <= 5 -> front = sampleRows)
    /\ (5 < Z.of_nat (length sampleRows) -> front = removelast sampleRows)
    /\ sampleGetImagesForBounties
         (ImagesQuery.mk (List.map BountyRow.id front) None None) = Returns imgs
    /\ Forall2
         (fun (row : BountyRow.t unit) (item : BountyItem.t unit unit) =>
            BountyItem.id item = BountyRow.id row
            /\ BountyItem.rest item = BountyRow.rest row
            /\ imgs !! BountyRow.id row = Some (BountyItem.images item)
            /\ BountyItem.images item <> []
            /\ BountyItem.tags item = List.map TagLink.tag (BountyRow.tags row))
         (List.filter
            (fun row => match imgs !! BountyRow.id row with
                        | Some (_ :: _) => true
                        | _ => false
                        end) front)
         (BountyPage.items page)
    /\ Forall (fun item : BountyItem.t unit unit =>
                 BountyItem.images item <> []
                 /\ imgs !! BountyItem.id item = Some (BountyItem.images item))
         (BountyPage.items page)
    /\ sublist (List.map BountyItem.id (BountyPage.items page))
         (List.map BountyRow.id sampleRows).
Proof.
  apply (bounties_page_has_images sampleGetAllBounties sampleGetImagesForBounties
           (fun e => e) (BountyInput.mk 5 None tt) None sampleRows).
  - reflexivity.
  - intros q. eexists. reflexivity.
Defined.

Lemma entries_unlock_amount_witness :
  exists out : list (EntryItem.t unit unit),
    getBountyEntriesHandler (fun _ _ => Returns sampleEntries)
      (fun _ => Returns sampleEntryImages) (fun _ => Returns sampleFiles)
      (fun _ => @Returns unit _ sampleAwarded) (fun e => e) (fun _ => false)
      7 false None = Returns out
    /\ List.map EntryItem.id out = List.map EntryRow.id sampleEntries
    /\ List.map EntryItem.rest out = List.map EntryRow.rest sampleEntries
    /\ Forall
         (fun item : EntryItem.t unit unit =>
            0 <= EntryItem.fileUnlockAmount item
            /\ (forall f, In f sampleFiles ->
                  unlockAmountOf f
                  <= EntryItem.awardedUnitAmountTotal item + EntryItem.fileUnlockAmount item)
            /\ (0 <= EntryItem.awardedUnitAmountTotal item ->
                forall a, 0 <= a ->
                  (forall f, In f sampleFiles ->
                     unlockAmountOf f <= EntryItem.awardedUnitAmountTotal item + a) ->
                  EntryItem.fileUnlockAmount item <= a)
            /\ ((forall a, In a sampleAwarded -> Awarded.id a <> EntryItem.id item) ->
                EntryItem.awardedUnitAmountTotal item = 0)
            /\ (forall before a after,
                  sampleAwarded = before ++ a :: after ->
                  Forall (fun b => Awarded.id b <> EntryItem.id item) before ->
                  Awarded.id a = EntryItem.id item ->
                  EntryItem.awardedUnitAmountTotal item = Awarded.awardedUnitAmount a)
            /\ (forall top,
                  0 <= top ->
                  (forall f, In f sampleFiles -> unlockAmountOf f <= top) ->
                  (top = 0 \/ exists f, In f sampleFiles /\ unlockAmountOf f = top) ->
                  EntryItem.fileUnlockAmount item
                  = Z.max 0 (top - EntryItem.awardedUnitAmountTotal item)))
         out.
Proof.
  apply (entries_unlock_amount (fun _ _ => Returns sampleEntries)
           (fun _ => Returns sampleEntryImages) (fun _ => Returns sampleFiles)
           (fun _ => @Returns unit _ sampleAwarded) (fun e => e) (fun _ => false)
           7 false None sampleEntries sampleEntryImages sampleFiles sampleAwarded);
    reflexivity.
Defined.

(** The sample entries: the entry [1] was awarded [20] and needs [30] more to
    unlock the file that asks for [50]; the entry [2] was awarded nothing. *)
Lemma sample_entries_unlock :
  exists out : list (EntryItem.t unit unit),
    getBountyEntriesHandler (fun _ _ => Returns sampleEntries)
      (fun _ => Returns sampleEntryImages) (fun _ => Returns sampleFiles)
      (fun _ => @Returns unit _ sampleAwarded) (fun e => e) (fun _ => false)
      7 false None = Returns out
    /\ List.map EntryItem.awardedUnitAmountTotal out = [20; 0]
    /\ List.map EntryItem.fileUnlockAmount out = [30; 50].
Proof. eexists. split; [reflexivity|]. split; reflexivity. Qed.

Lemma entries_images_and_files_witness :
  exists out : list (EntryItem.t unit unit),
    getBountyEntriesHandler (fun _ _ => Returns sampleEntries)
      (fun _ => Returns sampleEntryImages) (fun _ => Returns sampleFiles)
      (fun _ => @Returns unit _ sampleAwarded) (fun e => e) (fun _ => false)
      7 false None = Returns out
    /\ Forall
         (fun item : EntryItem.t unit unit =>
            Forall (fun i => EntityImage.entityId i = EntryItem.id item)
              (EntryItem.images item)
            /\ (forall i, In i sampleEntryImages ->
                          EntityImage.entityId i = EntryItem.id item ->
                          In i (EntryItem.images item))
            /\ sublist (EntryItem.images item) sampleEntryImages
            /\ EntryItem.fileCount item = Z.of_nat (length sampleFiles))
         out.
Proof.
  apply (entries_images_and_files (fun _ _ => Returns sampleEntries)
           (fun _ => Returns sampleEntryImages) (fun _ => Returns sampleFiles)
           (fun _ => @Returns unit _ sampleAwarded) (fun e => e) (fun _ => false)
           7 false None sampleEntries sampleEntryImages sampleFiles sampleAwarded);
    reflexivity.
Defined.

(** The sample page: the row [2] has no image and the row [3] is the cursor. *)
Lemma sample_bounties_page :
  getInfiniteBountiesHandler sampleGetAllBounties sampleGetImagesForBounties
    (fun e => e) (BountyInput.mk 2 None tt) None
  = Returns (BountyPage.mk (Some 3)
               [BountyItem.mk 1 tt [tt] [TagInfo.mk 5 "anime"]]).
Proof. reflexivity. Qed.

(** * Further properties of the filter: pages and anonymous viewers *)

(** X17.  The call on two lists of items, one after the other (two pages of an
    infinite query), returns the items of the two calls, one after the other,
    and the sum of their tallies; it throws when one of the two calls throws,
    with the error of the first that does. *)
Theorem pages_concatenate `{SharedUtils} (props : FilterPreferencesProps) (k : DataKey)
    (xs ys : list (ItemOf k)) :
  reachesSwitch props = true ->
  filterPreferences props (key k) (Some (xs ++ ys))
  = combine (filterPreferences props (key k) (Some xs))
      (filterPreferences props (key k) (Some ys)).
Proof.
  intros Hr. rewrite !(filterPreferences_switch props k _ Hr). apply switch_app.
Qed.

Lemma pages_concatenate_witness :
  filterPreferences (plainProps 3) (key images) (Some ([imageRatedR] ++ [imageRatedPg]))
  = combine (filterPreferences (plainProps 3) (key images) (Some [imageRatedR]))
      (filterPreferences (plainProps 3) (key images) (Some [imageRatedPg])).
Proof.
  apply (pages_concatenate (plainProps 3) images [imageRatedR] [imageRatedPg]).
  reflexivity.
Defined.

Section Anonymous.
Context {U : SharedUtils}.
Variable props : FilterPreferencesProps.
Hypothesis anonymous : currentUser props = None.

(** Without a session there is no override for an item. *)
Lemma anonymous_not_overridden k x : overridden props k x = false.
Proof.
  unfold overridden.
  destruct k; cbn [levelOf isOwner]; try reflexivity;
    unfold override, isModerator, currentUserId; rewrite anonymous;
    try (cbn [strictEq orb andb]; reflexivity);
    match goal with |- context [truthy ?u] => destruct u end;
    cbn [truthy strictEq]; rewrite ?andb_false_r; reflexivity.
Qed.
End Anonymous.

(** X18.  For a viewer without a session, in a call that is not
    short-circuited, the override never applies: the returned models, images,
    articles, collections, bounties or posts come, one for one and in order,
    from input items [kept] that pass the maturity test of their branch and
    that no block-list rule applies to; each returned item is the input item
    it comes from with some of its images, and passes the maturity test
    too. *)
Theorem anonymous_sees_no_override `{SharedUtils} (props : FilterPreferencesProps)
    (k : DataKey) (xs : list (ItemOf k)) :
  currentUser props = None ->
  reachesSwitch props = true ->
  Forall (fun x => imagesPresent k x = true) xs ->
  k <> users -> k <> tags ->
  exists r kept,
    filterPreferences props (key k) (Some xs) = Ok r
    /\ sublist kept xs
    /\ Forall (fun x => levelVisible props k x = true /\ blocked props k x = false) kept
    /\ length kept = length (items r)
    /\ Forall (fun o => levelVisible props k o = true) (items r)
    /\ Forall2 (derived props k) kept (items r)
    /\ (filterOnly k = true -> items r = kept).
Proof.
  intros Ha Hr Hall Hu Ht. rewrite (filterPreferences_switch props k _ Hr).
  destruct (switch_returns props k _ Hall) as [r E].
  pose proof (switch_items props k _ r E) as Hi.
  assert (Hex : forall x, exempt props k x = overridden props k x)
    by (intros x; destruct k; congruence || reflexivity).
  assert (Hkept : exists kept,
             sublist kept xs
             /\ Forall (fun x => levelVisible props k x = true
                                 /\ blocked props k x = false) kept
             /\ length kept = length (flat_map (contribution props k) xs)
             /\ Forall (fun o => levelVisible props k o = true)
                  (flat_map (contribution props k) xs)
             /\ Forall2 (derived props k) kept (flat_map (contribution props k) xs)).
  { clear Hi E Hall r.
    induction xs as [|x xs (kept & Hs & Hk & Hl & Ho & Hd)]; cbn [flat_map].
    - exists []. repeat split; constructor.
    - destruct (contribution props k x) as [|o os] eqn:Hc.
      + exists kept. cbn [app]. repeat split; try assumption. now constructor.
      + assert (Hx : passes props k x = true /\ mapped props k x = Ok (Some o)
                     /\ os = []).
        { revert Hc. unfold contribution. destruct (passes props k x); [|discriminate].
          destruct (mapped props k x) as [[o'|]|e]; try discriminate.
          intros [= -> <-]. auto. }
        destruct Hx as (Hp & Hm & ->).
        exists (x :: kept). cbn [app length]. repeat split.
        * now constructor.
        * constructor; [|assumption]. split.
          -- destruct (passes_level props k x Hp) as [Hov|Hlv]; [|assumption].
             now rewrite (anonymous_not_overridden props Ha k x) in Hov.
          -- destruct (blocked props k x) eqn:Hb; [|reflexivity].
             pose proof (blocked_fails props k x) as Hf. rewrite Hex in Hf.
             rewrite (Hf (anonymous_not_overridden props Ha k x) Hb) in Hp. discriminate.
        * now rewrite Hl.
        * constructor; [|assumption].
          destruct (mapped_level props k x o Hm) as [Hlo _].
          destruct (passes_level props k x Hp) as [Hov|Hlv].
          -- now rewrite (anonymous_not_overridden props Ha k x) in Hov.
          -- unfold levelVisible in *. now rewrite Hlo.
        * constructor; [|assumption]. now apply mapped_derived. }
  destruct Hkept as (kept & Hs & Hk & Hl & Ho & Hd).
  exists r, kept. cbn [ElemOf] in *. rewrite Hi.
  split; [assumption|]. split; [assumption|]. split; [assumption|].
  split; [assumption|]. split; [assumption|]. split; [assumption|].
  intros Hfo. clear -Hd Hfo.
  induction Hd as [|x o kept os Hxo _ IH]; [reflexivity|]. rewrite IH. f_equal.
  destruct k; try discriminate Hfo; exact Hxo.
Qed.

Lemma anonymous_sees_no_override_witness :
  exists r kept,
    filterPreferences (plainProps 3) (key images) (Some [imageRatedR; imageRatedPg]) = Ok r
    /\ sublist kept [imageRatedR; imageRatedPg]
    /\ Forall (fun x => levelVisible (plainProps 3) images x = true
                        /\ blocked (plainProps 3) images x = false) kept
    /\ length kept = length (items r)
    /\ Forall (fun o => levelVisible (plainProps 3) images o = true) (items r)
    /\ Forall2 (derived (plainProps 3) images) kept (items r)
    /\ (filterOnly images = true -> items r = kept).
Proof.
  apply (anonymous_sees_no_override (plainProps 3) images [imageRatedR; imageRatedPg]);
    [reflexivity | reflexivity | repeat constructor | discriminate | discriminate].
Defined.

(** X19.  For a viewer without a session, an unrated image of a post that has
    no owner reference counts as the viewer's own ([undefined === undefined]):
    when the post passes the filter, the image is among the images of the
    returned post, whatever the browsing level, the hidden images and the
    hidden tags are. *)
Theorem anonymous_sees_ownerless_post_images `{SharedUtils}
    (props : FilterPreferencesProps) (post : BasePost.t) (imgs : list BaseImage.t)
    (image : BaseImage.t) :
  currentUser props = None ->
  reachesSwitch props = true ->
  passes props posts post = true ->
  BasePost.images post = Some imgs ->
  In image imgs ->
  BaseImage.userId image = None -> BaseImage.user image = None ->
  BaseImage.nsfwLevel image = 0 ->
  exists h,
    filterPreferences props (key posts) (Some [post])
    = Ok {| items := [BasePost.withImages post (List.filter (postImageVisible props) imgs)];
            hidden := h |}
    /\ In image (List.filter (postImageVisible props) imgs).
Proof.
  intros Ha Hr Hp Hi Hin Hu Hus Hl.
  assert (Hv : postImageVisible props image = true).
  { unfold postImageVisible, override, currentUserId. rewrite Ha, Hu, Hus, Hl. reflexivity. }
  assert (Hf : In image (List.filter (postImageVisible props) imgs))
    by (apply filter_In; auto).
  rewrite (filterPreferences_switch props posts [post] Hr), switch_single, Hp.
  cbn [mapCallback]. unfold postsMap. rewrite Hi. cbn zeta.
  destruct (List.filter (postImageVisible props) imgs) as [|i l] eqn:Hfl; [destruct Hf|].
  cbn [length Nat.eqb negb orb]. eexists. split; [reflexivity|assumption].
Qed.

Lemma anonymous_sees_ownerless_post_images_witness :
  exists h,
    filterPreferences (anonymousProps 1 hidingPreferences) (key posts)
      (Some [postWithOwnerlessImage])
    = Ok {| items :=
              [BasePost.withImages postWithOwnerlessImage
                 (List.filter (postImageVisible (anonymousProps 1 hidingPreferences))
                    [BaseImage.mk 3 None None (Some [5]) 0])];
            hidden := h |}
    /\ In (BaseImage.mk 3 None None (Some [5]) 0)
         (List.filter (postImageVisible (anonymousProps 1 hidingPreferences))
            [BaseImage.mk 3 None None (Some [5]) 0]).
Proof.
  apply (anonymous_sees_ownerless_post_images (anonymousProps 1 hidingPreferences)
           postWithOwnerlessImage [BaseImage.mk 3 None None (Some [5]) 0]
           (BaseImage.mk 3 None None (Some [5]) 0));
    try reflexivity. now left.
Defined.

(** * Further properties of the filter: the rules of the filter callback *)

Section FilterRules.
Context {U : SharedUtils}.
Variable props : FilterPreferencesProps.

(** The filter callback lets an item through exactly when it is exempt, or
    passes the level test and no block-list rule applies to it. *)
Lemma passes_rules k x :
  passes props k x
  = exempt props k x || (levelPasses props k x && negb (blocked props k x)).
Proof.
  unfold exempt, levelPasses, overridden, levelVisible, tagRestricted.
  unfold_filter k; cbn [levelOf isOwner blocked];
    callback_cases; cbn [fst];
    repeat match goal with
           | H : negb _ = true |- _ => apply negb_true_iff in H
           | H : negb _ = false |- _ => apply negb_false_iff in H
           end;
    repeat match goal with H : _ = _ |- _ => rewrite H end;
    cbn [orb andb negb]; rewrite ?orb_true_r, ?andb_false_r; reflexivity.
Qed.
End FilterRules.

Lemma filter_ext_bool {A : Type} (p q : A -> bool) (xs : list A) :
  (forall x, p x = q x) -> List.filter p xs = List.filter q xs.
Proof.
  intros Hpq. induction xs as [|x xs IH]; cbn [List.filter]; [reflexivity|].
  now rewrite Hpq, IH.
Qed.

Lemma filter_only_items `{SharedUtils} (props : FilterPreferencesProps) (k : DataKey)
    (xs : list (ItemOf k)) :
  filterOnly k = true ->
  flat_map (contribution props k) xs = List.filter (passes props k) xs.
Proof.
  intros Hk. induction xs as [|x xs IH]; cbn [flat_map List.filter]; [reflexivity|].
  rewrite IH. unfold contribution, mapped.
  destruct k; try discriminate Hk; cbn [mapCallback]; now destruct (passes props _ x).
Qed.

(** X20.  For images, articles, users and tags, the output of a call that is
    not short-circuited is exactly the items that are exempt (overridden; for
    users: the viewer) or that pass the level test of the branch and are not
    blocked by a hidden owner, a hidden id or a hidden tag, in their order;
    the count that the hook reports is the number of the others. *)
Theorem filter_only_output `{SharedUtils} (props : FilterPreferencesProps) (k : DataKey)
    (xs : list (ItemOf k)) :
  filterOnly k = true ->
  reachesSwitch props = true ->
  exists r,
    filterPreferences props (key k) (Some xs) = Ok r
    /\ items r
       = List.filter
           (fun x => exempt props k x
                     || (levelPasses props k x && negb (blocked props k x))) xs
    /\ reportedCount (hidden r)
       = countIf
           (fun x => negb (exempt props k x
                           || (levelPasses props k x && negb (blocked props k x)))) xs.
Proof.
  intros Hk Hr. rewrite (filterPreferences_switch props k _ Hr).
  assert (Hall : Forall (fun x => imagesPresent k x = true) xs).
  { apply List.Forall_forall. intros x _. now destruct k. }
  assert (Hclear : Forall (fun x => featuredTagsClear props k x = true) xs).
  { apply List.Forall_forall. intros x _. now destruct k. }
  destruct (switch_returns props k _ Hall) as [r E]. exists r. split; [assumption|].
  destruct (switch_account props k xs r E Hclear) as (A1 & _).
  cbn [ElemOf] in *. rewrite (switch_items props k _ r E), (filter_only_items props k xs Hk).
  split.
  - apply filter_ext_bool, passes_rules.
  - rewrite A1. unfold countIf. do 2 f_equal. apply filter_ext_bool.
    intros x. now rewrite passes_rules.
Qed.

Lemma filter_only_output_witness :
  exists r,
    filterPreferences (viewerProps viewer7 1 hidingPreferences) (key images)
      (Some [ownUnratedImage; imageRatedPg; imageRatedR]) = Ok r
    /\ items r
       = List.filter
           (fun x => exempt (viewerProps viewer7 1 hidingPreferences) images x
                     || (levelPasses (viewerProps viewer7 1 hidingPreferences) images x
                         && negb (blocked (viewerProps viewer7 1 hidingPreferences)
                                    images x)))
           [ownUnratedImage; imageRatedPg; imageRatedR]
    /\ reportedCount (hidden r)
       = countIf
           (fun x => negb (exempt (viewerProps viewer7 1 hidingPreferences) images x
                           || (levelPasses (viewerProps viewer7 1 hidingPreferences)
                                 images x
                               && negb (blocked (viewerProps viewer7 1 hidingPreferences)
                                          images x))))
           [ownUnratedImage; imageRatedPg; imageRatedR].
Proof.
  apply (filter_only_output (viewerProps viewer7 1 hidingPreferences) images
           [ownUnratedImage; imageRatedPg; imageRatedR]); reflexivity.
Defined.

(** ** Hiding more never shows more *)

Section HidingMore.
Context {U : SharedUtils}.
Variable props : FilterPreferencesProps.
Variable more : HiddenPreferencesState.
Hypothesis noLess : hidesNoLess (hiddenPreferences props) more.

Lemma existsb_get_mono {A : Type} (m m' : gmap Z bool) (f : A -> Z) (xs : list A) :
  (forall i, get m i = true -> get m' i = true) ->
  existsb (fun x => get m (f x)) xs = true -> existsb (fun x => get m' (f x)) xs = true.
Proof.
  intros Hm. rewrite !existsb_exists. intros [x [Hx Hg]]. exists x. auto.
Qed.

Lemma anyHiddenTag_mono tagIds :
  anyHiddenTag props tagIds = true ->
  anyHiddenTag (setPreferences more props) tagIds = true.
Proof.
  unfold anyHiddenTag. cbn [setPreferences hiddenPreferences].
  destruct noLess as (_ & _ & Ht & _).
  apply (existsb_get_mono _ _ (fun t => t)), Ht.
Qed.

Lemma hiddenOwner_mono (userId : option Z) :
  from_option (get (hiddenUsers (hiddenPreferences props))) false userId = true ->
  from_option (get (hiddenUsers more)) false userId = true.
Proof.
  destruct noLess as (_ & _ & _ & Hu & _).
  destruct userId as [u|]; cbn [from_option]; [apply Hu|discriminate].
Qed.

(** A block-list rule that applies still applies when more is hidden. *)
Lemma blocked_mono k x :
  blocked props k x = true -> blocked (setPreferences more props) k x = true.
Proof.
  pose proof anyHiddenTag_mono as Htags. pose proof hiddenOwner_mono as Howner.
  destruct noLess as (Hm & Hi & Ht & Hu & _).
  destruct k; cbn [blocked setPreferences hiddenPreferences showHidden];
    rewrite ?orb_true_iff, ?andb_true_iff.
  - intros [[[Ha Hb]|[Ha Hb]]|Hc]; auto 6.
  - intros [[[Ha Hb]|[Ha Hb]]|Hc]; auto 6.
  - intros [[Ha|Hb]|Hc]; auto 6.
    destruct (BaseArticle.coverImage x) as [c|]; [|discriminate].
    apply orb_true_iff in Hc as [Hc|Hc]; right; apply orb_true_iff; auto.
  - auto.
  - intros [[Ha Hb]|Hb]; auto.
    destruct (BaseCollection.image x) as [i|]; [|discriminate]. auto.
  - intros [[Ha|Hb]|Hc]; auto 6.
    left. right. revert Hb. apply (existsb_get_mono _ _ OwnedImage.id), Hi.
  - intros [Ha Hb]; auto.
  - auto.
Qed.

Lemma exempt_setPreferences k x :
  exempt (setPreferences more props) k x = exempt props k x.
Proof. destruct k; reflexivity. Qed.

Lemma levelPasses_setPreferences k x :
  levelPasses (setPreferences more props) k x = levelPasses props k x.
Proof.
  destruct noLess as (_ & _ & _ & _ & Hmt & _).
  destruct k; try reflexivity.
  cbn [levelPasses]. unfold tagRestricted, moderatedTagIds.
  cbn [setPreferences hiddenPreferences browsingLevel]. now rewrite Hmt.
Qed.

(** An item that passes the filter callback when more is hidden passes it
    already. *)
Lemma passes_mono k x :
  passes (setPreferences more props) k x = true -> passes props k x = true.
Proof.
  rewrite !passes_rules, exempt_setPreferences, levelPasses_setPreferences.
  destruct (exempt props k x); [reflexivity|]. cbn [orb].
  destruct (levelPasses props k x); [|discriminate]. cbn [andb].
  destruct (blocked props k x) eqn:Hb; [|reflexivity].
  now rewrite (blocked_mono k x Hb).
Qed.
End HidingMore.

Lemma filter_sublist_mono {A : Type} (p q : A -> bool) (xs : list A) :
  (forall x, q x = true -> p x = true) ->
  sublist (List.filter q xs) (List.filter p xs).
Proof.
  intros Hqp. induction xs as [|x xs IH]; cbn [List.filter]; [constructor|].
  destruct (q x) eqn:Hq.
  - rewrite (Hqp x Hq). now constructor.
  - destruct (p x); [now constructor|assumption].
Qed.

(** X21.  For images, articles, users and tags, hiding more ids (with the same
    moderated tags) never shows more: the items returned under the larger
    hidden sets are, in their order, among the items returned under the
    smaller ones. *)
Theorem hiding_more_shows_no_more `{SharedUtils} (props : FilterPreferencesProps)
    (more : HiddenPreferencesState) (k : DataKey) (xs : list (ItemOf k)) :
  hidesNoLess (hiddenPreferences props) more ->
  filterOnly k = true ->
  reachesSwitch props = true ->
  exists r r',
    filterPreferences props (key k) (Some xs) = Ok r
    /\ filterPreferences (setPreferences more props) (key k) (Some xs) = Ok r'
    /\ sublist (items r') (items r).
Proof.
  intros Hmore Hk Hr.
  assert (Hr' : reachesSwitch (setPreferences more props) = true).
  { revert Hr. unfold reachesSwitch. cbn [setPreferences disabled hiddenPreferences].
    destruct Hmore as (_ & _ & _ & _ & _ & ->). auto. }
  rewrite (filterPreferences_switch props k _ Hr).
  rewrite (filterPreferences_switch _ k _ Hr').
  assert (Hall : Forall (fun x => imagesPresent k x = true) xs).
  { apply List.Forall_forall. intros x _. now destruct k. }
  destruct (switch_returns props k _ Hall) as [r E].
  destruct (switch_returns (setPreferences more props) k _ Hall) as [r' E'].
  exists r, r'. repeat split; try assumption. cbn [ElemOf].
  rewrite (switch_items _ k _ r E), (switch_items _ k _ r' E').
  rewrite !filter_only_items by assumption.
  apply filter_sublist_mono. intros x. now apply passes_mono.
Qed.

Lemma hiding_more_shows_no_more_witness :
  exists r r',
    filterPreferences (viewerProps viewer7 1 noPreferences) (key images)
      (Some [ownUnratedImage; imageRatedPg; imageWithoutOwner]) = Ok r
    /\ filterPreferences
         (setPreferences hidingPreferences (viewerProps viewer7 1 noPreferences))
         (key images) (Some [ownUnratedImage; imageRatedPg; imageWithoutOwner]) = Ok r'
    /\ sublist (items r') (items r).
Proof.
  apply (hiding_more_shows_no_more (viewerProps viewer7 1 noPreferences)
           hidingPreferences images [ownUnratedImage; imageRatedPg; imageWithoutOwner]);
    [|reflexivity|reflexivity].
  repeat split; intros i; unfold get; cbn [viewerProps hiddenPreferences noPreferences
    hiddenModels hiddenImages hiddenTags hiddenUsers]; rewrite lookup_empty; discriminate.
Defined.
